(** * Text-to-image client programs: the standalone script and the web service

    A shallow embedding of [generate_image.py] (a one-shot script) and
    [main.py] (a FastAPI service with one generation endpoint), and the
    properties of their request building and response interpretation.

    Both programs talk to three collaborators that are not part of the
    repository: the provider SDK ([stability_sdk.client]), the protobuf
    constants of [generation_pb2], and the image codec ([PIL.Image]).  They are
    interfaces here (type classes); every theorem holds for all their
    implementations.  Effects are explicit: a program is a function on a
    process state that holds the environment variables, the module-level
    client handle and the chronological list of observable events (lines
    printed, warnings, provider calls, payloads decoded, files saved). *)

From stdpp Require Import gmap strings list pretty.
From Stdlib Require Import QArith Ascii.

Open Scope Z_scope.

(** ** Python values *)

(** An exception of class [Exception], identified by its [str(e)]. *)
Definition Exception : Type := string.

(** Truth value of a [str] and of an [Optional[str]] ([None] and [""] are
    false). *)
Definition truthy (s : string) : bool :=
  match s with
  | EmptyString => false
  | String _ _ => true
  end.

Definition truthy_opt (o : option string) : bool :=
  match o with
  | None => false
  | Some s => truthy s
  end.

(** A dict literal with string keys; insertion order is kept, as [keys()]
    lists the keys in that order. *)
Definition dict (V : Type) : Type := list (string * V).

Fixpoint dict_get {V : Type} (k : string) (d : dict V) : option V :=
  match d with
  | [] => None
  | (k', v) :: d' => if String.eqb k k' then Some v else dict_get k d'
  end.

Definition dict_keys {V : Type} (d : dict V) : list string := d.*1.

(** [k in d] *)
Definition dict_in {V : Type} (k : string) (d : dict V) : bool :=
  match dict_get k d with
  | Some _ => true
  | None => false
  end.

Definition newline : string := String (Ascii.ascii_of_nat 10) "".

(** The values a response object of the service holds. *)
Inductive JSON : Type :=
  | JStr (s : string)
  | JList (l : list string).

Definition Response : Type := dict JSON.

(** ** The provider's data *)

Record Artifact : Type := {
  type : Z;
  finish_reason : Z;
  binary : list Byte.byte;
}.

(** One chunk of the response stream. *)
Record Answer : Type := { artifacts : list Artifact }.

(** The response stream, as the [for] loop sees the generator: it ends, yields
    a chunk, or raises. *)
Inductive answers : Type :=
  | StopIteration
  | Yield (resp : Answer) (rest : answers)
  | Raises (e : Exception).

Record PromptParameters : Type := { weight : Q }.

Record Prompt : Type := {
  text : string;
  parameters : PromptParameters;
}.

(** The [prompt=] argument is either a bare [str] or a list of weighted
    [Prompt] messages. *)
Inductive prompt_arg : Type :=
  | Bare (s : string)
  | Weighted (l : list Prompt).

(** The weights the program itself attaches to its prompt components. *)
Definition weights (p : prompt_arg) : list Q :=
  match p with
  | Bare _ => []
  | Weighted l => (weight ∘ parameters) <$> l
  end.

(** The texts of the prompt components, in order. *)
Definition texts (p : prompt_arg) : list string :=
  match p with
  | Bare s => [s]
  | Weighted l => text <$> l
  end.

(** The keyword arguments of [stability_api.generate(...)]. *)
Record generate_kwargs : Type := {
  prompt : prompt_arg;
  steps : Z;
  cfg_scale : Q;
  width : Z;
  height : Z;
  samples : Z;
  sampler : Z;
}.

(** ** The collaborators *)

(** The enum values of [generation_pb2] the programs compare against. *)
Class generation_pb2 : Type := {
  FILTER : Z;
  ARTIFACT_IMAGE : Z;
  SAMPLER_K_DPMPP_2M : Z;
}.

(** [PIL.Image]: [Image.open(io.BytesIO(b))] decodes or raises, [img.save(f)]
    writes the file or raises. *)
Class PIL : Type := {
  Image : Type;
  Image_open : list Byte.byte → Exception + Image;
  Image_save : Image → string → option Exception;
}.

(** [stability_sdk.client]: the constructor (key, verbose, engine) and the
    [generate] method of a constructed client. *)
Class stability_sdk : Type := {
  StabilityInference : Type;
  StabilityInference_new : string → bool → string → Exception + StabilityInference;
  generate : StabilityInference → generate_kwargs → Exception + answers;
}.

(** ** Process state and effects *)

Inductive Event `{PIL} : Type :=
  | Print (line : string)
  | Warn (message : string)
  | Generate (kwargs : generate_kwargs)
  | Open (payload : list Byte.byte)
  | Save (img : Image) (filename : string).

Record State `{PIL} `{stability_sdk} : Type := {
  environ : gmap string string;
  stability_api : option StabilityInference;
  output : list Event;
}.

Section Effects.
Context `{pil : PIL} `{sdk : stability_sdk}.

(** A computation that may raise an [E] and always leaves a state. *)
Definition M (E A : Type) : Type := State → (E + A) * State.

#[global] Instance M_ret {E} : MRet (M E) := λ A x s, (inr x, s).

#[global] Instance M_bind {E} : MBind (M E) := λ A B f m s,
  match m s with
  | (inl e, s') => (inl e, s')
  | (inr x, s') => f x s'
  end.

Definition raise {E A} (e : E) : M E A := λ s, (inl e, s).

(** [try: body except Exception as e: handler] *)
Definition try_except {E E' A} (body : M E A) (handler : E → M E' A) : M E' A :=
  λ s,
    match body s with
    | (inl e, s') => handler e s'
    | (inr x, s') => (inr x, s')
    end.

Definition emit {E} (ev : Event) : M E unit := λ s,
  (inr (), {| environ := environ s; stability_api := stability_api s;
              output := output s ++ [ev] |}).

Definition print {E} (line : string) : M E unit := emit (Print line).
Definition warnings_warn {E} (message : string) : M E unit := emit (Warn message).

(** [os.environ.get(k)] and [os.environ[k] = v] *)
Definition environ_get {E} (k : string) : M E (option string) := λ s,
  (inr (environ s !! k), s).

Definition environ_set {E} (k v : string) : M E unit := λ s,
  (inr (), {| environ := <[k := v]> (environ s); stability_api := stability_api s;
              output := output s |}).

(** The module-level variable [stability_api]. *)
Definition get_stability_api {E} : M E (option StabilityInference) := λ s,
  (inr (stability_api s), s).

Definition set_stability_api {E} (c : option StabilityInference) : M E unit := λ s,
  (inr (), {| environ := environ s; stability_api := c; output := output s |}).

Definition of_result {A} (r : Exception + A) : M Exception A := λ s, (r, s).

Definition client_StabilityInference (key : string) (verbose : bool) (engine : string)
  : M Exception StabilityInference :=
  of_result (StabilityInference_new key verbose engine).

Definition stability_api_generate (c : StabilityInference) (kwargs : generate_kwargs)
  : M Exception answers :=
  emit (Generate kwargs);; of_result (generate c kwargs).

Definition Image_open_BytesIO (payload : list Byte.byte) : M Exception Image :=
  emit (Open payload);; of_result (Image_open payload).

Definition img_save (img : Image) (filename : string) : M Exception unit :=
  emit (Save img filename);;
  match Image_save img filename with
  | Some e => raise e
  | None => mret ()
  end.

(** A function that cannot raise, run on a state. *)
Definition run {A} (m : M Empty_set A) (s : State) : A * State :=
  match m s with
  | (inl e, _) => match e with end
  | (inr x, s') => (x, s')
  end.

(** What a run did to the world, read off the events.  [Open] and [Save] are
    recorded when the codec is called, so [decoded] and [files_written] also
    hold the calls that raised. *)
Definition provider_calls (evs : list Event) : list generate_kwargs :=
  omap (λ ev, match ev with Generate k => Some k | _ => None end) evs.

Definition decoded (evs : list Event) : list (list Byte.byte) :=
  omap (λ ev, match ev with Open b => Some b | _ => None end) evs.

Definition files_written (evs : list Event) : list (Image * string) :=
  omap (λ ev, match ev with Save img f => Some (img, f) | _ => None end) evs.

Definition printed (evs : list Event) : list string :=
  omap (λ ev, match ev with Print l => Some l | _ => None end) evs.

Definition warned (evs : list Event) : list string :=
  omap (λ ev, match ev with Warn l => Some l | _ => None end) evs.

End Effects.

(** * The service, [main.py] *)

Module main.

Section Service.
Context `{pb2 : generation_pb2} `{pil : PIL} `{sdk : stability_sdk}.

(** Module level: the connection target is put in the environment and the
    client handle starts as [None]. *)
Definition import_module (env : gmap string string) : State :=
  {| environ := <["STABILITY_HOST" := "grpc.stability.ai:443"]> env;
     stability_api := None;
     output := [] |}.

Definition startup_event : M Empty_set unit :=
  api_key ← environ_get "STABILITY_KEY";
  if negb (truthy_opt api_key) then
    print "FATAL ERROR: STABILITY_KEY environment variable not set.";;
    print "Please set STABILITY_KEY before running the Uvicorn server.";;
    mret ()
  else
    try_except
      (c ← client_StabilityInference (default "" api_key) true "stable-diffusion-xl-1024-v1-0";
       set_stability_api (Some c);;
       print "Successfully connected to Stability AI API on startup.")
      (λ e,
         print ("Error connecting to Stability AI on startup: " +:+ e);;
         set_stability_api None).

Definition ASPECT_RATIOS : dict (Z * Z) := [
  ("1:1_square", (1024, 1024));
  ("16:9_widescreen", (1344, 768));
  ("9:16_tall", (768, 1344));
  ("3:2_landscape", (1216, 832));
  ("2:3_portrait", (832, 1216))
].

Definition read_root : Response :=
  [("message", JStr "Welcome to the AI Image Generator API!")].

(** The local variables the two loops update. *)
Record locals : Type := {
  image_saved_successfully : bool;
  safety_filter_triggered : bool;
  error_message : string;
}.

(** [for artifact in resp.artifacts: ...]; leaving the function with the
    flags set is the [break]. *)
Fixpoint for_artifact (output_filename : string) (arts : list Artifact) (l : locals)
  : M Exception locals :=
  match arts with
  | [] => mret l
  | artifact :: arts' =>
      if Z.eqb (finish_reason artifact) FILTER then
        warnings_warn "Request activated the API's safety filter.";;
        mret {| image_saved_successfully := image_saved_successfully l;
                safety_filter_triggered := true;
                error_message := "Safety filter activated. Please modify prompt." |}
      else if Z.eqb (type artifact) ARTIFACT_IMAGE then
        img ← Image_open_BytesIO (binary artifact);
        img_save img output_filename;;
        print ("Image successfully saved as " +:+ output_filename);;
        mret {| image_saved_successfully := true;
                safety_filter_triggered := safety_filter_triggered l;
                error_message := error_message l |}
      else for_artifact output_filename arts' l
  end.

(** [for resp in answers: ...] *)
Fixpoint for_resp (output_filename : string) (ans : answers) (l : locals)
  : M Exception locals :=
  match ans with
  | StopIteration => mret l
  | Raises e => raise e
  | Yield resp rest =>
      l' ← for_artifact output_filename (artifacts resp) l;
      if image_saved_successfully l' || safety_filter_triggered l' then mret l'
      else for_resp output_filename rest l'
  end.

(** The keyword arguments of the call at lines 86-97. *)
Definition generate_call (prompt negative_prompt : string) (image_width image_height : Z)
  : generate_kwargs :=
  {| prompt :=
       if truthy negative_prompt then
         Weighted [ {| text := prompt; parameters := {| weight := 1 |} |};
                    {| text := negative_prompt; parameters := {| weight := -1 |} |} ]
       else Bare prompt;
     steps := 50;
     cfg_scale := 7;
     width := image_width;
     height := image_height;
     samples := 1;
     sampler := SAMPLER_K_DPMPP_2M |}.

(** The body of the [try] block. *)
Definition try_body (api : StabilityInference)
    (prompt negative_prompt aspect_ratio_key : string)
    (image_width image_height : Z) (output_filename : string) : M Exception Response :=
  ans ← stability_api_generate api
          (generate_call prompt negative_prompt image_width image_height);
  l ← for_resp output_filename ans
        {| image_saved_successfully := false;
           safety_filter_triggered := false;
           error_message := "No image generated." |};
  if image_saved_successfully l then
    mret [("message", JStr "Image generated successfully!");
          ("filename", JStr output_filename);
          ("prompt", JStr prompt);
          ("negative_prompt", JStr negative_prompt);
          ("aspect_ratio", JStr aspect_ratio_key)]
  else
    mret [("error", JStr (error_message l));
          ("details", JStr "Could not generate or save image.")].

(** [unique_id] is the value [uuid.uuid4()] draws for this request, as text. *)
Definition generate_image_endpoint
    (prompt negative_prompt aspect_ratio_key : string) (unique_id : string)
  : M Empty_set Response :=
  api ← get_stability_api;
  match api with
  | None =>
      key ← environ_get "STABILITY_KEY";
      let api_key_status :=
        if negb (truthy_opt key) then "NOT SET or connection FAILED"
        else "Set, but connection FAILED on startup" in
      mret [("error", JStr "Stability API not initialized. Check server logs.");
            ("detail", JStr ("STABILITY_KEY status: " +:+ api_key_status +:+
               ". Please ensure it's set correctly when starting Uvicorn."))]
  | Some api =>
      match dict_get aspect_ratio_key ASPECT_RATIOS with
      | None =>
          mret [("error", JStr "Invalid aspect_ratio_key");
                ("available_keys", JList (dict_keys ASPECT_RATIOS))]
      | Some (image_width, image_height) =>
          let output_filename := "generated_image_" +:+ unique_id +:+ ".png" in
          print (newline +:+ "Received request to generate image:");;
          print ("  Prompt: '" +:+ prompt +:+ "'");;
          (if truthy negative_prompt
           then print ("  Negative Prompt: '" +:+ negative_prompt +:+ "'")
           else mret ());;
          print ("  Aspect Ratio: " +:+ aspect_ratio_key +:+ " (" +:+ pretty image_width
                 +:+ "x" +:+ pretty image_height +:+ ")");;
          print ("  Output Filename: " +:+ output_filename);;
          try_except
            (try_body api prompt negative_prompt aspect_ratio_key
               image_width image_height output_filename)
            (λ e,
               print ("Error during image generation: " +:+ e);;
               mret [("error", JStr "Failed to generate image.");
                     ("details", JStr e)])
      end
  end.

(** The query parameters with their declared defaults. *)
Definition post_generate_image (prompt : string)
    (negative_prompt aspect_ratio_key : option string) (unique_id : string)
  : M Empty_set Response :=
  generate_image_endpoint prompt (default "" negative_prompt)
    (default "1:1_square" aspect_ratio_key) unique_id.

End Service.
End main.

(** * The standalone script, [generate_image.py] *)

Module generate_image.

(** How the script can end before its last line: [exit()], the [KeyError] of a
    failed dict subscript, or any other exception nobody catches. *)
Inductive Abort : Type :=
  | SystemExit
  | KeyError (key : string)
  | Uncaught (e : Exception).

(** The three values the script fixes in its text and invites to change. *)
Record settings : Type := {
  prompt_text : string;
  negative_prompt_text : string;
  selected_aspect_ratio : string;
}.

Definition the_settings : settings :=
  {| prompt_text := "A fantasy castle on a floating island, vibrant colors, digital art";
     negative_prompt_text := "blurry, ugly, deformed, watermark, signature, text";
     selected_aspect_ratio := "16:9_widescreen" |}.

Definition aspect_ratios : dict (Z * Z) := [
  ("1:1_square", (1024, 1024));
  ("16:9_widescreen", (1344, 768));
  ("9:16_tall", (768, 1344))
].

Definition output_filename : string := "castle_widescreen.png".

Record locals : Type := {
  image_saved : bool;
  safety_filter_activated : bool;
  last_artifact_type_info : string;
}.

(** The f-string of line 68. *)
Definition artifact_info (artifact : Artifact) : string :=
  "Artifact type: " +:+ pretty (type artifact) +:+ ", Finish reason: "
    +:+ pretty (finish_reason artifact).

Section Script.
Context `{pb2 : generation_pb2} `{pil : PIL} `{sdk : stability_sdk}.

(** Lines 10-23: the client is built, or the script prints why not and
    exits. *)
Definition connect : M Abort StabilityInference :=
  try_except
    (api_key ← environ_get "STABILITY_KEY";
     if negb (truthy_opt api_key) then
       raise "STABILITY_KEY environment variable not set or empty."
     else
       c ← client_StabilityInference (default "" api_key) true
             "stable-diffusion-xl-1024-v1-0";
       set_stability_api (Some c);;
       print "Successfully connected to Stability AI API.";;
       mret c)
    (λ e : Exception,
       print ("Error connecting to Stability AI: " +:+ e);;
       raise SystemExit).

(** The keyword arguments of the call at lines 46-58. *)
Definition generate_call (prompt_text negative_prompt_text : string)
    (image_width image_height : Z) : generate_kwargs :=
  {| prompt :=
       if truthy negative_prompt_text then
         Weighted [ {| text := prompt_text; parameters := {| weight := 1 |} |};
                    {| text := negative_prompt_text;
                       parameters := {| weight := -1 |} |} ]
       else Bare prompt_text;
     steps := 50;
     cfg_scale := 7;
     width := image_width;
     height := image_height;
     samples := 1;
     sampler := SAMPLER_K_DPMPP_2M |}.

Fixpoint for_artifact (arts : list Artifact) (l : locals) : M Exception locals :=
  match arts with
  | [] => mret l
  | artifact :: arts' =>
      let info := artifact_info artifact in
      if Z.eqb (finish_reason artifact) FILTER then
        warnings_warn
          ("Your request activated the API's safety filter and could not be processed. "
           +:+ "Please modify the prompt and try again.");;
        print "Safety filter activated. No image generated.";;
        mret {| image_saved := image_saved l;
                safety_filter_activated := true;
                last_artifact_type_info := info |}
      else if Z.eqb (type artifact) ARTIFACT_IMAGE then
        img ← Image_open_BytesIO (binary artifact);
        img_save img output_filename;;
        print ("Image successfully saved as " +:+ output_filename);;
        mret {| image_saved := true;
                safety_filter_activated := safety_filter_activated l;
                last_artifact_type_info := info |}
      else
        for_artifact arts'
          {| image_saved := image_saved l;
             safety_filter_activated := safety_filter_activated l;
             last_artifact_type_info := info |}
  end.

Fixpoint for_resp (ans : answers) (l : locals) : M Exception locals :=
  match ans with
  | StopIteration => mret l
  | Raises e => raise e
  | Yield resp rest =>
      l' ← for_artifact (artifacts resp) l;
      if image_saved l' || safety_filter_activated l' then mret l'
      else for_resp rest l'
  end.

(** An exception outside every [try] ends the script. *)
Definition uncaught {A} (m : M Exception A) : M Abort A :=
  try_except m (λ e, raise (Uncaught e)).

(** Lines 45-88, with the client at hand. *)
Definition generate_and_save (api : StabilityInference) (cfg : settings)
    (image_width image_height : Z) : M Abort locals :=
  ans ← uncaught (stability_api_generate api
          (generate_call (prompt_text cfg) (negative_prompt_text cfg)
             image_width image_height));
  l ← uncaught (for_resp ans
        {| image_saved := false;
           safety_filter_activated := false;
           last_artifact_type_info := "No specific artifact processed." |});
  (if negb (image_saved l) && negb (safety_filter_activated l) then
     print ("No image artifact found in the response. Last artifact info: "
            +:+ last_artifact_type_info l)
   else mret ());;
  print (newline +:+ "Script finished.");;
  mret l.

(** The whole script; its result is the final value of the three variables. *)
Definition script (cfg : settings) : M Abort locals :=
  environ_set "STABILITY_HOST" "grpc.stability.ai:443";;
  api ← connect;
  match dict_get (selected_aspect_ratio cfg) aspect_ratios with
  | None => raise (KeyError (selected_aspect_ratio cfg))
  | Some (image_width, image_height) =>
      print (newline +:+ "Generating image for prompt: '" +:+ prompt_text cfg +:+ "'");;
      (if truthy (negative_prompt_text cfg)
       then print ("Negative prompt: '" +:+ negative_prompt_text cfg +:+ "'")
       else mret ());;
      print ("Aspect ratio: " +:+ selected_aspect_ratio cfg +:+ " (" +:+ pretty image_width
             +:+ "x" +:+ pretty image_height +:+ ")");;
      generate_and_save api cfg image_width image_height
  end.

(** The process as started: nothing printed yet, no client. *)
Definition fresh (env : gmap string string) : State :=
  {| environ := env; stability_api := None; output := [] |}.

End Script.
End generate_image.

(** * Vocabulary of the specification *)

Section Vocabulary.
Context `{pb2 : generation_pb2} `{pil : PIL} `{sdk : stability_sdk}.

(** The state [s] after the events [evs] happened, nothing else changed. *)
Definition log (s : State) (evs : list Event) : State :=
  {| environ := environ s; stability_api := stability_api s;
     output := output s ++ evs |}.

Definition is_filter (a : Artifact) : bool := Z.eqb (finish_reason a) FILTER.
Definition is_image (a : Artifact) : bool := Z.eqb (type a) ARTIFACT_IMAGE.

(** An artifact that decides nothing: neither a filter signal nor an image. *)
Definition inert (a : Artifact) : bool := negb (is_filter a) && negb (is_image a).

(** Chunks with only such artifacts (or none). *)
Definition inert_chunk (r : Answer) : bool := forallb inert (artifacts r).

(** A stream that yields [chunks] and then goes on as [rest]. *)
Definition prepend (chunks : list Answer) (rest : answers) : answers :=
  foldr Yield rest chunks.

(** A stream that yields [chunks] and ends. *)
Definition exhausted (chunks : list Answer) : answers := prepend chunks StopIteration.

(** The artifacts of some chunks, in arrival order. *)
Definition flatten (chunks : list Answer) : list Artifact :=
  concat (artifacts <$> chunks).

(** Every artifact a stream can yield before it ends or raises. *)
Fixpoint stream_artifacts (ans : answers) : list Artifact :=
  match ans with
  | Yield resp rest => artifacts resp ++ stream_artifacts rest
  | StopIteration | Raises _ => []
  end.

End Vocabulary.

(** ** The response interpreter as a first-match scan *)

(** What a run over the stream comes to: the first artifact that is a filter
    signal or an image, the end of the stream, or an exception of the
    stream. *)
Inductive verdict : Type :=
  | Decisive (a : Artifact)
  | Exhausted
  | Raised (e : Exception).

Section Scan.
Context `{pb2 : generation_pb2}.

(** The first artifact of a chunk that is not inert. *)
Definition first_decisive (arts : list Artifact) : option Artifact :=
  List.find (λ a, negb (inert a)) arts.

Fixpoint scan (ans : answers) : verdict :=
  match ans with
  | StopIteration => Exhausted
  | Raises e => Raised e
  | Yield resp rest =>
      match first_decisive (artifacts resp) with
      | Some a => Decisive a
      | None => scan rest
      end
  end.

End Scan.

(** The response objects of the service, by outcome. *)
Definition Saved_response (filename prompt negative_prompt aspect_ratio_key : string)
  : Response :=
  [("message", JStr "Image generated successfully!");
   ("filename", JStr filename);
   ("prompt", JStr prompt);
   ("negative_prompt", JStr negative_prompt);
   ("aspect_ratio", JStr aspect_ratio_key)].

Definition Filtered_response : Response :=
  [("error", JStr "Safety filter activated. Please modify prompt.");
   ("details", JStr "Could not generate or save image.")].

Definition Empty_response : Response :=
  [("error", JStr "No image generated.");
   ("details", JStr "Could not generate or save image.")].

Definition ProviderCallFailed_response (e : Exception) : Response :=
  [("error", JStr "Failed to generate image."); ("details", JStr e)].

Definition InvalidAspectRatio_response (keys : list string) : Response :=
  [("error", JStr "Invalid aspect_ratio_key"); ("available_keys", JList keys)].

Definition ClientNotInitialized_response (api_key_status : string) : Response :=
  [("error", JStr "Stability API not initialized. Check server logs.");
   ("detail", JStr ("STABILITY_KEY status: " +:+ api_key_status +:+
      ". Please ensure it's set correctly when starting Uvicorn."))].

(** The file name the service derives from the drawn identifier. *)
Definition service_filename (unique_id : string) : string :=
  "generated_image_" +:+ unique_id +:+ ".png".

(** The lines the endpoint prints before it calls the provider. *)
Definition service_announce `{PIL}
    (prompt negative_prompt aspect_ratio_key : string) (image_width image_height : Z)
    (unique_id : string) : list Event :=
  [Print (newline +:+ "Received request to generate image:");
   Print ("  Prompt: '" +:+ prompt +:+ "'")]
  ++ (if truthy negative_prompt
      then [Print ("  Negative Prompt: '" +:+ negative_prompt +:+ "'")] else [])
  ++ [Print ("  Aspect Ratio: " +:+ aspect_ratio_key +:+ " (" +:+ pretty image_width
             +:+ "x" +:+ pretty image_height +:+ ")");
      Print ("  Output Filename: " +:+ service_filename unique_id)].

(** The lines the script prints between connecting and calling the provider. *)
Definition script_announce `{PIL} (cfg : generate_image.settings)
    (image_width image_height : Z) : list Event :=
  [Print (newline +:+ "Generating image for prompt: '"
          +:+ generate_image.prompt_text cfg +:+ "'")]
  ++ (if truthy (generate_image.negative_prompt_text cfg)
      then [Print ("Negative prompt: '"
                   +:+ generate_image.negative_prompt_text cfg +:+ "'")] else [])
  ++ [Print ("Aspect ratio: " +:+ generate_image.selected_aspect_ratio cfg +:+ " ("
             +:+ pretty image_width +:+ "x" +:+ pretty image_height +:+ ")")].

(** The warning of the service's filter branch, and the locals at the start of
    its loops. *)
Definition main_filter_warning : string := "Request activated the API's safety filter.".

Definition main_locals0 : main.locals :=
  {| main.image_saved_successfully := false;
     main.safety_filter_triggered := false;
     main.error_message := "No image generated." |}.

(** The same for the script. *)
Definition script_filter_warning : string :=
  "Your request activated the API's safety filter and could not be processed. "
  +:+ "Please modify the prompt and try again.".

Definition script_locals0 : generate_image.locals :=
  {| generate_image.image_saved := false;
     generate_image.safety_filter_activated := false;
     generate_image.last_artifact_type_info := "No specific artifact processed." |}.

(** The diagnostic after the artifacts [arts] went by: that of the last one,
    or the previous text if there was none. *)
Definition last_info (info0 : string) (arts : list Artifact) : string :=
  match last arts with
  | Some a => generate_image.artifact_info a
  | None => info0
  end.

(** Whether a text holds a comma (the diagnostic of the script separates its
    two numbers by one). *)
Fixpoint has_comma (s : string) : bool :=
  match s with
  | EmptyString => false
  | String c s' => Ascii.eqb c "," || has_comma s'
  end.

(** The script's process once the client [api] is built from environment
    [env]. *)
Definition connected `{PIL} `{stability_sdk} (env : gmap string string)
    (api : StabilityInference) : State :=
  {| environ := <["STABILITY_HOST" := "grpc.stability.ai:443"]> env;
     stability_api := Some api;
     output := [Print "Successfully connected to Stability AI API."] |}.

(** The last lines of the script, given the final locals. *)
Definition script_epilogue `{PIL} (l : generate_image.locals) : list Event :=
  (if negb (generate_image.image_saved l) && negb (generate_image.safety_filter_activated l)
   then [Print ("No image artifact found in the response. Last artifact info: "
                +:+ generate_image.last_artifact_type_info l)]
   else [])
  ++ [Print (newline +:+ "Script finished.")].

(** The three classifications of a response. *)
Inductive outcome : Type :=
  | Saved
  | Filtered
  | Empty.

(** What the interpreter does at a verdict, step by step as the specification
    lists it: a filter signal is recorded ([on_filter] is what the program
    reports then); an image is decoded and saved under [filename]; an
    exhausted stream is empty.  An exception of the stream or of the codec
    ends the interpretation.  (A verdict [Decisive a] of [scan] is never an
    inert artifact, so one that is no filter signal is an image.) *)
Definition interpret `{generation_pb2} `{PIL}
    (on_filter : list Event) (filename : string) (v : verdict)
  : (Exception + outcome) * list Event :=
  match v with
  | Exhausted => (inr Empty, [])
  | Raised e => (inl e, [])
  | Decisive a =>
      if is_filter a then (inr Filtered, on_filter)
      else
        match Image_open (binary a) with
        | inl e => (inl e, [Open (binary a)])
        | inr img =>
            match Image_save img filename with
            | Some e => (inl e, [Open (binary a); Save img filename])
            | None =>
                (inr Saved,
                 [Open (binary a); Save img filename;
                  Print ("Image successfully saved as " +:+ filename)])
            end
        end
  end.

(** The service's response to an outcome. *)
Definition service_response (o : outcome)
    (filename prompt negative_prompt aspect_ratio_key : string) : Response :=
  match o with
  | Saved => Saved_response filename prompt negative_prompt aspect_ratio_key
  | Filtered => Filtered_response
  | Empty => Empty_response
  end.

(** The script's final variables at an outcome of the stream [ans]. *)
Definition script_final `{generation_pb2} (ans : answers) (o : outcome)
  : generate_image.locals :=
  {| generate_image.image_saved := match o with Saved => true | _ => false end;
     generate_image.safety_filter_activated :=
       match o with Filtered => true | _ => false end;
     generate_image.last_artifact_type_info :=
       match scan ans with
       | Decisive a => generate_image.artifact_info a
       | _ => last_info "No specific artifact processed." (stream_artifacts ans)
       end |}.

(** What the script reports at a filter signal. *)
Definition script_on_filter `{PIL} : list Event :=
  [Warn script_filter_warning; Print "Safety filter activated. No image generated."].

(** The service's locals after the loops, by outcome. *)
Definition main_locals_at (o : outcome) : main.locals :=
  match o with
  | Saved =>
      {| main.image_saved_successfully := true;
         main.safety_filter_triggered := false;
         main.error_message := "No image generated." |}
  | Filtered =>
      {| main.image_saved_successfully := false;
         main.safety_filter_triggered := true;
         main.error_message := "Safety filter activated. Please modify prompt." |}
  | Empty => main_locals0
  end.

(** A request to [POST /generate-image/] with the identifier drawn for it. *)
Record request : Type := {
  req_prompt : string;
  req_negative_prompt : string;
  req_aspect_ratio_key : string;
  req_unique_id : string;
}.

(** The service handling requests one after the other (the handler never
    awaits, so a request is handled without interleaving). *)
Fixpoint serve `{generation_pb2} `{PIL} `{stability_sdk}
    (reqs : list request) (s : State) : list Response * State :=
  match reqs with
  | [] => ([], s)
  | r :: reqs' =>
      let '(resp, s') :=
        run (main.generate_image_endpoint (req_prompt r) (req_negative_prompt r)
               (req_aspect_ratio_key r) (req_unique_id r)) s in
      let '(resps, s'') := serve reqs' s' in
      (resp :: resps, s'')
  end.

(** The shapes of a response object of the generation endpoint. *)
Inductive well_formed : Response → Prop :=
  | wf_saved filename prompt negative_prompt aspect_ratio_key :
      well_formed (Saved_response filename prompt negative_prompt aspect_ratio_key)
  | wf_filtered : well_formed Filtered_response
  | wf_empty : well_formed Empty_response
  | wf_failed e : well_formed (ProviderCallFailed_response e)
  | wf_invalid keys : well_formed (InvalidAspectRatio_response keys)
  | wf_not_initialized status : well_formed (ClientNotInitialized_response status).

(** Events that do not touch the codec and warn of nothing: lines printed
    and calls of the provider. *)
Definition quiet `{PIL} (evs : list Event) : Prop :=
  decoded evs = [] ∧ files_written evs = [] ∧ warned evs = [].

#[global] Arguments service_announce : simpl never.
#[global] Arguments script_announce : simpl never.
#[global] Arguments script_epilogue : simpl never.
#[global] Arguments log : simpl never.

(** ** Vocabulary of the further properties *)

(** The events that happened between a state and a later state of the same
    process. *)
Definition since `{PIL} `{stability_sdk} (s s' : State) : list Event :=
  drop (length (output s)) (output s').

(** How each program's flags read as a classification. *)
Definition main_class (l : main.locals) : outcome :=
  if main.image_saved_successfully l then Saved
  else if main.safety_filter_triggered l then Filtered
  else Empty.

Definition script_class (l : generate_image.locals) : outcome :=
  if generate_image.image_saved l then Saved
  else if generate_image.safety_filter_activated l then Filtered
  else Empty.

(** The arguments every call of the provider shares. *)
Definition fixed_parameters `{generation_pb2} (kw : generate_kwargs) : Prop :=
  steps kw = 50 ∧ cfg_scale kw = 7%Q ∧ samples kw = 1
  ∧ sampler kw = SAMPLER_K_DPMPP_2M.

(** ** Filter signals and images in a stream *)

Section StreamPositions.
Context `{pb2 : generation_pb2}.

(** [a] is an image artifact without the filter finish-reason, and every
    artifact the stream yields before it is inert: no filter signal and no
    image comes before [a]. *)
Definition first_unfiltered_image (ans : answers) (a : Artifact) : Prop :=
  ∃ pre post,
    stream_artifacts ans = pre ++ a :: post
    ∧ forallb inert pre = true ∧ is_filter a = false ∧ is_image a = true.

(** [a] has a place in the stream, and every filter signal of the stream
    comes after that place. *)
Definition before_filter_signals (ans : answers) (a : Artifact) : Prop :=
  ∃ i : nat,
    stream_artifacts ans !! i = Some a
    ∧ ∀ (j : nat) x, stream_artifacts ans !! j = Some x → is_filter x = true →
        (i < j)%nat.

(** The stream yields an artifact with the filter finish-reason, and none of
    the artifacts before it is an image free of that finish-reason. *)
Definition filter_signal_observed (ans : answers) : Prop :=
  ∃ pre a post,
    stream_artifacts ans = pre ++ a :: post
    ∧ is_filter a = true
    ∧ forallb (λ x, is_filter x || negb (is_image x)) pre = true.

End StreamPositions.

(** The discipline of a run with events [evs] over the stream [ans] and the
    target file name [filename], stated on the positions of the stream and
    not on what the run reports: a payload is decoded only if it is that of
    the first artifact that is not inert and that artifact is an image
    without the filter finish-reason, which every filter signal of the
    stream comes after; a file is written only under the target name and only
    with the image decoded from that payload; and when the stream yields a filter
    signal that no unfiltered image precedes, nothing is decoded, no file is
    written and the warning is issued; and the warning is issued for such a
    stream only. *)
Definition filter_discipline `{generation_pb2} `{PIL} (ans : answers)
    (filename : string) (evs : list Event) : Prop :=
  (∀ b, b ∈ decoded evs →
     ∃ a, first_unfiltered_image ans a ∧ before_filter_signals ans a ∧ binary a = b)
  ∧ (∀ img f, (img, f) ∈ files_written evs →
       f = filename
       ∧ ∃ a, first_unfiltered_image ans a ∧ before_filter_signals ans a
           ∧ Image_open (binary a) = inr img)
  ∧ (filter_signal_observed ans →
       decoded evs = [] ∧ files_written evs = [] ∧ warned evs ≠ [])
  ∧ (warned evs ≠ [] → filter_signal_observed ans).

(** * The request boundary and exceptions outside class [Exception] *)

(** What a call can raise: an instance of class [Exception], or an instance of
    another class under [BaseException] ([KeyboardInterrupt], [SystemExit],
    [GeneratorExit], ...), given by the name of its class. *)
Inductive BaseException : Type :=
  | InstanceOfException (e : Exception)
  | OutsideException (class_name : string).

(** The endpoint of [main.py] once more, for a provider whose call may raise
    anything under [BaseException]: [except Exception] catches the instances
    of class [Exception] only, and the handler itself can now raise. *)
Module boundary.

Section Boundary.
Context `{pb2 : generation_pb2} `{pil : PIL} `{sdk : stability_sdk}.
Context (generate_raw : StabilityInference → generate_kwargs → BaseException + answers).

(** [try: body except Exception as e: handler] *)
Definition try_except_Exception {A} (body : M BaseException A)
    (handler : Exception → M string A) : M string A :=
  λ s,
    match body s with
    | (inl (InstanceOfException e), s') => handler e s'
    | (inl (OutsideException class_name), s') => (inl class_name, s')
    | (inr x, s') => (inr x, s')
    end.

(** Code that raises within class [Exception], run where anything may be
    raised. *)
Definition within_Exception {A} (m : M Exception A) : M BaseException A :=
  λ s,
    match m s with
    | (inl e, s') => (inl (InstanceOfException e), s')
    | (inr x, s') => (inr x, s')
    end.

Definition of_raised {A} (r : BaseException + A) : M BaseException A := λ s, (r, s).

Definition stability_api_generate (c : StabilityInference) (kwargs : generate_kwargs)
  : M BaseException answers :=
  emit (Generate kwargs);; of_raised (generate_raw c kwargs).

(** The body of the [try] block. *)
Definition try_body (api : StabilityInference)
    (prompt negative_prompt aspect_ratio_key : string)
    (image_width image_height : Z) (output_filename : string)
  : M BaseException Response :=
  ans ← stability_api_generate api
          (main.generate_call prompt negative_prompt image_width image_height);
  l ← within_Exception
        (main.for_resp output_filename ans
           {| main.image_saved_successfully := false;
              main.safety_filter_triggered := false;
              main.error_message := "No image generated." |});
  if main.image_saved_successfully l then
    mret [("message", JStr "Image generated successfully!");
          ("filename", JStr output_filename);
          ("prompt", JStr prompt);
          ("negative_prompt", JStr negative_prompt);
          ("aspect_ratio", JStr aspect_ratio_key)]
  else
    mret [("error", JStr (main.error_message l));
          ("details", JStr "Could not generate or save image.")].

(** The handler; what it raises is the name of the class of the exception
    that escapes. *)
Definition generate_image_endpoint
    (prompt negative_prompt aspect_ratio_key : string) (unique_id : string)
  : M string Response :=
  api ← get_stability_api;
  match api with
  | None =>
      key ← environ_get "STABILITY_KEY";
      let api_key_status :=
        if negb (truthy_opt key) then "NOT SET or connection FAILED"
        else "Set, but connection FAILED on startup" in
      mret [("error", JStr "Stability API not initialized. Check server logs.");
            ("detail", JStr ("STABILITY_KEY status: " +:+ api_key_status +:+
               ". Please ensure it's set correctly when starting Uvicorn."))]
  | Some api =>
      match dict_get aspect_ratio_key main.ASPECT_RATIOS with
      | None =>
          mret [("error", JStr "Invalid aspect_ratio_key");
                ("available_keys", JList (dict_keys main.ASPECT_RATIOS))]
      | Some (image_width, image_height) =>
          let output_filename := "generated_image_" +:+ unique_id +:+ ".png" in
          print (newline +:+ "Received request to generate image:");;
          print ("  Prompt: '" +:+ prompt +:+ "'");;
          (if truthy negative_prompt
           then print ("  Negative Prompt: '" +:+ negative_prompt +:+ "'")
           else mret ());;
          print ("  Aspect Ratio: " +:+ aspect_ratio_key +:+ " (" +:+ pretty image_width
                 +:+ "x" +:+ pretty image_height +:+ ")");;
          print ("  Output Filename: " +:+ output_filename);;
          try_except_Exception
            (try_body api prompt negative_prompt aspect_ratio_key
               image_width image_height output_filename)
            (λ e,
               print ("Error during image generation: " +:+ e);;
               mret [("error", JStr "Failed to generate image.");
                     ("details", JStr e)])
      end
  end.

End Boundary.
End boundary.

(** The call of a provider that raises within class [Exception] only. *)
Definition only_Exception `{stability_sdk}
  : StabilityInference → generate_kwargs → BaseException + answers :=
  λ api kw, sum_map InstanceOfException id (generate api kw).

(** * A concrete world for the examples *)

Module Sample.

(** The enum numbers the examples run with. *)
#[export] Instance pb2 : generation_pb2 :=
  {| FILTER := 4; ARTIFACT_IMAGE := 1; SAMPLER_K_DPMPP_2M := 9 |}.

(** A codec that rejects the empty payload and cannot write to an empty file
    name; an image is kept as its bytes. *)
#[export] Instance pil : PIL :=
  {| Image := list Byte.byte;
     Image_open := λ b,
       match b with
       | [] => inl "cannot identify image file"
       | _ => inr b
       end;
     Image_save := λ _ f,
       if truthy f then None else Some "No such file or directory: ''" |}.

Definition png : list Byte.byte := [Byte.x89; Byte.x50; Byte.x4e; Byte.x47].

Definition image_artifact : Artifact :=
  {| type := 1; finish_reason := 0; binary := png |}.

(** An image artifact that carries the filter finish-reason. *)
Definition filtered_artifact : Artifact :=
  {| type := 1; finish_reason := 4; binary := png |}.

Definition text_artifact : Artifact :=
  {| type := 3; finish_reason := 0; binary := [] |}.

Definition broken_image_artifact : Artifact :=
  {| type := 1; finish_reason := 0; binary := [] |}.

(** Streams: a filter signal after inert artifacts and before an image; an image
    before a filter signal; only inert artifacts; an image that does not
    decode.  The first two break right after the chunk that decides. *)
Definition filtered_stream : answers :=
  Yield {| artifacts := [] |}
    (Yield {| artifacts := [text_artifact] |}
       (Yield {| artifacts := [text_artifact; filtered_artifact; image_artifact] |}
          (Raises "stream broken"))).

Definition image_stream : answers :=
  Yield {| artifacts := [text_artifact] |}
    (Yield {| artifacts := [text_artifact; image_artifact; filtered_artifact] |}
       (Raises "stream broken")).

Definition text_stream : answers :=
  Yield {| artifacts := [] |} (Yield {| artifacts := [text_artifact] |} StopIteration).

Definition broken_image_stream : answers :=
  Yield {| artifacts := [broken_image_artifact] |} StopIteration.

(** What the provider answers to the holder of a key. *)
Definition canned (key : string) : Exception + answers :=
  if String.eqb key "sk-filtered" then inr filtered_stream
  else if String.eqb key "sk-image" then inr image_stream
  else if String.eqb key "sk-text" then inr text_stream
  else if String.eqb key "sk-down" then inl "UNAVAILABLE"
  else inr StopIteration.

(** A client is what its [generate] will answer; the constructor refuses the
    key ["expired"]. *)
#[export] Instance sdk : stability_sdk :=
  {| StabilityInference := Exception + answers;
     StabilityInference_new := λ key _ _,
       if String.eqb key "expired" then inl "UNAUTHENTICATED"
       else inr (canned key);
     generate := λ c _, c |}.

(** A service process whose startup built a client that will answer [r]. *)
Definition serving (r : Exception + answers) : State :=
  {| environ := {["STABILITY_KEY" := "sk-test"]};
     stability_api := Some r;
     output := [] |}.

(** The environment of a process started with credential [key]. *)
Definition with_key (key : string) : gmap string string :=
  {["STABILITY_KEY" := key]}.

End Sample.

(** Two providers for the sample world: one whose call is interrupted from
    the keyboard, and one that raises like the sample client does. *)
Module SampleBoundary.

Definition interrupted
  : @StabilityInference Sample.sdk → generate_kwargs → BaseException + answers :=
  λ _ _, inl (OutsideException "KeyboardInterrupt").

Definition uninterrupted
  : @StabilityInference Sample.sdk → generate_kwargs → BaseException + answers :=
  @only_Exception Sample.sdk.

End SampleBoundary.

(** * Facts about the effects *)

(** Unfolds the operations of [M] down to functions on states. *)
Ltac unfold_M :=
  unfold Image_open_BytesIO, img_save, stability_api_generate,
    client_StabilityInference, print, warnings_warn, emit, of_result, environ_get,
    environ_set, get_stability_api, set_stability_api, try_except, raise, run,
    mbind, M_bind, mret, M_ret in *.

Section EffectFacts.
Context `{pb2 : generation_pb2} `{pil : PIL} `{sdk : stability_sdk}.

Lemma log_nil (s : State) : log s [] = s.
Proof. destruct s; unfold log; simpl. by rewrite app_nil_r. Qed.

Lemma log_log (s : State) (a b : list Event) : log (log s a) b = log s (a ++ b).
Proof. unfold log; simpl. by rewrite app_assoc. Qed.

Lemma emit_log {E} (ev : Event) (s : State) : emit (E := E) ev s = (inr (), log s [ev]).
Proof. reflexivity. Qed.

Lemma bind_emit {E B} (ev : Event) (k : M E B) (s : State) :
  (emit ev;; k) s = k (log s [ev]).
Proof. reflexivity. Qed.

Lemma provider_calls_app (a b : list Event) :
  provider_calls (a ++ b) = provider_calls a ++ provider_calls b.
Proof. apply omap_app. Qed.

Lemma decoded_app (a b : list Event) : decoded (a ++ b) = decoded a ++ decoded b.
Proof. apply omap_app. Qed.

Lemma files_written_app (a b : list Event) :
  files_written (a ++ b) = files_written a ++ files_written b.
Proof. apply omap_app. Qed.

Lemma warned_app (a b : list Event) : warned (a ++ b) = warned a ++ warned b.
Proof. apply omap_app. Qed.

Lemma prepend_app (c1 c2 : list Answer) (rest : answers) :
  prepend (c1 ++ c2) rest = prepend c1 (prepend c2 rest).
Proof. unfold prepend. by rewrite foldr_app. Qed.

Lemma inert_not_filter (a : Artifact) : inert a = true → is_filter a = false.
Proof. unfold inert. destruct (is_filter a); [done|done]. Qed.

Lemma inert_not_image (a : Artifact) : inert a = true → is_image a = false.
Proof. unfold inert. destruct (is_filter a), (is_image a); done. Qed.

Lemma first_decisive_Some (arts : list Artifact) (a : Artifact) :
  first_decisive arts = Some a → a ∈ arts ∧ inert a = false.
Proof.
  unfold first_decisive. intros H. apply find_some in H as [Hin Hn].
  split; [by apply list_elem_of_In|]. by destruct (inert a).
Qed.

Lemma first_decisive_inert (arts : list Artifact) :
  forallb inert arts = true → first_decisive arts = None.
Proof.
  induction arts as [|a arts IH]; [done|]. simpl. intros [Ha H]%andb_prop.
  unfold first_decisive. simpl. rewrite Ha. by apply IH.
Qed.

Lemma first_decisive_app (pre post : list Artifact) (a : Artifact) :
  forallb inert pre = true → inert a = false →
  first_decisive (pre ++ a :: post) = Some a.
Proof.
  intros Hp Ha. induction pre as [|b pre IH]; unfold first_decisive; simpl.
  - by rewrite Ha.
  - simpl in Hp. apply andb_prop in Hp as [Hb Hp]. rewrite Hb. by apply IH.
Qed.

Lemma scan_prepend (chunks : list Answer) (rest : answers) :
  forallb inert_chunk chunks = true → scan (prepend chunks rest) = scan rest.
Proof.
  induction chunks as [|r chunks IH]; [done|]. simpl. intros [Hr Hc]%andb_prop.
  rewrite first_decisive_inert by exact Hr. by apply IH.
Qed.

Lemma scan_exhausted (chunks : list Answer) :
  forallb inert_chunk chunks = true → scan (exhausted chunks) = Exhausted.
Proof. intros H. unfold exhausted. by rewrite scan_prepend. Qed.

Lemma scan_first (chunks : list Answer) (pre post : list Artifact) (a : Artifact)
    (rest : answers) :
  forallb inert_chunk chunks = true → forallb inert pre = true → inert a = false →
  scan (prepend chunks (Yield {| artifacts := pre ++ a :: post |} rest)) = Decisive a.
Proof.
  intros Hc Hp Ha. rewrite scan_prepend by done. simpl.
  by rewrite first_decisive_app.
Qed.

Lemma scan_Decisive (ans : answers) (a : Artifact) :
  scan ans = Decisive a → a ∈ stream_artifacts ans ∧ inert a = false.
Proof.
  induction ans as [|r rest IH|e]; [done| |done]. simpl.
  destruct (first_decisive (artifacts r)) as [b|] eqn:Hb.
  - intros [= ->]. apply first_decisive_Some in Hb as [Hin Hb].
    split; [|done]. apply elem_of_app. by left.
  - intros H. apply IH in H as [Hin Ha]. split; [|done]. apply elem_of_app. by right.
Qed.

Lemma stream_artifacts_exhausted (chunks : list Answer) :
  stream_artifacts (exhausted chunks) = flatten chunks.
Proof.
  induction chunks as [|r chunks IH]; [done|]. unfold exhausted, flatten in *. simpl.
  by rewrite IH.
Qed.

Lemma is_filter_decisive (a : Artifact) : is_filter a = true → inert a = false.
Proof. unfold inert. by intros ->. Qed.

Lemma is_image_decisive (a : Artifact) : is_image a = true → inert a = false.
Proof. unfold inert. intros ->. by rewrite andb_false_r. Qed.

Lemma provider_calls_service_announce (p n k : string) (w h : Z) (u : string) :
  provider_calls (service_announce p n k w h u) = [].
Proof. unfold service_announce. by destruct (truthy n). Qed.

Lemma provider_calls_script_announce (cfg : generate_image.settings) (w h : Z) :
  provider_calls (script_announce cfg w h) = [].
Proof. unfold script_announce. by destruct (truthy _). Qed.

Lemma provider_calls_script_epilogue (l : generate_image.locals) :
  provider_calls (script_epilogue l) = [].
Proof. unfold script_epilogue. by destruct (_ && _). Qed.

(** The interpreter itself never calls the provider. *)
Lemma provider_calls_interpret (on_filter : list Event) (fn : string) (v : verdict) :
  provider_calls on_filter = [] → provider_calls (interpret on_filter fn v).2 = [].
Proof.
  intros Hf. destruct v as [a| |e]; [|done|done]. unfold interpret.
  destruct (is_filter a); [done|].
  destruct (Image_open (binary a)) as [e|img]; [done|].
  by destruct (Image_save img fn).
Qed.

End EffectFacts.

(** * The service's loops and endpoint *)

Section MainFacts.
Context `{pb2 : generation_pb2} `{pil : PIL} `{sdk : stability_sdk}.

Lemma main_for_artifact_inert fn (pre rest : list Artifact) (l : main.locals) (s : State) :
  forallb inert pre = true →
  main.for_artifact fn (pre ++ rest) l s = main.for_artifact fn rest l s.
Proof.
  induction pre as [|a pre IH]; simpl; [done|].
  intros [Ha Hpre]%andb_prop.
  pose proof (inert_not_filter a Ha) as Hf. pose proof (inert_not_image a Ha) as Hi.
  unfold is_filter, is_image in Hf, Hi. rewrite Hf, Hi. by apply IH.
Qed.

Lemma main_for_artifact_all_inert fn (arts : list Artifact) (l : main.locals) (s : State) :
  forallb inert arts = true → main.for_artifact fn arts l s = (inr l, s).
Proof.
  intros H. rewrite <- (app_nil_r arts). by rewrite main_for_artifact_inert.
Qed.

Lemma main_for_artifact_filter fn (a : Artifact) (post : list Artifact)
    (l : main.locals) (s : State) :
  is_filter a = true →
  main.for_artifact fn (a :: post) l s
  = (inr {| main.image_saved_successfully := main.image_saved_successfully l;
            main.safety_filter_triggered := true;
            main.error_message := "Safety filter activated. Please modify prompt." |},
     log s [Warn main_filter_warning]).
Proof. unfold is_filter. intros H. simpl. by rewrite H. Qed.

Lemma main_for_artifact_image fn (a : Artifact) (post : list Artifact)
    (l : main.locals) (s : State) (img : Image) :
  is_filter a = false → is_image a = true →
  Image_open (binary a) = inr img → Image_save img fn = None →
  main.for_artifact fn (a :: post) l s
  = (inr {| main.image_saved_successfully := true;
            main.safety_filter_triggered := main.safety_filter_triggered l;
            main.error_message := main.error_message l |},
     log s [Open (binary a); Save img fn; Print ("Image successfully saved as " +:+ fn)]).
Proof.
  unfold is_filter, is_image. intros Hf Hi Ho Hs. simpl. rewrite Hf, Hi.
  unfold_M. simpl. rewrite Ho. simpl. rewrite Hs. simpl.
  unfold log; simpl. by rewrite <- !app_assoc.
Qed.

Lemma main_for_resp_inert fn (chunks : list Answer) (rest : answers)
    (l : main.locals) (s : State) :
  forallb inert_chunk chunks = true →
  main.image_saved_successfully l = false → main.safety_filter_triggered l = false →
  main.for_resp fn (prepend chunks rest) l s = main.for_resp fn rest l s.
Proof.
  intros Hc Hs Hf. induction chunks as [|r chunks IH]; simpl; [done|].
  simpl in Hc. apply andb_prop in Hc as [Hr Hc].
  unfold mbind, M_bind. rewrite main_for_artifact_all_inert by exact Hr.
  rewrite Hs, Hf. simpl. by apply IH.
Qed.

Lemma main_for_resp_yield fn (r : Answer) (rest : answers) (l : main.locals) (s : State) :
  main.for_resp fn (Yield r rest) l s
  = match main.for_artifact fn (artifacts r) l s with
    | (inl e, s') => (inl e, s')
    | (inr l', s') =>
        if main.image_saved_successfully l' || main.safety_filter_triggered l'
        then (inr l', s') else main.for_resp fn rest l' s'
    end.
Proof.
  simpl. unfold mbind, M_bind.
  destruct (main.for_artifact fn (artifacts r) l s) as [[e|l'] s']; [done|].
  by destruct (_ || _).
Qed.

Lemma main_try_body_eq api (p n k : string) (w h : Z) (fn : string) (s : State) :
  main.try_body api p n k w h fn s
  = match generate api (main.generate_call p n w h) with
    | inl e => (inl e, log s [Generate (main.generate_call p n w h)])
    | inr ans =>
        match main.for_resp fn ans main_locals0
                (log s [Generate (main.generate_call p n w h)]) with
        | (inl e, s') => (inl e, s')
        | (inr l, s') =>
            (inr (if main.image_saved_successfully l then Saved_response fn p n k
                  else [("error", JStr (main.error_message l));
                        ("details", JStr "Could not generate or save image.")]), s')
        end
    end.
Proof.
  unfold main.try_body. fold main_locals0. unfold_M. simpl. fold (log s [Generate (main.generate_call p n w h)]).
  destruct (generate api (main.generate_call p n w h)) as [e|ans]; [done|].
  destruct (main.for_resp fn ans main_locals0 _) as [[e|l] s']; [done|].
  by destruct (main.image_saved_successfully l).
Qed.

Lemma main_endpoint_ready (p n k u : string) (s : State) api (w h : Z) :
  stability_api s = Some api →
  dict_get k main.ASPECT_RATIOS = Some (w, h) →
  run (main.generate_image_endpoint p n k u) s
  = match main.try_body api p n k w h (service_filename u)
            (log s (service_announce p n k w h u)) with
    | (inl e, s') =>
        (ProviderCallFailed_response e,
         log s' [Print ("Error during image generation: " +:+ e)])
    | (inr r, s') => (r, s')
    end.
Proof.
  intros Hapi Hk. unfold main.generate_image_endpoint, run, get_stability_api.
  unfold mbind at 1, M_bind at 1. rewrite Hapi, Hk.
  unfold print. rewrite !bind_emit, log_log.
  assert (∀ s0 (k0 : M Empty_set Response),
    ((if truthy n then emit (Print ("  Negative Prompt: '" +:+ n +:+ "'")) else mret ());; k0) s0
    = k0 (log s0 (if truthy n then [Print ("  Negative Prompt: '" +:+ n +:+ "'")] else [])))
    as Hneg.
  { intros s0 k0. destruct (truthy n); [done|]. by rewrite log_nil. }
  rewrite Hneg, !bind_emit, !log_log. unfold try_except.
  replace (_ ++ _ ++ _ ++ _) with (service_announce p n k w h u)
    by (unfold service_announce, service_filename; by rewrite <- !app_assoc).
  fold (service_filename u).
  destruct (main.try_body _ _ _ _ _ _ _ _) as [[e|r] s']; [|done].
  by rewrite bind_emit.
Qed.

(** The inner loop goes through the inert artifacts and does, at the first
    other one, what it would do on that artifact alone. *)
Lemma main_for_artifact_scan fn (arts : list Artifact) (l : main.locals) (s : State) :
  main.for_artifact fn arts l s
  = match first_decisive arts with
    | Some a => main.for_artifact fn [a] l s
    | None => (inr l, s)
    end.
Proof.
  induction arts as [|a arts IH]; [done|].
  change (first_decisive (a :: arts))
    with (if negb (inert a) then Some a else first_decisive arts).
  destruct (inert a) eqn:Ha; simpl negb; cbv iota.
  - rewrite <- IH. apply (main_for_artifact_inert fn [a] arts). simpl. by rewrite Ha.
  - unfold inert in Ha. simpl.
    destruct (Z.eqb (finish_reason a) FILTER) eqn:Hf; [done|].
    destruct (Z.eqb (type a) ARTIFACT_IMAGE) eqn:Hi; [done|].
    unfold is_filter, is_image in Ha. by rewrite Hf, Hi in Ha.
Qed.

(** On an artifact that is not inert the loop body sets a flag or raises. *)
Lemma main_for_artifact_decides fn (a : Artifact) (l l' : main.locals) (s s' : State) :
  inert a = false →
  main.for_artifact fn [a] l s = (inr l', s') →
  main.image_saved_successfully l' || main.safety_filter_triggered l' = true.
Proof.
  unfold inert, is_filter, is_image. intros Ha. simpl.
  destruct (Z.eqb (finish_reason a) FILTER) eqn:Hf.
  - unfold_M. simpl. intros [= <- _]. simpl. by rewrite orb_true_r.
  - destruct (Z.eqb (type a) ARTIFACT_IMAGE) eqn:Hi; [|done].
    unfold_M. simpl. destruct (Image_open (binary a)) as [e|img]; [done|]. simpl.
    destruct (Image_save img fn); [done|]. by intros [= <- _].
Qed.

(** The two loops of the service are a first-match scan of the stream. *)
Lemma main_for_resp_scan fn (ans : answers) (l : main.locals) (s : State) :
  main.image_saved_successfully l = false → main.safety_filter_triggered l = false →
  main.for_resp fn ans l s
  = match scan ans with
    | Decisive a => main.for_artifact fn [a] l s
    | Exhausted => (inr l, s)
    | Raised e => (inl e, s)
    end.
Proof.
  intros Hs Hf. induction ans as [|r rest IH|e]; [done| |done].
  rewrite main_for_resp_yield, main_for_artifact_scan. simpl scan.
  destruct (first_decisive (artifacts r)) as [a|] eqn:Ha.
  - apply first_decisive_Some in Ha as [_ Ha].
    destruct (main.for_artifact fn [a] l s) as [[e|l'] s'] eqn:E; [done|].
    by rewrite (main_for_artifact_decides fn a l l' s s' Ha E).
  - by rewrite Hs, Hf.
Qed.

Lemma main_loops_interpret fn (ans : answers) (s : State) :
  main.for_resp fn ans main_locals0 s
  = match interpret [Warn main_filter_warning] fn (scan ans) with
    | (inl e, evs) => (inl e, log s evs)
    | (inr o, evs) => (inr (main_locals_at o), log s evs)
    end.
Proof.
  rewrite main_for_resp_scan by done.
  destruct (scan ans) as [a| |e] eqn:Hscan; unfold interpret; rewrite ?log_nil;
    [|done|done].
  apply scan_Decisive in Hscan as [_ Ha]. unfold inert in Ha.
  destruct (is_filter a) eqn:Hf.
  - by rewrite main_for_artifact_filter.
  - destruct (is_image a) eqn:Hi; [|done]. unfold is_filter, is_image in Hf, Hi.
    simpl. rewrite Hf, Hi. unfold_M. simpl.
    destruct (Image_open (binary a)) as [e|img]; simpl; [done|].
    destruct (Image_save img fn); simpl; unfold log; simpl; by rewrite <- ?app_assoc.
Qed.

(** The endpoint with a client at hand and a key of the table, in full. *)
Lemma main_endpoint_spec (p n k u : string) (s : State) api (w h : Z) :
  stability_api s = Some api →
  dict_get k main.ASPECT_RATIOS = Some (w, h) →
  run (main.generate_image_endpoint p n k u) s
  = let kw := main.generate_call p n w h in
    let before := service_announce p n k w h u ++ [Generate kw] in
    match generate api kw with
    | inl e =>
        (ProviderCallFailed_response e,
         log s (before ++ [Print ("Error during image generation: " +:+ e)]))
    | inr ans =>
        match interpret [Warn main_filter_warning] (service_filename u) (scan ans) with
        | (inl e, evs) =>
            (ProviderCallFailed_response e,
             log s (before ++ evs ++ [Print ("Error during image generation: " +:+ e)]))
        | (inr o, evs) =>
            (service_response o (service_filename u) p n k, log s (before ++ evs))
        end
    end.
Proof.
  intros Hapi Hk. cbv zeta.
  rewrite (main_endpoint_ready p n k u s api w h Hapi Hk), main_try_body_eq.
  destruct (generate api (main.generate_call p n w h)) as [e|ans].
  - by rewrite !log_log, <- ?app_assoc.
  - rewrite main_loops_interpret.
    destruct (interpret _ _ _) as [[e|o] evs].
    + by rewrite !log_log, <- ?app_assoc.
    + rewrite !log_log, <- ?app_assoc. by destruct o.
Qed.

(** With a client and a key of the table, the endpoint calls the provider
    exactly once, with the arguments [main.generate_call] builds. *)
Lemma main_endpoint_calls (p n k u : string) (s : State) api (w h : Z) :
  stability_api s = Some api →
  dict_get k main.ASPECT_RATIOS = Some (w, h) →
  provider_calls (output (run (main.generate_image_endpoint p n k u) s).2)
  = provider_calls (output s) ++ [main.generate_call p n w h].
Proof.
  intros Hapi Hk. rewrite (main_endpoint_spec p n k u s api w h Hapi Hk). cbv zeta.
  destruct (generate api _) as [e|ans].
  - cbn [snd]. unfold log. cbn [output].
    by rewrite !provider_calls_app, provider_calls_service_announce.
  - pose proof (provider_calls_interpret [Warn main_filter_warning] (service_filename u)
                  (scan ans) eq_refl) as Hi.
    destruct (interpret _ _ _) as [[e|o] evs]; cbn [snd] in *; unfold log; cbn [output];
      rewrite !provider_calls_app, provider_calls_service_announce, Hi; by simpl.
Qed.

(** Without a client the endpoint answers at once and leaves the state as it
    is. *)
Lemma main_endpoint_not_initialized (p n k u : string) (s : State) :
  stability_api s = None →
  run (main.generate_image_endpoint p n k u) s
  = (ClientNotInitialized_response
       (if negb (truthy_opt (environ s !! "STABILITY_KEY"))
        then "NOT SET or connection FAILED"
        else "Set, but connection FAILED on startup"), s).
Proof.
  intros Hapi. unfold main.generate_image_endpoint. unfold_M. by rewrite Hapi.
Qed.

(** With a client and a key that is not in the table, the same. *)
Lemma main_endpoint_invalid (p n k u : string) (s : State) api :
  stability_api s = Some api →
  dict_get k main.ASPECT_RATIOS = None →
  run (main.generate_image_endpoint p n k u) s
  = (InvalidAspectRatio_response (dict_keys main.ASPECT_RATIOS), s).
Proof.
  intros Hapi Hk. unfold main.generate_image_endpoint. unfold_M. by rewrite Hapi, Hk.
Qed.

End MainFacts.

(** * The script's loops and body *)

Section ScriptFacts.
Context `{pb2 : generation_pb2} `{pil : PIL} `{sdk : stability_sdk}.

Lemma last_info_cons (info0 : string) (a : Artifact) (arts : list Artifact) :
  last_info info0 (a :: arts) = last_info (generate_image.artifact_info a) arts.
Proof.
  unfold last_info. destruct arts as [|b arts]; [done|].
  change (last (a :: b :: arts)) with (last (b :: arts)).
  destruct (last (b :: arts)) eqn:E; [done|]. by apply last_None in E.
Qed.

Lemma last_info_app (info0 : string) (a b : list Artifact) :
  last_info info0 (a ++ b) = last_info (last_info info0 a) b.
Proof.
  revert info0. induction a as [|x a IH]; intros info0; [done|].
  simpl. by rewrite !last_info_cons, IH.
Qed.

Lemma script_for_artifact_inert (pre rest : list Artifact)
    (l : generate_image.locals) (s : State) :
  forallb inert pre = true →
  generate_image.for_artifact (pre ++ rest) l s
  = generate_image.for_artifact rest
      {| generate_image.image_saved := generate_image.image_saved l;
         generate_image.safety_filter_activated := generate_image.safety_filter_activated l;
         generate_image.last_artifact_type_info :=
           last_info (generate_image.last_artifact_type_info l) pre |} s.
Proof.
  revert l. induction pre as [|a pre IH]; intros l; simpl.
  - intros _. by destruct l.
  - intros [Ha Hpre]%andb_prop.
    pose proof (inert_not_filter a Ha) as Hf. pose proof (inert_not_image a Ha) as Hi.
    unfold is_filter, is_image in Hf, Hi. rewrite Hf, Hi, IH by done.
    simpl. by rewrite last_info_cons.
Qed.

Lemma script_for_artifact_all_inert (arts : list Artifact)
    (l : generate_image.locals) (s : State) :
  forallb inert arts = true →
  generate_image.for_artifact arts l s
  = (inr {| generate_image.image_saved := generate_image.image_saved l;
            generate_image.safety_filter_activated :=
              generate_image.safety_filter_activated l;
            generate_image.last_artifact_type_info :=
              last_info (generate_image.last_artifact_type_info l) arts |}, s).
Proof.
  intros H. rewrite <- (app_nil_r arts) at 1. by rewrite script_for_artifact_inert.
Qed.

Lemma script_for_artifact_filter (a : Artifact) (post : list Artifact)
    (l : generate_image.locals) (s : State) :
  is_filter a = true →
  generate_image.for_artifact (a :: post) l s
  = (inr {| generate_image.image_saved := generate_image.image_saved l;
            generate_image.safety_filter_activated := true;
            generate_image.last_artifact_type_info := generate_image.artifact_info a |},
     log s [Warn script_filter_warning;
            Print "Safety filter activated. No image generated."]).
Proof.
  unfold is_filter. intros H. simpl. rewrite H. unfold_M. simpl.
  unfold log; simpl. by rewrite <- !app_assoc.
Qed.

Lemma script_for_artifact_image (a : Artifact) (post : list Artifact)
    (l : generate_image.locals) (s : State) (img : Image) :
  is_filter a = false → is_image a = true →
  Image_open (binary a) = inr img →
  Image_save img generate_image.output_filename = None →
  generate_image.for_artifact (a :: post) l s
  = (inr {| generate_image.image_saved := true;
            generate_image.safety_filter_activated :=
              generate_image.safety_filter_activated l;
            generate_image.last_artifact_type_info := generate_image.artifact_info a |},
     log s [Open (binary a); Save img generate_image.output_filename;
            Print ("Image successfully saved as " +:+ generate_image.output_filename)]).
Proof.
  unfold is_filter, is_image. intros Hf Hi Ho Hs. simpl. rewrite Hf, Hi.
  unfold_M. simpl. rewrite Ho. simpl. rewrite Hs. simpl.
  unfold log; simpl. by rewrite <- !app_assoc.
Qed.

Lemma script_for_resp_inert (chunks : list Answer) (rest : answers)
    (l : generate_image.locals) (s : State) :
  forallb inert_chunk chunks = true →
  generate_image.image_saved l = false →
  generate_image.safety_filter_activated l = false →
  generate_image.for_resp (prepend chunks rest) l s
  = generate_image.for_resp rest
      {| generate_image.image_saved := false;
         generate_image.safety_filter_activated := false;
         generate_image.last_artifact_type_info :=
           last_info (generate_image.last_artifact_type_info l) (flatten chunks) |} s.
Proof.
  revert l. induction chunks as [|r chunks IH]; intros l Hc Hs Hf; simpl.
  - destruct l; simpl in *. by subst.
  - simpl in Hc. apply andb_prop in Hc as [Hr Hc].
    unfold mbind, M_bind. rewrite script_for_artifact_all_inert by exact Hr.
    simpl. rewrite Hs, Hf. simpl. rewrite IH by done. simpl.
    unfold flatten. simpl. by rewrite last_info_app.
Qed.

Lemma script_generate_and_save_eq api (cfg : generate_image.settings) (w h : Z)
    (s : State) :
  let kw := generate_image.generate_call (generate_image.prompt_text cfg)
              (generate_image.negative_prompt_text cfg) w h in
  generate_image.generate_and_save api cfg w h s
  = match generate api kw with
    | inl e => (inl (generate_image.Uncaught e), log s [Generate kw])
    | inr ans =>
        match generate_image.for_resp ans script_locals0 (log s [Generate kw]) with
        | (inl e, s') => (inl (generate_image.Uncaught e), s')
        | (inr l, s') => (inr l, log s' (script_epilogue l))
        end
    end.
Proof.
  intros kw. unfold generate_image.generate_and_save, generate_image.uncaught.
  fold kw. fold script_locals0. unfold_M. simpl. fold (log s [Generate kw]).
  destruct (generate api kw) as [e|ans]; [done|].
  destruct (generate_image.for_resp ans script_locals0 _) as [[e|l] s']; [done|].
  unfold script_epilogue, log. simpl.
  destruct (negb (generate_image.image_saved l) && negb _); simpl;
    by rewrite <- ?app_assoc.
Qed.

Lemma script_connected (env : gmap string string) (cfg : generate_image.settings)
    (key : string) api (w h : Z) :
  env !! "STABILITY_KEY" = Some key → truthy key = true →
  StabilityInference_new key true "stable-diffusion-xl-1024-v1-0" = inr api →
  dict_get (generate_image.selected_aspect_ratio cfg) generate_image.aspect_ratios
    = Some (w, h) →
  generate_image.script cfg (generate_image.fresh env)
  = generate_image.generate_and_save api cfg w h
      (log (connected env api) (script_announce cfg w h)).
Proof.
  intros Henv Hkey Hnew Hsel.
  unfold generate_image.script, generate_image.connect. rewrite Hsel.
  unfold_M. simpl. rewrite lookup_insert_ne by done. rewrite Henv. simpl.
  rewrite Hkey. simpl. rewrite Hnew. simpl.
  f_equal. unfold log, connected, script_announce. simpl.
  destruct (truthy (generate_image.negative_prompt_text cfg)); reflexivity.
Qed.

Lemma script_for_resp_yield (r : Answer) (rest : answers)
    (l : generate_image.locals) (s : State) :
  generate_image.for_resp (Yield r rest) l s
  = match generate_image.for_artifact (artifacts r) l s with
    | (inl e, s') => (inl e, s')
    | (inr l', s') =>
        if generate_image.image_saved l' || generate_image.safety_filter_activated l'
        then (inr l', s') else generate_image.for_resp rest l' s'
    end.
Proof.
  simpl. unfold mbind, M_bind.
  destruct (generate_image.for_artifact (artifacts r) l s) as [[e|l'] s']; [done|].
  by destruct (_ || _).
Qed.

(** At an artifact that is not inert the diagnostic kept so far is
    overwritten. *)
Lemma script_decisive_info (a : Artifact) (l : generate_image.locals) (info : string)
    (s : State) :
  generate_image.for_artifact [a]
    {| generate_image.image_saved := generate_image.image_saved l;
       generate_image.safety_filter_activated := generate_image.safety_filter_activated l;
       generate_image.last_artifact_type_info := info |} s
  = generate_image.for_artifact [a] l s.
Proof.
  simpl. destruct (Z.eqb (finish_reason a) FILTER); [done|].
  destruct (Z.eqb (type a) ARTIFACT_IMAGE); [done|]. reflexivity.
Qed.

Lemma script_for_artifact_scan (arts : list Artifact) (l : generate_image.locals)
    (s : State) :
  generate_image.for_artifact arts l s
  = match first_decisive arts with
    | Some a => generate_image.for_artifact [a] l s
    | None =>
        (inr {| generate_image.image_saved := generate_image.image_saved l;
                generate_image.safety_filter_activated :=
                  generate_image.safety_filter_activated l;
                generate_image.last_artifact_type_info :=
                  last_info (generate_image.last_artifact_type_info l) arts |}, s)
    end.
Proof.
  revert l. induction arts as [|a arts IH]; intros l; [by destruct l|].
  change (first_decisive (a :: arts))
    with (if negb (inert a) then Some a else first_decisive arts).
  destruct (inert a) eqn:Ha; simpl negb; cbv iota.
  - rewrite (script_for_artifact_inert [a] arts) by (simpl; by rewrite Ha).
    rewrite IH. destruct (first_decisive arts) as [b|].
    + apply script_decisive_info.
    + cbn [generate_image.image_saved generate_image.safety_filter_activated
           generate_image.last_artifact_type_info].
      by rewrite <- last_info_app.
  - unfold inert in Ha. simpl.
    destruct (Z.eqb (finish_reason a) FILTER) eqn:Hf; [done|].
    destruct (Z.eqb (type a) ARTIFACT_IMAGE) eqn:Hi; [done|].
    unfold is_filter, is_image in Ha. by rewrite Hf, Hi in Ha.
Qed.

Lemma script_for_artifact_decides (a : Artifact) (l l' : generate_image.locals)
    (s s' : State) :
  inert a = false →
  generate_image.for_artifact [a] l s = (inr l', s') →
  generate_image.image_saved l' || generate_image.safety_filter_activated l' = true.
Proof.
  unfold inert, is_filter, is_image. intros Ha. simpl.
  destruct (Z.eqb (finish_reason a) FILTER) eqn:Hf.
  - unfold_M. simpl. intros [= <- _]. simpl. by rewrite orb_true_r.
  - destruct (Z.eqb (type a) ARTIFACT_IMAGE) eqn:Hi; [|done].
    unfold_M. simpl. destruct (Image_open (binary a)) as [e|img]; [done|]. simpl.
    destruct (Image_save img generate_image.output_filename); [done|].
    by intros [= <- _].
Qed.

(** The two loops of the script are the same first-match scan; they also keep
    the diagnostic of the last artifact that went by. *)
Lemma script_for_resp_scan (ans : answers) (l : generate_image.locals) (s : State) :
  generate_image.image_saved l = false →
  generate_image.safety_filter_activated l = false →
  generate_image.for_resp ans l s
  = match scan ans with
    | Decisive a => generate_image.for_artifact [a] l s
    | Exhausted =>
        (inr {| generate_image.image_saved := false;
                generate_image.safety_filter_activated := false;
                generate_image.last_artifact_type_info :=
                  last_info (generate_image.last_artifact_type_info l)
                    (stream_artifacts ans) |}, s)
    | Raised e => (inl e, s)
    end.
Proof.
  revert l. induction ans as [|r rest IH|e]; intros l Hs Hf;
    [destruct l; simpl in *; by subst| |done].
  rewrite script_for_resp_yield, script_for_artifact_scan. simpl scan.
  destruct (first_decisive (artifacts r)) as [a|] eqn:Ha.
  - apply first_decisive_Some in Ha as [_ Ha].
    destruct (generate_image.for_artifact [a] l s) as [[e|l'] s'] eqn:E; [done|].
    by rewrite (script_for_artifact_decides a l l' s s' Ha E).
  - cbn [generate_image.image_saved generate_image.safety_filter_activated].
    rewrite Hs, Hf. cbn [orb]. rewrite IH by done.
    cbn [generate_image.last_artifact_type_info stream_artifacts].
    rewrite last_info_app. destruct (scan rest) as [a| |e]; [|done|done].
    rewrite <- (script_decisive_info a l
      (last_info (generate_image.last_artifact_type_info l) (artifacts r))).
    by rewrite Hs, Hf.
Qed.

Lemma script_loops_interpret (ans : answers) (s : State) :
  generate_image.for_resp ans script_locals0 s
  = match interpret script_on_filter generate_image.output_filename (scan ans) with
    | (inl e, evs) => (inl e, log s evs)
    | (inr o, evs) => (inr (script_final ans o), log s evs)
    end.
Proof.
  rewrite script_for_resp_scan by done. unfold script_final.
  destruct (scan ans) as [a| |e] eqn:Hscan; unfold interpret; rewrite ?log_nil;
    [|done|done].
  apply scan_Decisive in Hscan as [_ Ha]. unfold inert in Ha.
  destruct (is_filter a) eqn:Hf.
  - by rewrite script_for_artifact_filter.
  - destruct (is_image a) eqn:Hi; [|done]. unfold is_filter, is_image in Hf, Hi.
    simpl. rewrite Hf, Hi. unfold_M. simpl.
    destruct (Image_open (binary a)) as [e|img]; simpl; [done|].
    destruct (Image_save img generate_image.output_filename); simpl;
      unfold log; simpl; by rewrite <- ?app_assoc.
Qed.

(** The script with a usable credential and a key of its table, in full. *)
Lemma script_spec (env : gmap string string) (cfg : generate_image.settings)
    (key : string) api (w h : Z) :
  env !! "STABILITY_KEY" = Some key → truthy key = true →
  StabilityInference_new key true "stable-diffusion-xl-1024-v1-0" = inr api →
  dict_get (generate_image.selected_aspect_ratio cfg) generate_image.aspect_ratios
    = Some (w, h) →
  generate_image.script cfg (generate_image.fresh env)
  = let kw := generate_image.generate_call (generate_image.prompt_text cfg)
                (generate_image.negative_prompt_text cfg) w h in
    let before := script_announce cfg w h ++ [Generate kw] in
    match generate api kw with
    | inl e => (inl (generate_image.Uncaught e), log (connected env api) before)
    | inr ans =>
        match interpret script_on_filter generate_image.output_filename (scan ans) with
        | (inl e, evs) =>
            (inl (generate_image.Uncaught e), log (connected env api) (before ++ evs))
        | (inr o, evs) =>
            (inr (script_final ans o),
             log (connected env api)
               (before ++ evs ++ script_epilogue (script_final ans o)))
        end
    end.
Proof.
  intros Henv Hkey Hnew Hsel. cbv zeta.
  rewrite (script_connected env cfg key api w h Henv Hkey Hnew Hsel).
  rewrite script_generate_and_save_eq. cbv zeta.
  destruct (generate api _) as [e|ans].
  - by rewrite !log_log, <- ?app_assoc.
  - rewrite script_loops_interpret.
    destruct (interpret _ _ _) as [[e|o] evs]; by rewrite !log_log, <- ?app_assoc.
Qed.

Lemma script_calls (env : gmap string string) (cfg : generate_image.settings)
    (key : string) api (w h : Z) :
  env !! "STABILITY_KEY" = Some key → truthy key = true →
  StabilityInference_new key true "stable-diffusion-xl-1024-v1-0" = inr api →
  dict_get (generate_image.selected_aspect_ratio cfg) generate_image.aspect_ratios
    = Some (w, h) →
  provider_calls (output (generate_image.script cfg (generate_image.fresh env)).2)
  = [generate_image.generate_call (generate_image.prompt_text cfg)
       (generate_image.negative_prompt_text cfg) w h].
Proof.
  intros Henv Hkey Hnew Hsel.
  rewrite (script_spec env cfg key api w h Henv Hkey Hnew Hsel). cbv zeta.
  destruct (generate api _) as [e|ans].
  - cbn [snd]. unfold log, connected. cbn [output].
    by rewrite !provider_calls_app, provider_calls_script_announce.
  - pose proof (provider_calls_interpret script_on_filter generate_image.output_filename
                  (scan ans) eq_refl) as Hi.
    destruct (interpret _ _ _) as [[e|o] evs]; cbn [snd] in *; unfold log, connected;
      cbn [output];
      rewrite !provider_calls_app, ?provider_calls_script_epilogue,
        provider_calls_script_announce, Hi; by simpl.
Qed.

(** The decimal form of a number holds no comma. *)
Lemma pretty_N_go_no_comma (x : N) (s : string) :
  has_comma s = false → has_comma (pretty_N_go x s) = false.
Proof.
  revert s. induction (N.lt_wf_0 x) as [x _ IH]. intros s Hs.
  destruct (decide (x = 0)%N) as [->|Hx]; [by rewrite pretty_N_go_0|].
  rewrite pretty_N_go_step by lia. apply IH; [apply N.div_lt; lia|].
  simpl. rewrite Hs, orb_false_r. unfold pretty_N_char. by repeat case_match.
Qed.

Lemma pretty_Z_no_comma (z : Z) : has_comma (pretty z) = false.
Proof.
  unfold pretty, pretty_Z, pretty, pretty_positive, pretty, pretty_N.
  destruct z as [|x|x]; [done| |]; (case_decide; [done|]); simpl;
    by apply pretty_N_go_no_comma.
Qed.

(** Two texts that agree and are cut at their first comma agree on both
    sides of it. *)
Lemma split_at_comma (p1 p2 r1 r2 : string) :
  has_comma p1 = false → has_comma p2 = false →
  p1 +:+ String "," r1 = p2 +:+ String "," r2 → p1 = p2 ∧ r1 = r2.
Proof.
  revert p2. induction p1 as [|c p1 IH]; intros [|d p2]; simpl.
  - by intros _ _ [= ->].
  - intros _ [Hd _]%orb_false_elim [= <- _]. done.
  - intros [Hc _]%orb_false_elim _ [= -> _]. done.
  - intros [_ H1]%orb_false_elim [_ H2]%orb_false_elim [= -> Heq].
    destruct (IH p2 H1 H2 Heq) as [-> ->]. done.
Qed.

(** The diagnostic of the script determines the type and the finish-reason
    it was made from. *)
Lemma artifact_info_inj (a b : Artifact) :
  generate_image.artifact_info a = generate_image.artifact_info b →
  type a = type b ∧ finish_reason a = finish_reason b.
Proof.
  unfold generate_image.artifact_info. simpl. intros [= Heq].
  apply split_at_comma in Heq as [Ht Hf]; [|apply pretty_Z_no_comma..].
  simpl in Hf. injection Hf as Hf.
  split; by apply (inj pretty).
Qed.

End ScriptFacts.

(** * The response interpreter: first filter signal wins *)

Section FirstFilter.
Context `{pb2 : generation_pb2} `{pil : PIL} `{sdk : stability_sdk}.

(** C1.  Let a stream yield chunks that hold only inert artifacts, then a chunk
    in which inert artifacts are followed by an artifact [a] whose
    finish-reason is the filter tag.  Whatever comes after [a] in its chunk
    ([post]) and after that chunk in the stream ([rest], which may hold valid
    images or raise), the service answers with the Filtered response and the
    script ends with the filter flag set and no image saved; the events of
    the run show the warning and no payload decoded, no file written: nothing
    after [a] is looked at. *)
Theorem C1_first_filter_signal_wins
    (chunks : list Answer) (pre post : list Artifact) (a : Artifact) (rest : answers) :
  forallb inert_chunk chunks = true →
  forallb inert pre = true →
  is_filter a = true →
  let ans := prepend chunks (Yield {| artifacts := pre ++ a :: post |} rest) in
  (∀ (p n k u : string) (s : State) api (w h : Z),
     stability_api s = Some api →
     dict_get k main.ASPECT_RATIOS = Some (w, h) →
     generate api (main.generate_call p n w h) = inr ans →
     run (main.generate_image_endpoint p n k u) s
     = (Filtered_response,
        log s (service_announce p n k w h u
               ++ [Generate (main.generate_call p n w h); Warn main_filter_warning])))
  ∧
  (∀ (env : gmap string string) (cfg : generate_image.settings) (key : string) api
     (w h : Z),
     env !! "STABILITY_KEY" = Some key → truthy key = true →
     StabilityInference_new key true "stable-diffusion-xl-1024-v1-0" = inr api →
     dict_get (generate_image.selected_aspect_ratio cfg) generate_image.aspect_ratios
       = Some (w, h) →
     generate api (generate_image.generate_call (generate_image.prompt_text cfg)
                     (generate_image.negative_prompt_text cfg) w h) = inr ans →
     generate_image.script cfg (generate_image.fresh env)
     = (inr {| generate_image.image_saved := false;
               generate_image.safety_filter_activated := true;
               generate_image.last_artifact_type_info :=
                 generate_image.artifact_info a |},
        log (connected env api)
          (script_announce cfg w h
           ++ [Generate (generate_image.generate_call (generate_image.prompt_text cfg)
                           (generate_image.negative_prompt_text cfg) w h);
               Warn script_filter_warning;
               Print "Safety filter activated. No image generated.";
               Print (newline +:+ "Script finished.")]))).
Proof.
  intros Hc Hp Ha ans.
  assert (scan ans = Decisive a) as Hscan
    by (apply scan_first; auto using is_filter_decisive).
  split.
  - intros p n k u s api w h Hapi Hk Hg.
    rewrite (main_endpoint_spec p n k u s api w h Hapi Hk). cbv zeta.
    rewrite Hg, Hscan. unfold interpret. rewrite Ha.
    by rewrite <- app_assoc.
  - intros env cfg key api w h Henv Hkey Hnew Hsel Hg.
    rewrite (script_spec env cfg key api w h Henv Hkey Hnew Hsel). cbv zeta.
    rewrite Hg, Hscan. unfold interpret. rewrite Ha.
    unfold script_final. rewrite Hscan. by rewrite <- app_assoc.
Qed.

End FirstFilter.

Section FirstFilterExample.
Import Sample.

Lemma C1_first_filter_signal_wins_witness :
  (run (main.generate_image_endpoint "a cat" "" "1:1_square" "u1")
     (serving (inr filtered_stream))).1 = Filtered_response
  ∧ (generate_image.script generate_image.the_settings
       (generate_image.fresh (with_key "sk-filtered"))).1
    = inr {| generate_image.image_saved := false;
             generate_image.safety_filter_activated := true;
             generate_image.last_artifact_type_info :=
               "Artifact type: 1, Finish reason: 4" |}.
Proof.
  destruct (C1_first_filter_signal_wins (pb2 := pb2) (pil := pil) (sdk := sdk)
              [ {| artifacts := [] |}; {| artifacts := [text_artifact] |} ]
              [text_artifact] [image_artifact] filtered_artifact
              (Raises "stream broken") eq_refl eq_refl eq_refl) as [Hservice Hscript].
  split.
  - rewrite (Hservice "a cat" "" "1:1_square" "u1" (serving (inr filtered_stream))
               (inr filtered_stream) 1024 1024 eq_refl eq_refl eq_refl).
    reflexivity.
  - rewrite (Hscript (with_key "sk-filtered") generate_image.the_settings "sk-filtered"
               (inr filtered_stream) 1344 768 eq_refl eq_refl eq_refl eq_refl eq_refl).
    reflexivity.
Defined.

End FirstFilterExample.

(** * The response interpreter: an exhausted stream *)

Section EmptyOutcome.
Context `{pb2 : generation_pb2} `{pil : PIL} `{sdk : stability_sdk}.

(** C2, as the code has it.  When the stream ends after chunks that hold only
    inert artifacts (no chunk at all and chunks without artifacts included),
    both programs classify the response as Empty.  The script reports the type
    and finish-reason of the last artifact that went by (a text from which
    both numbers can be read back), or the text
    "No specific artifact processed." when there was none.  The service
    returns one fixed object, error "No image generated.", whatever the
    artifacts were: it carries nothing about them. *)
Theorem C2_exhausted_stream_is_empty (chunks : list Answer) :
  forallb inert_chunk chunks = true →
  let diagnostic := last_info "No specific artifact processed." (flatten chunks) in
  (∀ (p n k u : string) (s : State) api (w h : Z),
     stability_api s = Some api →
     dict_get k main.ASPECT_RATIOS = Some (w, h) →
     generate api (main.generate_call p n w h) = inr (exhausted chunks) →
     run (main.generate_image_endpoint p n k u) s
     = ([("error", JStr "No image generated.");
         ("details", JStr "Could not generate or save image.")],
        log s (service_announce p n k w h u ++ [Generate (main.generate_call p n w h)])))
  ∧
  (∀ (env : gmap string string) (cfg : generate_image.settings) (key : string) api
     (w h : Z),
     env !! "STABILITY_KEY" = Some key → truthy key = true →
     StabilityInference_new key true "stable-diffusion-xl-1024-v1-0" = inr api →
     dict_get (generate_image.selected_aspect_ratio cfg) generate_image.aspect_ratios
       = Some (w, h) →
     generate api (generate_image.generate_call (generate_image.prompt_text cfg)
                     (generate_image.negative_prompt_text cfg) w h)
       = inr (exhausted chunks) →
     generate_image.script cfg (generate_image.fresh env)
     = (inr {| generate_image.image_saved := false;
               generate_image.safety_filter_activated := false;
               generate_image.last_artifact_type_info := diagnostic |},
        log (connected env api)
          (script_announce cfg w h
           ++ [Generate (generate_image.generate_call (generate_image.prompt_text cfg)
                           (generate_image.negative_prompt_text cfg) w h);
               Print ("No image artifact found in the response. Last artifact info: "
                      +:+ diagnostic);
               Print (newline +:+ "Script finished.")])))
  ∧
  (∀ a b : Artifact,
     generate_image.artifact_info a = generate_image.artifact_info b →
     type a = type b ∧ finish_reason a = finish_reason b).
Proof.
  intros Hc diagnostic.
  pose proof (scan_exhausted chunks Hc) as Hscan.
  split; [|split; [|apply artifact_info_inj]].
  - intros p n k u s api w h Hapi Hk Hg.
    rewrite (main_endpoint_spec p n k u s api w h Hapi Hk). cbv zeta.
    rewrite Hg, Hscan. unfold interpret. by rewrite app_nil_r.
  - intros env cfg key api w h Henv Hkey Hnew Hsel Hg.
    rewrite (script_spec env cfg key api w h Henv Hkey Hnew Hsel). cbv zeta.
    rewrite Hg, Hscan. unfold interpret, script_final.
    rewrite Hscan, stream_artifacts_exhausted. fold diagnostic.
    by rewrite <- app_assoc.
Qed.

End EmptyOutcome.

Section EmptyOutcomeExample.
Import Sample.

Lemma C2_exhausted_stream_is_empty_witness :
  (run (main.generate_image_endpoint "a cat" "" "1:1_square" "u1")
     (serving (inr text_stream))).1 = Empty_response
  ∧ (generate_image.script generate_image.the_settings
       (generate_image.fresh (with_key "sk-text"))).1
    = inr {| generate_image.image_saved := false;
             generate_image.safety_filter_activated := false;
             generate_image.last_artifact_type_info :=
               "Artifact type: 3, Finish reason: 0" |}.
Proof.
  destruct (C2_exhausted_stream_is_empty (pb2 := pb2) (pil := pil) (sdk := sdk)
              [ {| artifacts := [] |}; {| artifacts := [text_artifact] |} ] eq_refl)
    as (Hservice & Hscript & _).
  split.
  - rewrite (Hservice "a cat" "" "1:1_square" "u1" (serving (inr text_stream))
               (inr text_stream) 1024 1024 eq_refl eq_refl eq_refl).
    reflexivity.
  - rewrite (Hscript (with_key "sk-text") generate_image.the_settings "sk-text"
               (inr text_stream) 1344 768 eq_refl eq_refl eq_refl eq_refl eq_refl).
    reflexivity.
Defined.

(** C2 as stated fails for the service: no reading of its response gives back
    the diagnostic of the last artifact.  The stream without artifacts and the
    stream whose only artifact has type 3 and finish-reason 0 get the very same
    response object. *)
Lemma C2_service_response_has_no_diagnostic :
  ¬ ∃ diagnostic_of : Response → string,
      ∀ chunks : list Answer,
        forallb inert_chunk chunks = true →
        diagnostic_of
          (run (main.generate_image_endpoint "a cat" "" "1:1_square" "u1")
             (serving (inr (exhausted chunks)))).1
        = last_info "No specific artifact processed." (flatten chunks).
Proof.
  intros [diagnostic_of H].
  pose proof (H [] eq_refl) as H0.
  pose proof (H [ {| artifacts := [text_artifact] |} ] eq_refl) as H1.
  vm_compute in H0, H1. congruence.
Qed.

End EmptyOutcomeExample.

(** * The request builder *)

Section RequestBuilder.
Context `{pb2 : generation_pb2} `{pil : PIL} `{sdk : stability_sdk}.

Lemma truthy_nonempty (s : string) : s ≠ "" → truthy s = true.
Proof. by destruct s. Qed.

(** C3, as the code has it.  With an empty negative prompt and a key that the
    table maps to [(w, h)], each program calls the provider once, and the
    [prompt] argument of that call is the prompt text itself, a bare string:
    one component, to which the program attaches no weight.  Width and height
    are [w] and [h]. *)
Theorem C3_empty_negative_prompt_sends_bare_text (p k : string) (w h : Z) :
  let sent :=
    {| prompt := Bare p; steps := 50; cfg_scale := 7; width := w; height := h;
       samples := 1; sampler := SAMPLER_K_DPMPP_2M |} in
  (∀ (u : string) (s : State) api,
     stability_api s = Some api →
     dict_get k main.ASPECT_RATIOS = Some (w, h) →
     provider_calls (output (run (main.generate_image_endpoint p "" k u) s).2)
     = provider_calls (output s) ++ [sent])
  ∧
  (∀ (env : gmap string string) (key : string) api,
     env !! "STABILITY_KEY" = Some key → truthy key = true →
     StabilityInference_new key true "stable-diffusion-xl-1024-v1-0" = inr api →
     dict_get k generate_image.aspect_ratios = Some (w, h) →
     provider_calls
       (output (generate_image.script
                  {| generate_image.prompt_text := p;
                     generate_image.negative_prompt_text := "";
                     generate_image.selected_aspect_ratio := k |}
                  (generate_image.fresh env)).2)
     = [sent])
  ∧ texts (prompt sent) = [p] ∧ weights (prompt sent) = [].
Proof.
  intros sent. split; [|split; [|done]].
  - intros u s api Hapi Hk. by rewrite (main_endpoint_calls p "" k u s api w h Hapi Hk).
  - intros env key api Henv Hkey Hnew Hsel.
    by rewrite (script_calls env
                  {| generate_image.prompt_text := p;
                     generate_image.negative_prompt_text := "";
                     generate_image.selected_aspect_ratio := k |}
                  key api w h Henv Hkey Hnew Hsel).
Qed.

(** C7.  With a non-empty negative prompt and a key that the table maps to
    [(w, h)], each program calls the provider once, and the [prompt] argument
    is the list of exactly two components: the prompt with weight 1.0, then
    the negative prompt with weight -1.0. *)
Theorem C7_negative_prompt_sends_two_weighted_components (p n k : string) (w h : Z) :
  n ≠ "" →
  let sent :=
    {| prompt :=
         Weighted [ {| text := p; parameters := {| weight := 1 |} |};
                    {| text := n; parameters := {| weight := -1 |} |} ];
       steps := 50; cfg_scale := 7; width := w; height := h;
       samples := 1; sampler := SAMPLER_K_DPMPP_2M |} in
  (∀ (u : string) (s : State) api,
     stability_api s = Some api →
     dict_get k main.ASPECT_RATIOS = Some (w, h) →
     provider_calls (output (run (main.generate_image_endpoint p n k u) s).2)
     = provider_calls (output s) ++ [sent])
  ∧
  (∀ (env : gmap string string) (key : string) api,
     env !! "STABILITY_KEY" = Some key → truthy key = true →
     StabilityInference_new key true "stable-diffusion-xl-1024-v1-0" = inr api →
     dict_get k generate_image.aspect_ratios = Some (w, h) →
     provider_calls
       (output (generate_image.script
                  {| generate_image.prompt_text := p;
                     generate_image.negative_prompt_text := n;
                     generate_image.selected_aspect_ratio := k |}
                  (generate_image.fresh env)).2)
     = [sent])
  ∧ texts (prompt sent) = [p; n] ∧ weights (prompt sent) = [1%Q; (-1)%Q].
Proof.
  intros Hn%truthy_nonempty sent. split; [|split; [|done]].
  - intros u s api Hapi Hk. rewrite (main_endpoint_calls p n k u s api w h Hapi Hk).
    unfold main.generate_call. by rewrite Hn.
  - intros env key api Henv Hkey Hnew Hsel.
    rewrite (script_calls env
               {| generate_image.prompt_text := p;
                  generate_image.negative_prompt_text := n;
                  generate_image.selected_aspect_ratio := k |}
               key api w h Henv Hkey Hnew Hsel).
    unfold generate_image.generate_call. simpl. by rewrite Hn.
Qed.

End RequestBuilder.

Section RequestBuilderExample.
Import Sample.

Lemma C3_empty_negative_prompt_sends_bare_text_witness :
  provider_calls
    (output (run (main.generate_image_endpoint "a cat" "" "3:2_landscape" "u1")
               (serving (inr image_stream))).2)
  = [ {| prompt := Bare "a cat"; steps := 50; cfg_scale := 7; width := 1216;
         height := 832; samples := 1; sampler := 9 |} ].
Proof.
  destruct (C3_empty_negative_prompt_sends_bare_text (pb2 := pb2) (pil := pil)
              (sdk := sdk) "a cat" "3:2_landscape" 1216 832) as [Hservice _].
  exact (Hservice "u1" (serving (inr image_stream)) (inr image_stream)
           eq_refl eq_refl).
Defined.

(** C3 as stated fails: the payload sent for an empty negative prompt holds no
    component that carries the weight 1.0; its prompt is the bare text. *)
Lemma C3_single_prompt_carries_no_weight :
  let sent :=
    provider_calls
      (output (run (main.generate_image_endpoint "a cat" "" "1:1_square" "u1")
                 (serving (inr image_stream))).2) in
  prompt <$> sent = [Bare "a cat"]
  ∧ ¬ ∃ kw c, sent = [kw] ∧ prompt kw = Weighted [c] ∧ weight (parameters c) = 1%Q.
Proof.
  split; [reflexivity|]. intros (kw & c & Hsent & Hprompt & _).
  vm_compute in Hsent. injection Hsent as <-. discriminate Hprompt.
Qed.

Lemma C7_negative_prompt_sends_two_weighted_components_witness :
  provider_calls
    (output (run (main.generate_image_endpoint "a cat" "dogs" "9:16_tall" "u1")
               (serving (inr image_stream))).2)
  = [ {| prompt :=
           Weighted [ {| text := "a cat"; parameters := {| weight := 1 |} |};
                      {| text := "dogs"; parameters := {| weight := -1 |} |} ];
         steps := 50; cfg_scale := 7; width := 768; height := 1344;
         samples := 1; sampler := 9 |} ]
  ∧ provider_calls
      (output (generate_image.script generate_image.the_settings
                 (generate_image.fresh (with_key "sk-image"))).2)
    = [ {| prompt :=
             Weighted
               [ {| text := "A fantasy castle on a floating island, vibrant colors, digital art";
                    parameters := {| weight := 1 |} |};
                 {| text := "blurry, ugly, deformed, watermark, signature, text";
                    parameters := {| weight := -1 |} |} ];
           steps := 50; cfg_scale := 7; width := 1344; height := 768;
           samples := 1; sampler := 9 |} ].
Proof.
  split.
  - destruct (C7_negative_prompt_sends_two_weighted_components (pb2 := pb2) (pil := pil)
                (sdk := sdk) "a cat" "dogs" "9:16_tall" 768 1344 ltac:(discriminate))
      as [Hservice _].
    exact (Hservice "u1" (serving (inr image_stream)) (inr image_stream)
             eq_refl eq_refl).
  - destruct (C7_negative_prompt_sends_two_weighted_components (pb2 := pb2) (pil := pil)
                (sdk := sdk)
                "A fantasy castle on a floating island, vibrant colors, digital art"
                "blurry, ugly, deformed, watermark, signature, text"
                "16:9_widescreen" 1344 768 ltac:(discriminate))
      as (_ & Hscript & _).
    exact (Hscript (with_key "sk-image") "sk-image" (inr image_stream)
             eq_refl eq_refl eq_refl eq_refl).
Defined.

End RequestBuilderExample.

(** * Readiness and aspect-ratio validation *)

Section Validation.
Context `{pb2 : generation_pb2} `{pil : PIL} `{sdk : stability_sdk}.

Lemma dict_get_is_Some {V : Type} (k : string) (d : dict V) :
  is_Some (dict_get k d) ↔ k ∈ dict_keys d.
Proof.
  unfold dict_keys. induction d as [|[k' v] d IH]; simpl.
  - split; [by intros [? ?]|]. by intros ?%elem_of_nil.
  - rewrite elem_of_cons. destruct (String.eqb_spec k k') as [->|Hne].
    + split; [by left|by eexists].
    + rewrite IH. split; [by right|]. by intros [?|?].
Qed.

(** C4, as the code has it.  Once the client handle is set, a request whose
    key is not in the table is answered with the invalid-aspect-ratio error
    that lists the five keys of the table, in the table's order, and the
    process state is left as it was: nothing is printed and the provider is
    not called.  (With the handle unset the readiness check answers first,
    also without a provider call.) *)
Theorem C4_invalid_aspect_ratio_when_ready (p n k u : string) (s : State) :
  dict_get k main.ASPECT_RATIOS = None →
  (∀ api, stability_api s = Some api →
     run (main.generate_image_endpoint p n k u) s
     = ([("error", JStr "Invalid aspect_ratio_key");
         ("available_keys",
          JList ["1:1_square"; "16:9_widescreen"; "9:16_tall"; "3:2_landscape";
                 "2:3_portrait"])], s))
  ∧ (stability_api s = None →
     ∃ status, run (main.generate_image_endpoint p n k u) s
               = (ClientNotInitialized_response status, s))
  ∧ provider_calls (output (run (main.generate_image_endpoint p n k u) s).2)
    = provider_calls (output s)
  ∧ (∀ k' : string,
       k' ∈ ["1:1_square"; "16:9_widescreen"; "9:16_tall"; "3:2_landscape";
             "2:3_portrait"]
       ↔ is_Some (dict_get k' main.ASPECT_RATIOS)).
Proof.
  intros Hk. split; [|split; [|split]].
  - intros api Hapi. by rewrite (main_endpoint_invalid p n k u s api Hapi Hk).
  - intros Hapi. eexists. by apply main_endpoint_not_initialized.
  - destruct (stability_api s) as [api|] eqn:Hapi.
    + by rewrite (main_endpoint_invalid p n k u s api Hapi Hk).
    + by rewrite (main_endpoint_not_initialized p n k u s Hapi).
  - intros k'. by rewrite dict_get_is_Some.
Qed.

Lemma serve_not_initialized (reqs : list request) (s : State) :
  stability_api s = None →
  serve reqs s
  = (replicate (length reqs)
       (ClientNotInitialized_response
          (if negb (truthy_opt (environ s !! "STABILITY_KEY"))
           then "NOT SET or connection FAILED"
           else "Set, but connection FAILED on startup")), s).
Proof.
  intros Hapi. induction reqs as [|r reqs IH]; [done|].
  simpl. rewrite main_endpoint_not_initialized by done. by rewrite IH.
Qed.

(** C5.  If [STABILITY_KEY] is unset or empty when the service starts, the
    startup hook returns normally (it prints two lines) and leaves the client
    handle unset.  Every request handled after that, whatever its prompt and
    whether or not its aspect-ratio key is in the table, gets the
    not-initialized error and changes nothing in the process: the provider's
    [generate] is never called.  The readiness check thus comes before the
    check of the key. *)
Theorem C5_missing_credential_degrades_every_request (env : gmap string string) :
  env !! "STABILITY_KEY" = None ∨ env !! "STABILITY_KEY" = Some "" →
  let started := (run main.startup_event (main.import_module env)).2 in
  stability_api started = None
  ∧ output started
    = [Print "FATAL ERROR: STABILITY_KEY environment variable not set.";
       Print "Please set STABILITY_KEY before running the Uvicorn server."]
  ∧ ∀ reqs : list request,
      serve reqs started
      = (replicate (length reqs)
           [("error", JStr "Stability API not initialized. Check server logs.");
            ("detail", JStr ("STABILITY_KEY status: NOT SET or connection FAILED. "
               +:+ "Please ensure it's set correctly when starting Uvicorn."))],
         started).
Proof.
  intros Henv started.
  assert (truthy_opt (env !! "STABILITY_KEY") = false) as Hkey
    by (by destruct Henv as [-> | ->]).
  assert (started
          = log (main.import_module env)
              [Print "FATAL ERROR: STABILITY_KEY environment variable not set.";
               Print "Please set STABILITY_KEY before running the Uvicorn server."])
    as Hstarted.
  { unfold started, main.startup_event, main.import_module. unfold_M. simpl.
    rewrite lookup_insert_ne by done. by rewrite Hkey. }
  split; [by rewrite Hstarted|]. split; [by rewrite Hstarted|].
  intros reqs. rewrite serve_not_initialized by (by rewrite Hstarted).
  assert (environ started !! "STABILITY_KEY" = env !! "STABILITY_KEY") as ->.
  { rewrite Hstarted. unfold log, main.import_module. cbn [environ].
    by rewrite lookup_insert_ne. }
  by rewrite Hkey.
Qed.

End Validation.

Section ValidationExample.
Import Sample.

Lemma C4_invalid_aspect_ratio_when_ready_witness :
  run (main.generate_image_endpoint "a cat" "" "4:3" "u1") (serving (inr image_stream))
  = (InvalidAspectRatio_response
       ["1:1_square"; "16:9_widescreen"; "9:16_tall"; "3:2_landscape"; "2:3_portrait"],
     serving (inr image_stream)).
Proof.
  destruct (C4_invalid_aspect_ratio_when_ready (pb2 := pb2) (pil := pil) (sdk := sdk)
              "a cat" "" "4:3" "u1" (serving (inr image_stream)) eq_refl) as [Hready _].
  exact (Hready (inr image_stream) eq_refl).
Defined.

(** C4 as stated fails when the client handle is unset: a request with a key
    outside the table then gets the not-initialized error, not the
    invalid-aspect-ratio error. *)
Lemma C4_unknown_key_without_client_is_not_initialized :
  let started := (run main.startup_event (main.import_module ∅)).2 in
  dict_get "4:3" main.ASPECT_RATIOS = None
  ∧ (run (main.generate_image_endpoint "a cat" "" "4:3" "u1") started).1
    = ClientNotInitialized_response "NOT SET or connection FAILED"
  ∧ ∀ keys, (run (main.generate_image_endpoint "a cat" "" "4:3" "u1") started).1
            ≠ InvalidAspectRatio_response keys.
Proof. split; [reflexivity|]. split; [reflexivity|]. intros keys. discriminate. Qed.

Lemma C5_missing_credential_degrades_every_request_witness :
  serve [ {| req_prompt := "a cat"; req_negative_prompt := "";
             req_aspect_ratio_key := "1:1_square"; req_unique_id := "u1" |};
          {| req_prompt := "a dog"; req_negative_prompt := "cats";
             req_aspect_ratio_key := "4:3"; req_unique_id := "u2" |} ]
    (run main.startup_event (main.import_module (with_key ""))).2
  = ([ClientNotInitialized_response "NOT SET or connection FAILED";
      ClientNotInitialized_response "NOT SET or connection FAILED"],
     (run main.startup_event (main.import_module (with_key ""))).2).
Proof.
  destruct (C5_missing_credential_degrades_every_request (pb2 := pb2) (pil := pil)
              (sdk := sdk) (with_key "") (or_intror eq_refl)) as (_ & _ & Hserve).
  exact (Hserve [ {| req_prompt := "a cat"; req_negative_prompt := "";
                     req_aspect_ratio_key := "1:1_square"; req_unique_id := "u1" |};
                  {| req_prompt := "a dog"; req_negative_prompt := "cats";
                     req_aspect_ratio_key := "4:3"; req_unique_id := "u2" |} ]).
Defined.

End ValidationExample.

(** * The response interpreter: first image wins *)

Section FirstImage.
Context `{pb2 : generation_pb2} `{pil : PIL} `{sdk : stability_sdk}.

(** C6, as the code has it.  Let a stream yield chunks that hold only inert
    artifacts, then a chunk in which inert artifacts are followed by an
    artifact [a] whose type is the image tag and whose own finish-reason is
    not the filter tag.  If the codec decodes the payload of [a] to [img] and
    saving [img] under the target file name does not raise, the response is
    Saved: the events show the payload decoded, [img] saved under that name,
    and nothing else decoded or saved, whatever follows [a] in its chunk
    ([post]) or in the stream ([rest]). *)
Theorem C6_first_unfiltered_image_is_saved
    (chunks : list Answer) (pre post : list Artifact) (a : Artifact) (rest : answers)
    (img : Image) :
  forallb inert_chunk chunks = true →
  forallb inert pre = true →
  is_filter a = false →
  is_image a = true →
  Image_open (binary a) = inr img →
  let ans := prepend chunks (Yield {| artifacts := pre ++ a :: post |} rest) in
  (∀ (p n k u : string) (s : State) api (w h : Z),
     stability_api s = Some api →
     dict_get k main.ASPECT_RATIOS = Some (w, h) →
     generate api (main.generate_call p n w h) = inr ans →
     Image_save img (service_filename u) = None →
     run (main.generate_image_endpoint p n k u) s
     = ([("message", JStr "Image generated successfully!");
         ("filename", JStr (service_filename u));
         ("prompt", JStr p);
         ("negative_prompt", JStr n);
         ("aspect_ratio", JStr k)],
        log s (service_announce p n k w h u
               ++ [Generate (main.generate_call p n w h);
                   Open (binary a);
                   Save img (service_filename u);
                   Print ("Image successfully saved as " +:+ service_filename u)])))
  ∧
  (∀ (env : gmap string string) (cfg : generate_image.settings) (key : string) api
     (w h : Z),
     env !! "STABILITY_KEY" = Some key → truthy key = true →
     StabilityInference_new key true "stable-diffusion-xl-1024-v1-0" = inr api →
     dict_get (generate_image.selected_aspect_ratio cfg) generate_image.aspect_ratios
       = Some (w, h) →
     generate api (generate_image.generate_call (generate_image.prompt_text cfg)
                     (generate_image.negative_prompt_text cfg) w h) = inr ans →
     Image_save img "castle_widescreen.png" = None →
     generate_image.script cfg (generate_image.fresh env)
     = (inr {| generate_image.image_saved := true;
               generate_image.safety_filter_activated := false;
               generate_image.last_artifact_type_info :=
                 generate_image.artifact_info a |},
        log (connected env api)
          (script_announce cfg w h
           ++ [Generate (generate_image.generate_call (generate_image.prompt_text cfg)
                           (generate_image.negative_prompt_text cfg) w h);
               Open (binary a);
               Save img "castle_widescreen.png";
               Print "Image successfully saved as castle_widescreen.png";
               Print (newline +:+ "Script finished.")]))).
Proof.
  intros Hc Hp Hf Hi Ho ans.
  assert (scan ans = Decisive a) as Hscan
    by (apply scan_first; auto using is_image_decisive).
  split.
  - intros p n k u s api w h Hapi Hk Hg Hs.
    rewrite (main_endpoint_spec p n k u s api w h Hapi Hk). cbv zeta.
    rewrite Hg, Hscan. unfold interpret. rewrite Hf, Ho, Hs.
    by rewrite <- app_assoc.
  - intros env cfg key api w h Henv Hkey Hnew Hsel Hg Hs.
    rewrite (script_spec env cfg key api w h Henv Hkey Hnew Hsel). cbv zeta.
    rewrite Hg, Hscan. unfold interpret.
    change generate_image.output_filename with "castle_widescreen.png".
    rewrite Hf, Ho, Hs. unfold script_final. rewrite Hscan.
    by rewrite <- app_assoc.
Qed.

End FirstImage.

Section FirstImageExample.
Import Sample.

Lemma C6_first_unfiltered_image_is_saved_witness :
  (run (main.generate_image_endpoint "a cat" "" "1:1_square" "u1")
     (serving (inr image_stream))).1
  = Saved_response "generated_image_u1.png" "a cat" "" "1:1_square"
  ∧ files_written
      (output (generate_image.script generate_image.the_settings
                 (generate_image.fresh (with_key "sk-image"))).2)
    = [(png, "castle_widescreen.png")].
Proof.
  destruct (C6_first_unfiltered_image_is_saved (pb2 := pb2) (pil := pil) (sdk := sdk)
              [ {| artifacts := [text_artifact] |} ]
              [text_artifact] [filtered_artifact] image_artifact
              (Raises "stream broken") png eq_refl eq_refl eq_refl eq_refl eq_refl)
    as [Hservice Hscript].
  split.
  - rewrite (Hservice "a cat" "" "1:1_square" "u1" (serving (inr image_stream))
               (inr image_stream) 1024 1024 eq_refl eq_refl eq_refl eq_refl).
    reflexivity.
  - rewrite (Hscript (with_key "sk-image") generate_image.the_settings "sk-image"
               (inr image_stream) 1344 768 eq_refl eq_refl eq_refl eq_refl eq_refl
               eq_refl).
    reflexivity.
Defined.

(** C6 as stated fails.  An artifact of image type that itself carries the
    filter finish-reason is the first image artifact of its stream and has no
    filter artifact before it, yet the response is Filtered and no file is
    written.  And an image artifact whose payload the codec rejects gives the
    error response of the [except] branch, again with no file written. *)
Lemma C6_image_artifact_not_saved :
  let filtered_first := Yield {| artifacts := [filtered_artifact] |} StopIteration in
  let on_filtered :=
    run (main.generate_image_endpoint "a cat" "" "1:1_square" "u1")
      (serving (inr filtered_first)) in
  let on_broken :=
    run (main.generate_image_endpoint "a cat" "" "1:1_square" "u1")
      (serving (inr broken_image_stream)) in
  is_image filtered_artifact = true
  ∧ on_filtered.1 = Filtered_response
  ∧ files_written (output on_filtered.2) = []
  ∧ is_image broken_image_artifact = true
  ∧ is_filter broken_image_artifact = false
  ∧ on_broken.1 = ProviderCallFailed_response "cannot identify image file"
  ∧ files_written (output on_broken.2) = [].
Proof. repeat split. Qed.

End FirstImageExample.

(** * The shapes of the responses *)

Section RequestBoundary.
Context `{pb2 : generation_pb2} `{pil : PIL} `{sdk : stability_sdk}.

Lemma service_response_well_formed (o : outcome) (fn p n k : string) :
  well_formed (service_response o fn p n k).
Proof. destruct o; constructor. Qed.

(** The endpoint always answers with an object of one of the six shapes. *)
Lemma main_endpoint_well_formed (p n k u : string) (s : State) :
  well_formed (run (main.generate_image_endpoint p n k u) s).1.
Proof.
  destruct (stability_api s) as [api|] eqn:Hapi.
  - destruct (dict_get k main.ASPECT_RATIOS) as [[w h]|] eqn:Hk.
    + rewrite (main_endpoint_spec p n k u s api w h Hapi Hk). cbv zeta.
      destruct (generate api _) as [e|ans]; [constructor|].
      destruct (interpret _ _ _) as [[e|o] evs]; [constructor|].
      apply service_response_well_formed.
    + rewrite (main_endpoint_invalid p n k u s api Hapi Hk). constructor.
  - rewrite (main_endpoint_not_initialized p n k u s Hapi). constructor.
Qed.

End RequestBoundary.

(** * Events that leave the codec alone *)

Section FilterBeforeImage.
Context `{pb2 : generation_pb2} `{pil : PIL} `{sdk : stability_sdk}.

Lemma quiet_nil : quiet [].
Proof. by repeat split. Qed.

Lemma quiet_print (line : string) : quiet [Print line].
Proof. by repeat split. Qed.

Lemma quiet_generate (kw : generate_kwargs) : quiet [Generate kw].
Proof. by repeat split. Qed.

Lemma quiet_app (a b : list Event) : quiet a → quiet b → quiet (a ++ b).
Proof.
  intros (Ha1 & Ha2 & Ha3) (Hb1 & Hb2 & Hb3). unfold quiet.
  by rewrite decoded_app, files_written_app, warned_app, Ha1, Ha2, Ha3, Hb1, Hb2, Hb3.
Qed.

Lemma quiet_service_announce (p n k : string) (w h : Z) (u : string) :
  quiet (service_announce p n k w h u).
Proof. unfold service_announce. destruct (truthy n); by repeat split. Qed.

Lemma quiet_script_announce (cfg : generate_image.settings) (w h : Z) :
  quiet (script_announce cfg w h).
Proof. unfold script_announce. destruct (truthy _); by repeat split. Qed.

Lemma quiet_script_epilogue (l : generate_image.locals) : quiet (script_epilogue l).
Proof. unfold script_epilogue. destruct (_ && _); by repeat split. Qed.

End FilterBeforeImage.

(** * The two aspect-ratio tables *)

Section Tables.

(** C10.  The script and the service each have their own table.  The script's
    has exactly the keys 1:1_square, 16:9_widescreen and 9:16_tall; the
    service's is the script's followed by 3:2_landscape at (1216, 832) and
    2:3_portrait at (832, 1216), five distinct keys in all, so the tables
    differ.  The two extra
    keys are not in the script's table, and every key of the script's table
    has the same pair in the service's. *)
Theorem C10_script_table_is_strict_part_of_service_table :
  dict_keys generate_image.aspect_ratios
    = ["1:1_square"; "16:9_widescreen"; "9:16_tall"]
  ∧ dict_keys main.ASPECT_RATIOS
    = ["1:1_square"; "16:9_widescreen"; "9:16_tall"; "3:2_landscape"; "2:3_portrait"]
  ∧ NoDup (dict_keys main.ASPECT_RATIOS)
  ∧ main.ASPECT_RATIOS
    = generate_image.aspect_ratios
      ++ [("3:2_landscape", (1216, 832)); ("2:3_portrait", (832, 1216))]
  ∧ dict_get "3:2_landscape" main.ASPECT_RATIOS = Some (1216, 832)
  ∧ dict_get "2:3_portrait" main.ASPECT_RATIOS = Some (832, 1216)
  ∧ dict_get "3:2_landscape" generate_image.aspect_ratios = None
  ∧ dict_get "2:3_portrait" generate_image.aspect_ratios = None
  ∧ generate_image.aspect_ratios ≠ main.ASPECT_RATIOS
  ∧ (∀ (k : string) (wh : Z * Z),
       dict_get k generate_image.aspect_ratios = Some wh →
       dict_get k main.ASPECT_RATIOS = Some wh).
Proof.
  do 2 (split; [reflexivity|]).
  split; [apply (bool_decide_unpack _); by vm_compute|].
  do 5 (split; [reflexivity|]).
  split; [discriminate|].
  intros k wh. unfold generate_image.aspect_ratios, main.ASPECT_RATIOS. simpl.
  repeat (destruct (String.eqb k _); [done|]). done.
Qed.

Lemma C10_script_table_is_strict_part_of_service_table_witness :
  dict_get "16:9_widescreen" main.ASPECT_RATIOS = Some (1344, 768).
Proof.
  destruct C10_script_table_is_strict_part_of_service_table
    as (_ & _ & _ & _ & _ & _ & _ & _ & _ & Hagree).
  exact (Hagree "16:9_widescreen" (1344, 768) eq_refl).
Defined.

End Tables.

(** * Further properties: shared lemmas *)

Section FurtherFacts.
Context `{pb2 : generation_pb2} `{pil : PIL} `{sdk : stability_sdk}.

Lemma since_log (s : State) (evs : list Event) : since s (log s evs) = evs.
Proof. unfold since, log. cbn [output]. by rewrite drop_app_length. Qed.

Lemma since_refl (s : State) : since s s = [].
Proof. unfold since. by rewrite drop_all. Qed.

(** The six ways an interpretation can go. *)
Lemma interpret_cases (on_filter : list Event) (fn : string) (v : verdict) :
  interpret on_filter fn v = (inr Empty, [])
  ∨ (∃ e, v = Raised e ∧ interpret on_filter fn v = (inl e, []))
  ∨ (∃ a, v = Decisive a ∧ is_filter a = true
        ∧ interpret on_filter fn v = (inr Filtered, on_filter))
  ∨ (∃ a e, v = Decisive a ∧ is_filter a = false ∧ Image_open (binary a) = inl e
        ∧ interpret on_filter fn v = (inl e, [Open (binary a)]))
  ∨ (∃ a img e, v = Decisive a ∧ is_filter a = false
        ∧ Image_open (binary a) = inr img ∧ Image_save img fn = Some e
        ∧ interpret on_filter fn v = (inl e, [Open (binary a); Save img fn]))
  ∨ (∃ a img, v = Decisive a ∧ is_filter a = false
        ∧ Image_open (binary a) = inr img ∧ Image_save img fn = None
        ∧ interpret on_filter fn v
          = (inr Saved, [Open (binary a); Save img fn;
                         Print ("Image successfully saved as " +:+ fn)])).
Proof.
  destruct v as [a| |e]; [|by left|right; left; by exists e].
  unfold interpret. destruct (is_filter a) eqn:Hf.
  { right; right; left. by exists a. }
  destruct (Image_open (binary a)) as [e|img] eqn:Ho.
  { right; right; right; left. by exists a, e. }
  destruct (Image_save img fn) as [e|] eqn:Hs.
  - right; right; right; right; left. by exists a, img, e.
  - right; right; right; right; right. by exists a, img.
Qed.

(** The files an interpretation asks the codec to write: none, or one under
    the target name. *)
Lemma files_written_interpret (on_filter : list Event) (fn : string) (v : verdict) :
  files_written on_filter = [] →
  files_written (interpret on_filter fn v).2 = []
  ∨ ∃ img, files_written (interpret on_filter fn v).2 = [(img, fn)].
Proof.
  intros Hf.
  destruct (interpret_cases on_filter fn v)
    as [H|[(e & _ & H)|[(a & _ & _ & H)|[(a & e & _ & _ & _ & H)
       |[(a & img & e & _ & _ & _ & _ & H)|(a & img & _ & _ & _ & _ & H)]]]]];
    rewrite H; cbn [snd]; eauto.
Qed.

Lemma files_written_service_announce (p n k : string) (w h : Z) (u : string) :
  files_written (service_announce p n k w h u) = [].
Proof. by destruct (quiet_service_announce p n k w h u) as (_ & ? & _). Qed.

Lemma files_written_script_announce (cfg : generate_image.settings) (w h : Z) :
  files_written (script_announce cfg w h) = [].
Proof. by destruct (quiet_script_announce cfg w h) as (_ & ? & _). Qed.

Lemma files_written_script_epilogue (l : generate_image.locals) :
  files_written (script_epilogue l) = [].
Proof. by destruct (quiet_script_epilogue l) as (_ & ? & _). Qed.

(** What the endpoint adds to the events, in every case. *)
Lemma main_endpoint_appends (p n k u : string) (s : State) :
  ∃ evs, (run (main.generate_image_endpoint p n k u) s).2 = log s evs.
Proof.
  destruct (stability_api s) as [api|] eqn:Hapi.
  2: { exists []. by rewrite (main_endpoint_not_initialized p n k u s Hapi), log_nil. }
  destruct (dict_get k main.ASPECT_RATIOS) as [[w h]|] eqn:Hk.
  2: { exists []. by rewrite (main_endpoint_invalid p n k u s api Hapi Hk), log_nil. }
  rewrite (main_endpoint_spec p n k u s api w h Hapi Hk). cbv zeta.
  destruct (generate api _) as [e|ans]; [by eexists|].
  destruct (interpret _ _ _) as [[e|o] evs]; by eexists.
Qed.

Lemma serve_appends (reqs : list request) (s : State) :
  ∃ evs, (serve reqs s).2 = log s evs ∧ length (serve reqs s).1 = length reqs.
Proof.
  revert s. induction reqs as [|r reqs IH]; intros s.
  { exists []. by rewrite log_nil. }
  simpl.
  destruct (main_endpoint_appends (req_prompt r) (req_negative_prompt r)
              (req_aspect_ratio_key r) (req_unique_id r) s) as [evs1 H1].
  destruct (run _ s) as [resp s1]. cbn [snd] in H1. subst s1.
  destruct (IH (log s evs1)) as (evs2 & H2 & Hlen).
  destruct (serve reqs (log s evs1)) as [resps s2]. cbn [fst snd] in *. subst s2.
  exists (evs1 ++ evs2). rewrite log_log. split; [done|]. simpl. by rewrite Hlen.
Qed.

(** The startup hook, in its three cases. *)
Lemma main_startup_connects (env : gmap string string) (key : string) api :
  env !! "STABILITY_KEY" = Some key → truthy key = true →
  StabilityInference_new key true "stable-diffusion-xl-1024-v1-0" = inr api →
  (run main.startup_event (main.import_module env)).2
  = {| environ := <["STABILITY_HOST" := "grpc.stability.ai:443"]> env;
       stability_api := Some api;
       output := [Print "Successfully connected to Stability AI API on startup."] |}.
Proof.
  intros Henv Hkey Hnew. unfold main.startup_event, main.import_module. unfold_M. simpl.
  rewrite lookup_insert_ne by done. rewrite Henv. simpl. rewrite Hkey. simpl.
  by rewrite Hnew.
Qed.

Lemma main_startup_fails (env : gmap string string) (key : string) (e : Exception) :
  env !! "STABILITY_KEY" = Some key → truthy key = true →
  StabilityInference_new key true "stable-diffusion-xl-1024-v1-0" = inl e →
  (run main.startup_event (main.import_module env)).2
  = {| environ := <["STABILITY_HOST" := "grpc.stability.ai:443"]> env;
       stability_api := None;
       output := [Print ("Error connecting to Stability AI on startup: " +:+ e)] |}.
Proof.
  intros Henv Hkey Hnew. unfold main.startup_event, main.import_module. unfold_M. simpl.
  rewrite lookup_insert_ne by done. rewrite Henv. simpl. rewrite Hkey. simpl.
  by rewrite Hnew.
Qed.

End FurtherFacts.

(** * Further properties of the service *)

Section ServiceLifecycle.
Context `{pb2 : generation_pb2} `{pil : PIL} `{sdk : stability_sdk}.

Lemma provider_calls_endpoint (p n k u : string) (s : State) :
  provider_calls (since s (run (main.generate_image_endpoint p n k u) s).2)
  = match stability_api s, dict_get k main.ASPECT_RATIOS with
    | Some _, Some (w, h) => [main.generate_call p n w h]
    | _, _ => []
    end.
Proof.
  destruct (stability_api s) as [api|] eqn:Hapi.
  2: { by rewrite (main_endpoint_not_initialized p n k u s Hapi), since_refl. }
  destruct (dict_get k main.ASPECT_RATIOS) as [[w h]|] eqn:Hk.
  2: { by rewrite (main_endpoint_invalid p n k u s api Hapi Hk), since_refl. }
  rewrite (main_endpoint_spec p n k u s api w h Hapi Hk). cbv zeta.
  destruct (generate api _) as [e|ans].
  - cbn [snd]. rewrite since_log, !provider_calls_app, provider_calls_service_announce.
    done.
  - pose proof (provider_calls_interpret [Warn main_filter_warning] (service_filename u)
                  (scan ans) eq_refl) as Hi.
    destruct (interpret _ _ _) as [[e|o] evs]; cbn [snd] in *;
      rewrite since_log, !provider_calls_app, provider_calls_service_announce, Hi;
      done.
Qed.

(** X1.  When [STABILITY_KEY] holds a non-empty key and the constructor of the
    client returns [api] for it, the startup hook stores [api] in the handle,
    prints the success line and changes nothing else; a request with a key
    of the table that comes next calls [generate] exactly once and is not
    answered with the not-initialized error. *)
Theorem X1_startup_with_credential_enables_requests
    (env : gmap string string) (key : string) api :
  env !! "STABILITY_KEY" = Some key → truthy key = true →
  StabilityInference_new key true "stable-diffusion-xl-1024-v1-0" = inr api →
  let started := (run main.startup_event (main.import_module env)).2 in
  stability_api started = Some api
  ∧ environ started = <["STABILITY_HOST" := "grpc.stability.ai:443"]> env
  ∧ output started = [Print "Successfully connected to Stability AI API on startup."]
  ∧ ∀ (p n k u : string) (w h : Z),
      dict_get k main.ASPECT_RATIOS = Some (w, h) →
      provider_calls (since started (run (main.generate_image_endpoint p n k u) started).2)
      = [main.generate_call p n w h]
      ∧ ∀ status, (run (main.generate_image_endpoint p n k u) started).1
                  ≠ ClientNotInitialized_response status.
Proof.
  intros Henv Hkey Hnew started.
  assert (started = {| environ := <["STABILITY_HOST" := "grpc.stability.ai:443"]> env;
                       stability_api := Some api;
                       output := [Print "Successfully connected to Stability AI API on startup."] |})
    as Hstarted by (by apply main_startup_connects with key).
  rewrite Hstarted. repeat (split; [done|]).
  intros p n k u w h Hk. split.
  - rewrite provider_calls_endpoint. cbn [stability_api]. by rewrite Hk.
  - intros status. rewrite (main_endpoint_spec p n k u _ api w h) by done. cbv zeta.
    destruct (generate api _) as [e|ans]; [discriminate|].
    destruct (interpret _ _ _) as [[e|[| |]] evs]; discriminate.
Qed.

(** X2.  When the key is set but the constructor of the client raises [e], the
    startup hook prints the error, leaves the handle unset and returns
    normally; every request after that gets the not-initialized error with
    the status text for a key that is set, and leaves the process as it
    is. *)
Theorem X2_failed_connection_degrades_every_request
    (env : gmap string string) (key : string) (e : Exception) :
  env !! "STABILITY_KEY" = Some key → truthy key = true →
  StabilityInference_new key true "stable-diffusion-xl-1024-v1-0" = inl e →
  let started := (run main.startup_event (main.import_module env)).2 in
  stability_api started = None
  ∧ output started = [Print ("Error connecting to Stability AI on startup: " +:+ e)]
  ∧ ∀ reqs : list request,
      serve reqs started
      = (replicate (length reqs)
           (ClientNotInitialized_response "Set, but connection FAILED on startup"),
         started).
Proof.
  intros Henv Hkey Hnew started.
  assert (started = {| environ := <["STABILITY_HOST" := "grpc.stability.ai:443"]> env;
                       stability_api := None;
                       output := [Print ("Error connecting to Stability AI on startup: "
                                         +:+ e)] |})
    as Hstarted by (by apply main_startup_fails with key).
  split; [by rewrite Hstarted|]. split; [by rewrite Hstarted|].
  intros reqs. rewrite serve_not_initialized by (by rewrite Hstarted).
  assert (environ started !! "STABILITY_KEY" = Some key) as ->.
  { rewrite Hstarted. cbn [environ]. by rewrite lookup_insert_ne. }
  simpl. by rewrite Hkey.
Qed.


Lemma provider_calls_serve (reqs : list request) (s : State) :
  (length (provider_calls (since s (serve reqs s).2)) ≤ length reqs)%nat.
Proof.
  revert s. induction reqs as [|r reqs IH]; intros s.
  { simpl. by rewrite since_refl. }
  simpl.
  pose proof (provider_calls_endpoint (req_prompt r) (req_negative_prompt r)
                (req_aspect_ratio_key r) (req_unique_id r) s) as Hcalls.
  destruct (main_endpoint_appends (req_prompt r) (req_negative_prompt r)
              (req_aspect_ratio_key r) (req_unique_id r) s) as [evs1 H1].
  destruct (run _ s) as [resp s1]. cbn [snd] in *. subst s1.
  rewrite since_log in Hcalls.
  specialize (IH (log s evs1)).
  destruct (serve_appends reqs (log s evs1)) as (evs2 & H2 & _).
  destruct (serve reqs (log s evs1)) as [resps s2]. cbn [fst snd] in *. subst s2.
  rewrite since_log in IH. rewrite log_log, since_log, provider_calls_app, length_app.
  assert (length (provider_calls evs1) ≤ 1)%nat; [|lia].
  rewrite Hcalls. destruct (stability_api s); [|simpl; lia].
  destruct (dict_get _ _) as [[w h]|]; simpl; lia.
Qed.

(** X4.  A request makes the endpoint call the provider exactly once when the
    handle is set and the key is in the table, with the arguments built from
    the request, and not at all otherwise; also when the call or the stream
    raises there is no second call.  So a sequence of requests causes at most
    as many provider calls as it has requests. *)
Theorem X4_at_most_one_provider_call_per_request :
  (∀ (p n k u : string) (s : State),
     provider_calls (since s (run (main.generate_image_endpoint p n k u) s).2)
     = match stability_api s, dict_get k main.ASPECT_RATIOS with
       | Some _, Some (w, h) => [main.generate_call p n w h]
       | _, _ => []
       end)
  ∧ (∀ (reqs : list request) (s : State),
       (length (provider_calls (since s (serve reqs s).2)) ≤ length reqs)%nat).
Proof. split; [apply provider_calls_endpoint|apply provider_calls_serve]. Qed.

End ServiceLifecycle.

Section ServiceLifecycleExample.
Import Sample.

Lemma X1_startup_with_credential_enables_requests_witness :
  stability_api (run main.startup_event (main.import_module (with_key "sk-image"))).2
  = Some (inr image_stream).
Proof.
  destruct (X1_startup_with_credential_enables_requests (pb2 := pb2) (pil := pil)
              (sdk := sdk) (with_key "sk-image") "sk-image" (inr image_stream)
              eq_refl eq_refl eq_refl) as [Hhandle _].
  exact Hhandle.
Defined.

Lemma X2_failed_connection_degrades_every_request_witness :
  serve [ {| req_prompt := "a cat"; req_negative_prompt := "";
             req_aspect_ratio_key := "1:1_square"; req_unique_id := "u1" |} ]
    (run main.startup_event (main.import_module (with_key "expired"))).2
  = ([ClientNotInitialized_response "Set, but connection FAILED on startup"],
     (run main.startup_event (main.import_module (with_key "expired"))).2).
Proof.
  destruct (X2_failed_connection_degrades_every_request (pb2 := pb2) (pil := pil)
              (sdk := sdk) (with_key "expired") "expired" "UNAUTHENTICATED"
              eq_refl eq_refl eq_refl) as (_ & _ & Hserve).
  exact (Hserve [ {| req_prompt := "a cat"; req_negative_prompt := "";
                     req_aspect_ratio_key := "1:1_square"; req_unique_id := "u1" |} ]).
Defined.

End ServiceLifecycleExample.

(** * Further properties: the script before the provider call *)

Section ScriptExits.
Context `{pb2 : generation_pb2} `{pil : PIL} `{sdk : stability_sdk}.

Lemma script_without_credential (env : gmap string string)
    (cfg : generate_image.settings) :
  truthy_opt (env !! "STABILITY_KEY") = false →
  generate_image.script cfg (generate_image.fresh env)
  = (inl generate_image.SystemExit,
     {| environ := <["STABILITY_HOST" := "grpc.stability.ai:443"]> env;
        stability_api := None;
        output := [Print ("Error connecting to Stability AI: "
                          +:+ "STABILITY_KEY environment variable not set or empty.")] |}).
Proof.
  intros Hkey. unfold generate_image.script, generate_image.connect. unfold_M. simpl.
  rewrite lookup_insert_ne by done. by rewrite Hkey.
Qed.

Lemma script_constructor_raises (env : gmap string string)
    (cfg : generate_image.settings) (key : string) (e : Exception) :
  env !! "STABILITY_KEY" = Some key → truthy key = true →
  StabilityInference_new key true "stable-diffusion-xl-1024-v1-0" = inl e →
  generate_image.script cfg (generate_image.fresh env)
  = (inl generate_image.SystemExit,
     {| environ := <["STABILITY_HOST" := "grpc.stability.ai:443"]> env;
        stability_api := None;
        output := [Print ("Error connecting to Stability AI: " +:+ e)] |}).
Proof.
  intros Henv Hkey Hnew. unfold generate_image.script, generate_image.connect.
  unfold_M. simpl. rewrite lookup_insert_ne by done. rewrite Henv. simpl.
  rewrite Hkey. simpl. by rewrite Hnew.
Qed.

Lemma script_unknown_ratio (env : gmap string string)
    (cfg : generate_image.settings) (key : string) api :
  env !! "STABILITY_KEY" = Some key → truthy key = true →
  StabilityInference_new key true "stable-diffusion-xl-1024-v1-0" = inr api →
  dict_get (generate_image.selected_aspect_ratio cfg) generate_image.aspect_ratios = None →
  generate_image.script cfg (generate_image.fresh env)
  = (inl (generate_image.KeyError (generate_image.selected_aspect_ratio cfg)),
     connected env api).
Proof.
  intros Henv Hkey Hnew Hsel. unfold generate_image.script, generate_image.connect.
  rewrite Hsel. unfold_M. simpl. rewrite lookup_insert_ne by done. rewrite Henv. simpl.
  rewrite Hkey. simpl. by rewrite Hnew.
Qed.

(** The four ways a run of the script can go. *)
Lemma script_outcomes (env : gmap string string) (cfg : generate_image.settings) :
  truthy_opt (env !! "STABILITY_KEY") = false
  ∨ (∃ key e, env !! "STABILITY_KEY" = Some key ∧ truthy key = true
       ∧ StabilityInference_new key true "stable-diffusion-xl-1024-v1-0" = inl e)
  ∨ (∃ key api, env !! "STABILITY_KEY" = Some key ∧ truthy key = true
       ∧ StabilityInference_new key true "stable-diffusion-xl-1024-v1-0" = inr api
       ∧ dict_get (generate_image.selected_aspect_ratio cfg)
           generate_image.aspect_ratios = None)
  ∨ (∃ key api w h, env !! "STABILITY_KEY" = Some key ∧ truthy key = true
       ∧ StabilityInference_new key true "stable-diffusion-xl-1024-v1-0" = inr api
       ∧ dict_get (generate_image.selected_aspect_ratio cfg)
           generate_image.aspect_ratios = Some (w, h)).
Proof.
  destruct (env !! "STABILITY_KEY") as [key|] eqn:Henv; [|by left].
  destruct (truthy key) eqn:Hkey; [|by left].
  destruct (StabilityInference_new key true "stable-diffusion-xl-1024-v1-0")
    as [e|api] eqn:Hnew.
  { right; left. by exists key, e. }
  destruct (dict_get (generate_image.selected_aspect_ratio cfg)
              generate_image.aspect_ratios) as [[w h]|] eqn:Hsel.
  - right; right; right. by exists key, api, w, h.
  - right; right; left. by exists key, api.
Qed.

Lemma provider_calls_script (env : gmap string string) (cfg : generate_image.settings) :
  provider_calls (output (generate_image.script cfg (generate_image.fresh env)).2) = []
  ∨ ∃ w h,
      dict_get (generate_image.selected_aspect_ratio cfg) generate_image.aspect_ratios
        = Some (w, h)
      ∧ provider_calls (output (generate_image.script cfg (generate_image.fresh env)).2)
        = [generate_image.generate_call (generate_image.prompt_text cfg)
             (generate_image.negative_prompt_text cfg) w h].
Proof.
  destruct (script_outcomes env cfg)
    as [Hkey|[(key & e & Henv & Hkey & Hnew)|[(key & api & Henv & Hkey & Hnew & Hsel)
       |(key & api & w & h & Henv & Hkey & Hnew & Hsel)]]].
  - left. by rewrite script_without_credential.
  - left. by rewrite (script_constructor_raises env cfg key e).
  - left. by rewrite (script_unknown_ratio env cfg key api).
  - right. exists w, h. split; [done|]. by apply script_calls with key api.
Qed.

Lemma files_written_script (env : gmap string string) (cfg : generate_image.settings) :
  files_written (output (generate_image.script cfg (generate_image.fresh env)).2) = []
  ∨ ∃ img,
      files_written (output (generate_image.script cfg (generate_image.fresh env)).2)
      = [(img, generate_image.output_filename)].
Proof.
  destruct (script_outcomes env cfg)
    as [Hkey|[(key & e & Henv & Hkey & Hnew)|[(key & api & Henv & Hkey & Hnew & Hsel)
       |(key & api & w & h & Henv & Hkey & Hnew & Hsel)]]].
  - left. by rewrite script_without_credential.
  - left. by rewrite (script_constructor_raises env cfg key e).
  - left. by rewrite (script_unknown_ratio env cfg key api).
  - rewrite (script_spec env cfg key api w h Henv Hkey Hnew Hsel). cbv zeta.
    destruct (generate api _) as [e|ans].
    { left. cbn [snd]. unfold log, connected. cbn [output].
      by rewrite !files_written_app, files_written_script_announce. }
    pose proof (files_written_interpret script_on_filter generate_image.output_filename
                  (scan ans) eq_refl) as Hi.
    destruct (interpret _ _ _) as [[e|o] evs]; cbn [snd] in *; unfold log, connected;
      cbn [output];
      rewrite !files_written_app, ?files_written_script_epilogue,
        files_written_script_announce, ?app_nil_r; exact Hi.
Qed.

Lemma files_written_endpoint (p n k u : string) (s : State) :
  files_written (since s (run (main.generate_image_endpoint p n k u) s).2) = []
  ∨ ∃ img, files_written (since s (run (main.generate_image_endpoint p n k u) s).2)
           = [(img, service_filename u)].
Proof.
  destruct (stability_api s) as [api|] eqn:Hapi.
  2: { left. by rewrite (main_endpoint_not_initialized p n k u s Hapi), since_refl. }
  destruct (dict_get k main.ASPECT_RATIOS) as [[w h]|] eqn:Hk.
  2: { left. by rewrite (main_endpoint_invalid p n k u s api Hapi Hk), since_refl. }
  rewrite (main_endpoint_spec p n k u s api w h Hapi Hk). cbv zeta.
  destruct (generate api _) as [e|ans].
  { left. cbn [snd]. by rewrite since_log, !files_written_app,
      files_written_service_announce. }
  pose proof (files_written_interpret [Warn main_filter_warning] (service_filename u)
                (scan ans) eq_refl) as Hi.
  destruct (interpret _ _ _) as [[e|o] evs]; cbn [snd] in *;
    rewrite since_log, !files_written_app, files_written_service_announce, ?app_nil_r;
    exact Hi.
Qed.

End ScriptExits.

(** * Further properties of requests and responses *)

Section RequestsAndResponses.
Context `{pb2 : generation_pb2} `{pil : PIL} `{sdk : stability_sdk}.

Lemma main_generate_call_fixed (p n : string) (w h : Z) :
  fixed_parameters (main.generate_call p n w h).
Proof. by repeat split. Qed.

Lemma script_generate_call_fixed (p n : string) (w h : Z) :
  fixed_parameters (generate_image.generate_call p n w h).
Proof. by repeat split. Qed.

(** X5.  Every call of the provider that either program makes, in any run,
    asks for 50 steps, guidance scale 7.0, one sample and the sampler
    [SAMPLER_K_DPMPP_2M], and its width and height are the pair that the
    program's own table holds for the requested key. *)
Theorem X5_generation_parameters_are_fixed :
  (∀ (p n k u : string) (s : State) (kw : generate_kwargs),
     kw ∈ provider_calls (since s (run (main.generate_image_endpoint p n k u) s).2) →
     fixed_parameters kw
     ∧ dict_get k main.ASPECT_RATIOS = Some (width kw, height kw))
  ∧
  (∀ (env : gmap string string) (cfg : generate_image.settings) (kw : generate_kwargs),
     kw ∈ provider_calls
            (output (generate_image.script cfg (generate_image.fresh env)).2) →
     fixed_parameters kw
     ∧ dict_get (generate_image.selected_aspect_ratio cfg) generate_image.aspect_ratios
       = Some (width kw, height kw)).
Proof.
  split.
  - intros p n k u s kw. rewrite provider_calls_endpoint.
    destruct (stability_api s); [|by intros ?%elem_of_nil].
    destruct (dict_get k main.ASPECT_RATIOS) as [[w h]|] eqn:Hk;
      [|by intros ?%elem_of_nil].
    intros ->%list_elem_of_singleton. split; [apply main_generate_call_fixed|done].
  - intros env cfg kw.
    destruct (provider_calls_script env cfg) as [-> | (w & h & Hsel & ->)];
      [by intros ?%elem_of_nil|].
    intros ->%list_elem_of_singleton. split; [apply script_generate_call_fixed|done].
Qed.

(** X6.  In any run, each program asks the codec to write at most one file,
    and only under its target name: the name derived from the request's
    identifier in the service, [castle_widescreen.png] in the script. *)
Theorem X6_at_most_one_file_under_the_target_name :
  (∀ (p n k u : string) (s : State),
     files_written (since s (run (main.generate_image_endpoint p n k u) s).2) = []
     ∨ ∃ img, files_written (since s (run (main.generate_image_endpoint p n k u) s).2)
              = [(img, "generated_image_" +:+ u +:+ ".png")])
  ∧
  (∀ (env : gmap string string) (cfg : generate_image.settings),
     files_written (output (generate_image.script cfg (generate_image.fresh env)).2) = []
     ∨ ∃ img,
         files_written (output (generate_image.script cfg (generate_image.fresh env)).2)
         = [(img, "castle_widescreen.png")]).
Proof. split; [apply files_written_endpoint|apply files_written_script]. Qed.

Lemma string_length_app (s t : string) :
  String.length (s +:+ t) = (String.length s + String.length t)%nat.
Proof.
  induction s as [|c s IH]; [done|].
  change (String c s +:+ t) with (String c (s +:+ t)). simpl. by rewrite IH.
Qed.

Lemma string_app_inv_tail (s1 s2 t : string) : s1 +:+ t = s2 +:+ t → s1 = s2.
Proof.
  revert s2. induction s1 as [|c s1 IH]; intros [|d s2] Heq.
  - done.
  - apply (f_equal String.length) in Heq. rewrite !string_length_app in Heq.
    simpl in Heq. lia.
  - apply (f_equal String.length) in Heq. rewrite !string_length_app in Heq.
    simpl in Heq. lia.
  - change (String c (s1 +:+ t) = String d (s2 +:+ t)) in Heq.
    injection Heq as -> Heq. f_equal. by apply IH.
Qed.

Lemma service_filename_inj (u1 u2 : string) :
  service_filename u1 = service_filename u2 → u1 = u2.
Proof.
  unfold service_filename. intros Heq%(inj (String.app _)).
  by apply string_app_inv_tail in Heq.
Qed.

(** X7.  Requests with different identifiers get different file names, so
    whatever two such requests ask the codec to write goes to two different
    files. *)
Theorem X7_distinct_identifiers_give_distinct_files (u1 u2 : string) :
  u1 ≠ u2 →
  service_filename u1 ≠ service_filename u2
  ∧ ∀ (p1 n1 k1 p2 n2 k2 : string) (s1 s2 : State) (f1 f2 : string),
      f1 ∈ (files_written
              (since s1 (run (main.generate_image_endpoint p1 n1 k1 u1) s1).2)).*2 →
      f2 ∈ (files_written
              (since s2 (run (main.generate_image_endpoint p2 n2 k2 u2) s2).2)).*2 →
      f1 ≠ f2.
Proof.
  intros Hne.
  assert (service_filename u1 ≠ service_filename u2) as Hnames
    by (by intros ?%service_filename_inj).
  split; [done|]. intros p1 n1 k1 p2 n2 k2 s1 s2 f1 f2.
  destruct (files_written_endpoint p1 n1 k1 u1 s1) as [-> | [img1 ->]];
    [by intros ?%elem_of_nil|].
  destruct (files_written_endpoint p2 n2 k2 u2 s2) as [-> | [img2 ->]];
    [by intros _ ?%elem_of_nil|].
  by intros ->%list_elem_of_singleton ->%list_elem_of_singleton.
Qed.

(** X8.  The endpoint reports success (a response with a [message] key)
    exactly when it asked the codec to write one file under the target name
    and that call did not raise; the response then is the Saved object with
    the request's own prompt, negative prompt and key and that file name. *)
Theorem X8_success_is_reported_exactly_after_a_save (p n k u : string) (s : State) :
  let r := run (main.generate_image_endpoint p n k u) s in
  (dict_in "message" r.1 = true
   ↔ ∃ img, files_written (since s r.2) = [(img, service_filename u)]
            ∧ Image_save img (service_filename u) = None)
  ∧ (dict_in "message" r.1 = true → r.1 = Saved_response (service_filename u) p n k).
Proof.
  cbv zeta.
  destruct (stability_api s) as [api|] eqn:Hapi.
  2: { rewrite (main_endpoint_not_initialized p n k u s Hapi), since_refl.
       split; [split; [done|by intros (? & ? & _)]|done]. }
  destruct (dict_get k main.ASPECT_RATIOS) as [[w h]|] eqn:Hk.
  2: { rewrite (main_endpoint_invalid p n k u s api Hapi Hk), since_refl.
       split; [split; [done|by intros (? & ? & _)]|done]. }
  rewrite (main_endpoint_spec p n k u s api w h Hapi Hk). cbv zeta.
  destruct (generate api _) as [e|ans].
  { cbn [fst snd]. rewrite since_log, !files_written_app, files_written_service_announce.
    split; [split; [done|by intros (? & ? & _)]|done]. }
  destruct (interpret_cases [Warn main_filter_warning] (service_filename u) (scan ans))
    as [H|[(e & _ & H)|[(a & _ & _ & H)|[(a & e & _ & _ & _ & H)
       |[(a & img & e & _ & _ & _ & Hs & H)|(a & img & _ & _ & _ & Hs & H)]]]]];
    rewrite H; cbn [fst snd];
    rewrite since_log, !files_written_app, files_written_service_announce;
    cbn.
  1-4: split; [split; [done|by intros (? & ? & _)]|done].
  - split; [split; [done|]|done]. intros (img' & [= <-] & Hs'). congruence.
  - split; [split; [by exists img|done]|done].
Qed.

(** X9.  Every response of the endpoint has exactly one of the keys [error]
    and [message], and it has the key [filename] exactly when it has
    [message]: a caller can tell failure from success by the keys alone. *)
Theorem X9_error_and_message_exclude_each_other (p n k u : string) (s : State) :
  let resp := (run (main.generate_image_endpoint p n k u) s).1 in
  dict_in "error" resp = negb (dict_in "message" resp)
  ∧ dict_in "filename" resp = dict_in "message" resp.
Proof.
  cbv zeta. by destruct (main_endpoint_well_formed p n k u s).
Qed.

(** X10.  A request that gives only a prompt is handled with an empty negative
    prompt and the key [1:1_square], which is in the table: with the handle
    set it is never refused for its aspect ratio, and the provider is asked
    once for a 1024 by 1024 image of the bare prompt. *)
Theorem X10_defaults_ask_for_a_square_image (p u : string) (s : State) api :
  stability_api s = Some api →
  provider_calls (since s (run (main.post_generate_image p None None u) s).2)
  = [ {| prompt := Bare p; steps := 50; cfg_scale := 7; width := 1024;
         height := 1024; samples := 1; sampler := SAMPLER_K_DPMPP_2M |} ]
  ∧ ∀ keys, (run (main.post_generate_image p None None u) s).1
            ≠ InvalidAspectRatio_response keys.
Proof.
  intros Hapi. unfold main.post_generate_image. cbn [default]. split.
  - rewrite provider_calls_endpoint, Hapi. reflexivity.
  - intros keys.
    rewrite (main_endpoint_spec p "" "1:1_square" u s api 1024 1024 Hapi eq_refl).
    cbv zeta. destruct (generate api _) as [e|ans]; [discriminate|].
    destruct (interpret _ _ _) as [[e|[| |]] evs]; discriminate.
Qed.

End RequestsAndResponses.

Section RequestsAndResponsesExample.
Import Sample.

Lemma X5_generation_parameters_are_fixed_witness :
  dict_get "9:16_tall" main.ASPECT_RATIOS = Some (768, 1344).
Proof.
  destruct (X5_generation_parameters_are_fixed (pb2 := pb2) (pil := pil) (sdk := sdk))
    as [Hservice _].
  destruct (Hservice "a cat" "" "9:16_tall" "u1" (serving (inr image_stream))
              (main.generate_call "a cat" "" 768 1344)) as [_ Hdim].
  - vm_compute. apply list_elem_of_here.
  - exact Hdim.
Defined.

Lemma X7_distinct_identifiers_give_distinct_files_witness :
  service_filename "u1" ≠ service_filename "u2".
Proof.
  destruct (X7_distinct_identifiers_give_distinct_files "u1" "u2" ltac:(discriminate))
    as [Hnames _].
  exact Hnames.
Defined.

Lemma X8_success_is_reported_exactly_after_a_save_witness :
  ∃ img,
    files_written
      (since (serving (inr image_stream))
         (run (main.generate_image_endpoint "a cat" "" "1:1_square" "u1")
            (serving (inr image_stream))).2)
    = [(img, service_filename "u1")]
    ∧ Image_save img (service_filename "u1") = None.
Proof.
  destruct (X8_success_is_reported_exactly_after_a_save (pb2 := pb2) (pil := pil)
              (sdk := sdk) "a cat" "" "1:1_square" "u1" (serving (inr image_stream)))
    as [[Hsaved _] _].
  apply Hsaved. reflexivity.
Defined.

Lemma X10_defaults_ask_for_a_square_image_witness :
  provider_calls
    (since (serving (inr text_stream))
       (run (main.post_generate_image "a cat" None None "u1")
          (serving (inr text_stream))).2)
  = [ {| prompt := Bare "a cat"; steps := 50; cfg_scale := 7; width := 1024;
         height := 1024; samples := 1; sampler := 9 |} ].
Proof.
  destruct (X10_defaults_ask_for_a_square_image (pb2 := pb2) (pil := pil) (sdk := sdk)
              "a cat" "u1" (serving (inr text_stream)) (inr text_stream) eq_refl)
    as [Hcalls _].
  exact Hcalls.
Defined.

End RequestsAndResponsesExample.

(** * Further properties of the two loops *)

Section Loops.
Context `{pb2 : generation_pb2} `{pil : PIL} `{sdk : stability_sdk}.

Lemma script_class_final (ans : answers) (o : outcome) :
  script_class (script_final ans o) = o.
Proof. by destruct o. Qed.

Lemma main_class_at (o : outcome) : main_class (main_locals_at o) = o.
Proof. by destruct o. Qed.

Lemma first_decisive_append (l1 l2 : list Artifact) :
  first_decisive (l1 ++ l2)
  = match first_decisive l1 with
    | Some a => Some a
    | None => first_decisive l2
    end.
Proof.
  induction l1 as [|x l1 IH]; [done|].
  change (first_decisive ((x :: l1) ++ l2))
    with (if negb (inert x) then Some x else first_decisive (l1 ++ l2)).
  change (first_decisive (x :: l1))
    with (if negb (inert x) then Some x else first_decisive l1).
  by destruct (negb (inert x)).
Qed.

Lemma scan_skips_inert_front (pre arts : list Artifact) (rest : answers) :
  forallb inert pre = true →
  scan (Yield {| artifacts := pre ++ arts |} rest)
  = scan (Yield {| artifacts := arts |} rest).
Proof.
  intros Hp. simpl. by rewrite first_decisive_append, first_decisive_inert.
Qed.

(** X11.  Artifacts that are neither filter signals nor images are skipped:
    chunks that hold only such artifacts (or none) in front of a stream, and
    such artifacts in front of a chunk, change nothing in what the service's
    loops return and do; in the script they change nothing in the events and
    in the classification (only the diagnostic text can differ). *)
Theorem X11_inert_artifacts_are_skipped
    (chunks : list Answer) (pre arts : list Artifact) (rest : answers)
    (fn : string) (s : State) :
  forallb inert_chunk chunks = true →
  forallb inert pre = true →
  main.for_resp fn (prepend chunks rest) main_locals0 s
  = main.for_resp fn rest main_locals0 s
  ∧ main.for_resp fn (Yield {| artifacts := pre ++ arts |} rest) main_locals0 s
    = main.for_resp fn (Yield {| artifacts := arts |} rest) main_locals0 s
  ∧ (generate_image.for_resp (prepend chunks rest) script_locals0 s).2
    = (generate_image.for_resp rest script_locals0 s).2
  ∧ sum_map id script_class
      (generate_image.for_resp (prepend chunks rest) script_locals0 s).1
    = sum_map id script_class (generate_image.for_resp rest script_locals0 s).1
  ∧ (generate_image.for_resp (Yield {| artifacts := pre ++ arts |} rest)
       script_locals0 s).2
    = (generate_image.for_resp (Yield {| artifacts := arts |} rest) script_locals0 s).2
  ∧ sum_map id script_class
      (generate_image.for_resp (Yield {| artifacts := pre ++ arts |} rest)
         script_locals0 s).1
    = sum_map id script_class
        (generate_image.for_resp (Yield {| artifacts := arts |} rest)
           script_locals0 s).1.
Proof.
  intros Hc Hp. split; [by apply main_for_resp_inert|]. split.
  { rewrite !main_for_resp_yield. cbn [artifacts].
    by rewrite main_for_artifact_inert. }
  assert (∀ ans1 ans2, scan ans1 = scan ans2 →
            (generate_image.for_resp ans1 script_locals0 s).2
            = (generate_image.for_resp ans2 script_locals0 s).2
            ∧ sum_map id script_class (generate_image.for_resp ans1 script_locals0 s).1
              = sum_map id script_class
                  (generate_image.for_resp ans2 script_locals0 s).1) as Hscan.
  { intros ans1 ans2 Heq. rewrite !script_loops_interpret, Heq.
    destruct (interpret _ _ _) as [[e|o] evs]; [done|]. cbn.
    by rewrite !script_class_final. }
  destruct (Hscan (prepend chunks rest) rest (scan_prepend chunks rest Hc)) as [H1 H2].
  destruct (Hscan (Yield {| artifacts := pre ++ arts |} rest)
              (Yield {| artifacts := arts |} rest)
              (scan_skips_inert_front pre arts rest Hp)) as [H3 H4].
  done.
Qed.

(** X12.  The two copies of the loops classify alike: on the same stream, when
    saving an image raises or not regardless of which of the two file names
    is used, the service's loops and the script's loops end with the same
    classification or raise the same exception. *)
Theorem X12_both_programs_classify_alike
    (ans : answers) (fn : string) (s1 s2 : State) :
  (∀ img, Image_save img fn = Image_save img generate_image.output_filename) →
  sum_map id main_class (main.for_resp fn ans main_locals0 s1).1
  = sum_map id script_class (generate_image.for_resp ans script_locals0 s2).1.
Proof.
  intros Hsave. rewrite main_loops_interpret, script_loops_interpret.
  destruct (scan ans) as [a| |e]; [|done..]. unfold interpret.
  destruct (is_filter a); [done|].
  destruct (Image_open (binary a)) as [e|img]; [done|]. rewrite Hsave.
  by destruct (Image_save img generate_image.output_filename).
Qed.

(** X13.  Neither program ever ends its loops with both flags set: an image
    saved and a filter signal recorded exclude each other, for every
    stream. *)
Theorem X13_saved_and_filtered_exclude_each_other
    (ans : answers) (fn : string) (s : State) :
  (∀ l s', main.for_resp fn ans main_locals0 s = (inr l, s') →
     main.image_saved_successfully l && main.safety_filter_triggered l = false)
  ∧ (∀ l s', generate_image.for_resp ans script_locals0 s = (inr l, s') →
       generate_image.image_saved l && generate_image.safety_filter_activated l = false).
Proof.
  split; intros l s'.
  - rewrite main_loops_interpret.
    destruct (interpret _ _ _) as [[e|o] evs]; [done|]. intros [= <- _]. by destruct o.
  - rewrite script_loops_interpret.
    destruct (interpret _ _ _) as [[e|o] evs]; [done|]. intros [= <- _]. by destruct o.
Qed.

End Loops.

Section LoopsExample.
Import Sample.

Lemma X11_inert_artifacts_are_skipped_witness :
  main.for_resp "out.png"
    (Yield {| artifacts := [] |}
       (Yield {| artifacts := [text_artifact] |} image_stream))
    main_locals0 (serving (inr StopIteration))
  = main.for_resp "out.png" image_stream main_locals0 (serving (inr StopIteration))
  ∧ (generate_image.for_resp
       (Yield {| artifacts := [text_artifact; image_artifact] |} image_stream)
       script_locals0 (serving (inr StopIteration))).2
    = (generate_image.for_resp
         (Yield {| artifacts := [image_artifact] |} image_stream)
         script_locals0 (serving (inr StopIteration))).2.
Proof.
  destruct (X11_inert_artifacts_are_skipped (pb2 := pb2) (pil := pil) (sdk := sdk)
              [ {| artifacts := [] |}; {| artifacts := [text_artifact] |} ]
              [text_artifact] [image_artifact] image_stream "out.png"
              (serving (inr StopIteration)) eq_refl eq_refl)
    as (Hservice & _ & _ & _ & Hscript & _).
  split; [exact Hservice|exact Hscript].
Defined.

Lemma X12_both_programs_classify_alike_witness :
  sum_map id main_class
    (main.for_resp "generated_image_u1.png" filtered_stream main_locals0
       (serving (inr StopIteration))).1
  = sum_map id script_class
      (generate_image.for_resp filtered_stream script_locals0
         (serving (inr StopIteration))).1.
Proof.
  exact (X12_both_programs_classify_alike (pb2 := pb2) (pil := pil) (sdk := sdk)
           filtered_stream "generated_image_u1.png" (serving (inr StopIteration))
           (serving (inr StopIteration)) (λ img, eq_refl)).
Defined.

Lemma X13_saved_and_filtered_exclude_each_other_witness :
  main.image_saved_successfully (main_locals_at Saved)
  && main.safety_filter_triggered (main_locals_at Saved) = false.
Proof.
  destruct (X13_saved_and_filtered_exclude_each_other (pb2 := pb2) (pil := pil)
              (sdk := sdk) image_stream "out.png" (serving (inr StopIteration)))
    as [Hservice _].
  exact (Hservice (main_locals_at Saved) _ eq_refl).
Defined.

End LoopsExample.

(** * Further properties of the script's runs *)


Section ScriptRuns.
Context `{pb2 : generation_pb2} `{pil : PIL} `{sdk : stability_sdk}.

(** X14.  Started without [STABILITY_KEY], or with an empty one, the script
    prints that the variable is not set or empty and exits: no client is
    built, the provider is not called and no settings are looked at. *)
Theorem X14_script_exits_without_credential
    (env : gmap string string) (cfg : generate_image.settings) :
  env !! "STABILITY_KEY" = None ∨ env !! "STABILITY_KEY" = Some "" →
  generate_image.script cfg (generate_image.fresh env)
  = (inl generate_image.SystemExit,
     {| environ := <["STABILITY_HOST" := "grpc.stability.ai:443"]> env;
        stability_api := None;
        output :=
          [Print "Error connecting to Stability AI: STABILITY_KEY environment variable not set or empty."] |}).
Proof.
  intros Henv. apply script_without_credential. by destruct Henv as [-> | ->].
Qed.

(** X15.  When the constructor of the client raises [e], the script prints
    the connection error with the text of [e] and exits, again without any
    provider call. *)
Theorem X15_script_exits_when_the_client_cannot_be_built
    (env : gmap string string) (cfg : generate_image.settings) (key : string)
    (e : Exception) :
  env !! "STABILITY_KEY" = Some key → truthy key = true →
  StabilityInference_new key true "stable-diffusion-xl-1024-v1-0" = inl e →
  (generate_image.script cfg (generate_image.fresh env)).1 = inl generate_image.SystemExit
  ∧ output (generate_image.script cfg (generate_image.fresh env)).2
    = [Print ("Error connecting to Stability AI: " +:+ e)]
  ∧ stability_api (generate_image.script cfg (generate_image.fresh env)).2 = None.
Proof.
  intros Henv Hkey Hnew. by rewrite (script_constructor_raises env cfg key e).
Qed.

(** X16.  With a client built, a selected aspect ratio that is not a key of
    the script's table ends the script with the [KeyError] of that key, right
    after the line that reports the connection: nothing is announced and the
    provider is not called. *)
Theorem X16_script_stops_at_an_unknown_aspect_ratio
    (env : gmap string string) (cfg : generate_image.settings) (key : string) api :
  env !! "STABILITY_KEY" = Some key → truthy key = true →
  StabilityInference_new key true "stable-diffusion-xl-1024-v1-0" = inr api →
  dict_get (generate_image.selected_aspect_ratio cfg) generate_image.aspect_ratios = None →
  (generate_image.script cfg (generate_image.fresh env)).1
  = inl (generate_image.KeyError (generate_image.selected_aspect_ratio cfg))
  ∧ output (generate_image.script cfg (generate_image.fresh env)).2
    = [Print "Successfully connected to Stability AI API."].
Proof.
  intros Henv Hkey Hnew Hsel. by rewrite (script_unknown_ratio env cfg key api).
Qed.

(** X17.  The script catches nothing after it has connected.  An exception
    raised by the call of the provider, by the stream before an artifact
    decides, by the decoding of the first image or by the writing of the
    file ends the script with that exception; the events end where it was
    raised, so neither the line about a missing image nor the closing line is
    printed. *)
Theorem X17_script_does_not_catch_provider_or_codec_exceptions
    (env : gmap string string) (cfg : generate_image.settings) (key : string) api
    (w h : Z) (e : Exception) :
  env !! "STABILITY_KEY" = Some key → truthy key = true →
  StabilityInference_new key true "stable-diffusion-xl-1024-v1-0" = inr api →
  dict_get (generate_image.selected_aspect_ratio cfg) generate_image.aspect_ratios
    = Some (w, h) →
  let kw := generate_image.generate_call (generate_image.prompt_text cfg)
              (generate_image.negative_prompt_text cfg) w h in
  let before := script_announce cfg w h ++ [Generate kw] in
  (generate api kw = inl e →
   generate_image.script cfg (generate_image.fresh env)
   = (inl (generate_image.Uncaught e), log (connected env api) before))
  ∧ (∀ ans, generate api kw = inr ans → scan ans = Raised e →
       generate_image.script cfg (generate_image.fresh env)
       = (inl (generate_image.Uncaught e), log (connected env api) before))
  ∧ (∀ ans a, generate api kw = inr ans → scan ans = Decisive a →
       is_filter a = false → Image_open (binary a) = inl e →
       generate_image.script cfg (generate_image.fresh env)
       = (inl (generate_image.Uncaught e),
          log (connected env api) (before ++ [Open (binary a)])))
  ∧ (∀ ans a img, generate api kw = inr ans → scan ans = Decisive a →
       is_filter a = false → Image_open (binary a) = inr img →
       Image_save img "castle_widescreen.png" = Some e →
       generate_image.script cfg (generate_image.fresh env)
       = (inl (generate_image.Uncaught e),
          log (connected env api)
            (before ++ [Open (binary a); Save img "castle_widescreen.png"]))).
Proof.
  intros Henv Hkey Hnew Hsel kw before.
  pose proof (script_spec env cfg key api w h Henv Hkey Hnew Hsel) as Hspec.
  cbv zeta in Hspec. fold kw in Hspec. fold before in Hspec.
  split; [|split; [|split]].
  - intros Hg. by rewrite Hspec, Hg.
  - intros ans Hg Hscan. rewrite Hspec, Hg, Hscan. cbn. by rewrite app_nil_r.
  - intros ans a Hg Hscan Hf Ho. rewrite Hspec, Hg, Hscan. unfold interpret.
    by rewrite Hf, Ho.
  - intros ans a img Hg Hscan Hf Ho Hs. rewrite Hspec, Hg, Hscan. unfold interpret.
    change generate_image.output_filename with "castle_widescreen.png".
    by rewrite Hf, Ho, Hs.
Qed.

Lemma warned_script_announce (cfg : generate_image.settings) (w h : Z) :
  warned (script_announce cfg w h) = [].
Proof. by destruct (quiet_script_announce cfg w h) as (_ & _ & ?). Qed.

Lemma warned_script_epilogue (l : generate_image.locals) :
  warned (script_epilogue l) = [].
Proof. by destruct (quiet_script_epilogue l) as (_ & _ & ?). Qed.

Lemma last_script_epilogue (evs : list Event) (l : generate_image.locals) :
  last (evs ++ script_epilogue l) = Some (Print (newline +:+ "Script finished.")).
Proof. unfold script_epilogue. by rewrite !app_assoc, last_snoc. Qed.

(** X18.  When the script runs to its end, the last line it prints is the
    closing line; it ends with [image_saved] set exactly when the codec was
    asked to write [castle_widescreen.png] once and did not raise, and with
    [safety_filter_activated] set exactly when the filter warning was
    issued; the two flags are never both set. *)
Theorem X18_script_result_matches_its_effects
    (env : gmap string string) (cfg : generate_image.settings)
    (l : generate_image.locals) (s' : State) :
  generate_image.script cfg (generate_image.fresh env) = (inr l, s') →
  last (output s') = Some (Print (newline +:+ "Script finished."))
  ∧ (generate_image.image_saved l = true
     ↔ ∃ img, files_written (output s') = [(img, "castle_widescreen.png")]
              ∧ Image_save img "castle_widescreen.png" = None)
  ∧ (generate_image.safety_filter_activated l = true
     ↔ warned (output s') = [script_filter_warning])
  ∧ generate_image.image_saved l && generate_image.safety_filter_activated l = false.
Proof.
  intros Heq.
  assert ((generate_image.script cfg (generate_image.fresh env)).1 = inr l) as Hl
    by (by rewrite Heq).
  assert (s' = (generate_image.script cfg (generate_image.fresh env)).2) as ->
    by (by rewrite Heq).
  clear Heq.
  destruct (script_outcomes env cfg)
    as [Hkey|[(key & e & Henv & Hkey & Hnew)|[(key & api & Henv & Hkey & Hnew & Hsel)
       |(key & api & w & h & Henv & Hkey & Hnew & Hsel)]]].
  { by rewrite script_without_credential in Hl. }
  { by rewrite (script_constructor_raises env cfg key e) in Hl. }
  { by rewrite (script_unknown_ratio env cfg key api) in Hl. }
  rewrite (script_spec env cfg key api w h Henv Hkey Hnew Hsel) in Hl |- *.
  cbv zeta in *.
  set (before := script_announce cfg w h ++ [Generate _]) in *.
  assert (files_written before = [] ∧ warned before = []) as [Hfb Hwb].
  { unfold before.
    by rewrite files_written_app, warned_app, files_written_script_announce,
      warned_script_announce. }
  clearbody before.
  destruct (generate api _) as [e|ans]; [done|].
  destruct (interpret_cases script_on_filter generate_image.output_filename (scan ans))
    as [H|[(e & _ & H)|[(a & _ & _ & H)|[(a & e & _ & _ & _ & H)
       |[(a & img & e & _ & _ & _ & _ & H)|(a & img & _ & _ & _ & Hs & H)]]]]];
    rewrite H in Hl |- *; cbn [fst snd] in *; try done; injection Hl as <-;
    unfold log, connected; cbn [output];
    (split; [by rewrite !app_assoc, last_script_epilogue|]);
    rewrite !files_written_app, !warned_app, Hfb, Hwb, files_written_script_epilogue,
      warned_script_epilogue;
    cbn.
  - split; [split; [done|by intros (? & ? & _)]|]. by split.
  - split; [split; [done|by intros (? & ? & _)]|]. by split.
  - split; [split; [by intros _; exists img|done]|]. by split.
Qed.

Lemma main_startup_keeps_environment (s : State) :
  environ (run main.startup_event s).2 = environ s.
Proof.
  unfold main.startup_event. unfold_M. simpl.
  destruct (truthy_opt (environ s !! "STABILITY_KEY")); simpl; [|done].
  by destruct (StabilityInference_new _ _ _).
Qed.

(** X19.  The only environment variable either program ever writes is
    [STABILITY_HOST], set to the fixed endpoint: after any run of the script,
    and after the service started and handled any sequence of requests, the
    environment is the one the process was started with, with that one
    variable set; in particular the credential variable is what it was. *)
Theorem X19_only_the_host_variable_is_written (env : gmap string string) :
  (∀ cfg : generate_image.settings,
     environ (generate_image.script cfg (generate_image.fresh env)).2
     = <["STABILITY_HOST" := "grpc.stability.ai:443"]> env)
  ∧ (∀ reqs : list request,
       environ (serve reqs (run main.startup_event (main.import_module env)).2).2
       = <["STABILITY_HOST" := "grpc.stability.ai:443"]> env)
  ∧ (<["STABILITY_HOST" := "grpc.stability.ai:443"]> env) !! "STABILITY_KEY"
    = env !! "STABILITY_KEY".
Proof.
  split; [|split; [|by rewrite lookup_insert_ne]].
  - intros cfg.
    destruct (script_outcomes env cfg)
      as [Hkey|[(key & e & Henv & Hkey & Hnew)|[(key & api & Henv & Hkey & Hnew & Hsel)
         |(key & api & w & h & Henv & Hkey & Hnew & Hsel)]]].
    { by rewrite script_without_credential. }
    { by rewrite (script_constructor_raises env cfg key e). }
    { by rewrite (script_unknown_ratio env cfg key api). }
    rewrite (script_spec env cfg key api w h Henv Hkey Hnew Hsel). cbv zeta.
    destruct (generate api _) as [e|ans]; [done|].
    by destruct (interpret _ _ _) as [[e|o] evs].
  - intros reqs.
    destruct (serve_appends reqs (run main.startup_event (main.import_module env)).2)
      as (evs & -> & _).
    unfold log. cbn [environ]. by rewrite main_startup_keeps_environment.
Qed.

End ScriptRuns.

Section ScriptRunsExample.
Import Sample.

Lemma X14_script_exits_without_credential_witness :
  (generate_image.script generate_image.the_settings (generate_image.fresh ∅)).1
  = inl generate_image.SystemExit.
Proof.
  rewrite (X14_script_exits_without_credential (pb2 := pb2) (pil := pil) (sdk := sdk)
             ∅ generate_image.the_settings ltac:(left; reflexivity)).
  reflexivity.
Defined.

Lemma X15_script_exits_when_the_client_cannot_be_built_witness :
  output (generate_image.script generate_image.the_settings
            (generate_image.fresh (with_key "expired"))).2
  = [Print "Error connecting to Stability AI: UNAUTHENTICATED"].
Proof.
  destruct (X15_script_exits_when_the_client_cannot_be_built (pb2 := pb2) (pil := pil)
              (sdk := sdk) (with_key "expired") generate_image.the_settings "expired"
              "UNAUTHENTICATED" eq_refl eq_refl eq_refl) as (_ & Hout & _).
  exact Hout.
Defined.

Lemma X16_script_stops_at_an_unknown_aspect_ratio_witness :
  (generate_image.script
     {| generate_image.prompt_text := "a cat";
        generate_image.negative_prompt_text := "";
        generate_image.selected_aspect_ratio := "3:2_landscape" |}
     (generate_image.fresh (with_key "sk-image"))).1
  = inl (generate_image.KeyError "3:2_landscape").
Proof.
  destruct (X16_script_stops_at_an_unknown_aspect_ratio (pb2 := pb2) (pil := pil)
              (sdk := sdk) (with_key "sk-image")
              {| generate_image.prompt_text := "a cat";
                 generate_image.negative_prompt_text := "";
                 generate_image.selected_aspect_ratio := "3:2_landscape" |}
              "sk-image" (inr image_stream) eq_refl eq_refl eq_refl eq_refl)
    as [Hend _].
  exact Hend.
Defined.

Lemma X17_script_does_not_catch_provider_or_codec_exceptions_witness :
  (generate_image.script generate_image.the_settings
     (generate_image.fresh (with_key "sk-down"))).1
  = inl (generate_image.Uncaught "UNAVAILABLE").
Proof.
  destruct (X17_script_does_not_catch_provider_or_codec_exceptions (pb2 := pb2)
              (pil := pil) (sdk := sdk) (with_key "sk-down") generate_image.the_settings
              "sk-down" (inl "UNAVAILABLE") 1344 768 "UNAVAILABLE"
              eq_refl eq_refl eq_refl eq_refl) as [Hcall _].
  rewrite (Hcall eq_refl). reflexivity.
Defined.

Lemma X18_script_result_matches_its_effects_witness :
  last (output (generate_image.script generate_image.the_settings
                  (generate_image.fresh (with_key "sk-image"))).2)
  = Some (Print (newline +:+ "Script finished.")).
Proof.
  pose proof (X18_script_result_matches_its_effects (pb2 := pb2) (pil := pil)
                (sdk := sdk) (with_key "sk-image") generate_image.the_settings) as H.
  vm_compute in H. specialize (H _ _ eq_refl). destruct H as [Hlast _].
  vm_compute. exact Hlast.
Defined.

End ScriptRunsExample.

(** * Filter before image *)

Section FilterBeforeImageInStream.
Context `{pb2 : generation_pb2} `{pil : PIL} `{sdk : stability_sdk}.

Lemma first_decisive_split (l : list Artifact) (a : Artifact) :
  first_decisive l = Some a →
  ∃ pre post, l = pre ++ a :: post ∧ forallb inert pre = true ∧ inert a = false.
Proof.
  induction l as [|x l IH]; [done|].
  change (first_decisive (x :: l))
    with (if negb (inert x) then Some x else first_decisive l).
  destruct (inert x) eqn:Hx; simpl negb; cbv iota.
  - intros (pre & post & -> & Hpre & Ha)%IH. exists (x :: pre), post.
    split; [done|]. split; [|done]. simpl. by rewrite Hx.
  - intros [= <-]. by exists [], l.
Qed.

(** The verdict of the scan is the first artifact of the whole stream that is
    not inert. *)
Lemma first_decisive_stream (ans : answers) :
  first_decisive (stream_artifacts ans)
  = match scan ans with
    | Decisive a => Some a
    | Exhausted | Raised _ => None
    end.
Proof.
  induction ans as [|r rest IH|e]; [done| |done].
  simpl. rewrite first_decisive_append.
  by destruct (first_decisive (artifacts r)).
Qed.

Lemma first_decisive_filter (pre post : list Artifact) (a : Artifact) :
  forallb (λ x, is_filter x || negb (is_image x)) pre = true →
  is_filter a = true →
  ∃ d, first_decisive (pre ++ a :: post) = Some d ∧ is_filter d = true.
Proof.
  intros Hpre Ha. induction pre as [|x pre IH].
  - exists a. split; [|done]. unfold first_decisive. simpl.
    by rewrite (is_filter_decisive a Ha).
  - simpl in Hpre. apply andb_prop in Hpre as [Hx Hpre].
    change (first_decisive ((x :: pre) ++ a :: post))
      with (if negb (inert x) then Some x else first_decisive (pre ++ a :: post)).
    destruct (inert x) eqn:Hix; simpl negb; cbv iota; [by apply IH|].
    exists x. split; [done|]. unfold inert in Hix.
    destruct (is_filter x); [done|]. by destruct (is_image x).
Qed.

Lemma scan_filter_observed (ans : answers) :
  filter_signal_observed ans → ∃ d, scan ans = Decisive d ∧ is_filter d = true.
Proof.
  intros (pre & a & post & Hstream & Ha & Hpre).
  destruct (first_decisive_filter pre post a Hpre Ha) as (d & Hd & Hfd).
  rewrite <- Hstream, first_decisive_stream in Hd.
  exists d. split; [|done]. by destruct (scan ans) as [a'| |e]; simplify_eq.
Qed.

Lemma scan_first_unfiltered_image (ans : answers) (a : Artifact) :
  scan ans = Decisive a → is_filter a = false → first_unfiltered_image ans a.
Proof.
  intros Hscan Hf.
  pose proof (first_decisive_stream ans) as Hfirst. rewrite Hscan in Hfirst.
  apply first_decisive_split in Hfirst as (pre & post & Hstream & Hpre & Ha).
  exists pre, post. repeat (split; [done|]).
  unfold inert in Ha. rewrite Hf in Ha. by destruct (is_image a).
Qed.

Lemma first_unfiltered_image_before_filter_signals (ans : answers) (a : Artifact) :
  first_unfiltered_image ans a → before_filter_signals ans a.
Proof.
  intros (pre & post & Hstream & Hpre & Hf & _). exists (length pre).
  rewrite Hstream. split; [apply list_lookup_middle; done|].
  intros j x Hj Hx.
  destruct (decide (j < length pre)%nat) as [Hlt|Hge].
  - rewrite lookup_app_l in Hj by done.
    apply list_elem_of_lookup_2 in Hj.
    rewrite forallb_forall in Hpre.
    apply list_elem_of_In, Hpre in Hj. unfold inert in Hj. by rewrite Hx in Hj.
  - destruct (decide (j = length pre)) as [->|Hne]; [|lia].
    rewrite list_lookup_middle in Hj by done. injection Hj as <-. congruence.
Qed.

Lemma scan_filter_is_observed (ans : answers) (d : Artifact) :
  scan ans = Decisive d → is_filter d = true → filter_signal_observed ans.
Proof.
  intros Hscan Hd.
  pose proof (first_decisive_stream ans) as Hfirst. rewrite Hscan in Hfirst.
  apply first_decisive_split in Hfirst as (pre & post & Hstream & Hpre & _).
  exists pre, d, post. repeat (split; [done|]).
  rewrite forallb_forall in *. intros x Hx. specialize (Hpre x Hx).
  unfold inert in Hpre. destruct (is_filter x); [done|]. by destruct (is_image x).
Qed.

(** The interpreter keeps the discipline, whatever the stream. *)
Lemma interpret_filter_discipline (on_filter : list Event) (fn : string)
    (ans : answers) :
  decoded on_filter = [] → files_written on_filter = [] → warned on_filter ≠ [] →
  filter_discipline ans fn (interpret on_filter fn (scan ans)).2.
Proof.
  intros Hd Hf Hw.
  assert (∀ evs, (∀ d, scan ans = Decisive d → is_filter d = false) →
            warned evs = [] →
            (filter_signal_observed ans →
             decoded evs = [] ∧ files_written evs = [] ∧ warned evs ≠ [])
            ∧ (warned evs ≠ [] → filter_signal_observed ans)) as Hnone.
  { intros evs Hno Hquiet. split; [|by rewrite Hquiet].
    intros (d & Hscan & Hfd)%scan_filter_observed.
    specialize (Hno d Hscan). congruence. }
  destruct (scan ans) as [a| |e] eqn:Hscan.
  2,3: (split; [by intros b ?%elem_of_nil|]; split; [by intros img f ?%elem_of_nil|];
        by apply Hnone).
  unfold interpret. destruct (is_filter a) eqn:Hfa.
  { cbn [snd]. unfold filter_discipline. rewrite Hd, Hf.
    split; [by intros b ?%elem_of_nil|]. split; [by intros img f ?%elem_of_nil|].
    split; [done|]. intros _. by apply (scan_filter_is_observed ans a). }
  pose proof (scan_first_unfiltered_image ans a Hscan Hfa) as Hfirst.
  pose proof (first_unfiltered_image_before_filter_signals ans a Hfirst) as Hplace.
  assert (∀ d, Decisive a = Decisive d → is_filter d = false) as Hno
    by (by intros d [= <-]).
  destruct (Image_open (binary a)) as [e|img] eqn:Ho.
  - split; [|split; [|by apply Hnone]]; cbn.
    + intros b ->%list_elem_of_singleton. by exists a.
    + by intros img f ?%elem_of_nil.
  - destruct (Image_save img fn); (split; [|split; [|by apply Hnone]]); cbn.
    1,3: intros b ->%list_elem_of_singleton; by exists a.
    all: intros img' f [= -> ->]%list_elem_of_singleton; split; [done|]; by exists a.
Qed.

(** Printed lines and the provider call around the events of a run do not
    change its discipline. *)
Lemma filter_discipline_frame (ans : answers) (fn : string)
    (before evs after : list Event) :
  quiet before → quiet after →
  filter_discipline ans fn evs → filter_discipline ans fn (before ++ evs ++ after).
Proof.
  intros (Hd & Hf & Hw) (Hd' & Hf' & Hw'). unfold filter_discipline.
  by rewrite !decoded_app, !files_written_app, !warned_app, Hd, Hf, Hw, Hd', Hf', Hw',
    !app_nil_r.
Qed.

Lemma not_quiet_nil (evs : list Event) :
  quiet evs → decoded evs ≠ [] ∨ files_written evs ≠ [] ∨ warned evs ≠ [] → False.
Proof. intros (Hd & Hf & Hw). rewrite Hd, Hf, Hw. by intros [?|[?|?]]. Qed.

(** C9.  In every run of the endpoint and in every run of the script: the
    codec is touched and the warning issued only if the provider returned a
    stream; and over that stream the run keeps the filter discipline.  A
    payload is decoded only if it belongs to the first artifact of the stream
    that is not inert, and only if that artifact is an image whose
    finish-reason is not the filter tag (so an artifact with the filter
    finish-reason is never decoded, even when its type is the image tag), and
    every filter signal of the stream comes after that artifact; a file is
    written only under the target name, with the image decoded from that
    payload; and once the stream yields a filter artifact that no unfiltered
    image precedes, nothing is decoded, no file is written and the warning
    is issued, as it is for no other stream.  The filter signals are those
    of the provider's stream, not the warnings of the run. *)
Theorem C9_filter_check_precedes_image_check :
  (∀ (p n k u : string) (s : State),
     let evs := since s (run (main.generate_image_endpoint p n k u) s).2 in
     (decoded evs ≠ [] ∨ files_written evs ≠ [] ∨ warned evs ≠ [] →
      ∃ api w h ans,
        stability_api s = Some api ∧ dict_get k main.ASPECT_RATIOS = Some (w, h)
        ∧ generate api (main.generate_call p n w h) = inr ans)
     ∧ (∀ api (w h : Z) (ans : answers),
          stability_api s = Some api →
          dict_get k main.ASPECT_RATIOS = Some (w, h) →
          generate api (main.generate_call p n w h) = inr ans →
          filter_discipline ans (service_filename u) evs))
  ∧
  (∀ (env : gmap string string) (cfg : generate_image.settings),
     let evs := output (generate_image.script cfg (generate_image.fresh env)).2 in
     (decoded evs ≠ [] ∨ files_written evs ≠ [] ∨ warned evs ≠ [] →
      ∃ key api w h ans,
        env !! "STABILITY_KEY" = Some key ∧ truthy key = true
        ∧ StabilityInference_new key true "stable-diffusion-xl-1024-v1-0" = inr api
        ∧ dict_get (generate_image.selected_aspect_ratio cfg)
            generate_image.aspect_ratios = Some (w, h)
        ∧ generate api (generate_image.generate_call (generate_image.prompt_text cfg)
                          (generate_image.negative_prompt_text cfg) w h) = inr ans)
     ∧ (∀ (key : string) api (w h : Z) (ans : answers),
          env !! "STABILITY_KEY" = Some key → truthy key = true →
          StabilityInference_new key true "stable-diffusion-xl-1024-v1-0" = inr api →
          dict_get (generate_image.selected_aspect_ratio cfg)
            generate_image.aspect_ratios = Some (w, h) →
          generate api (generate_image.generate_call (generate_image.prompt_text cfg)
                          (generate_image.negative_prompt_text cfg) w h) = inr ans →
          filter_discipline ans "castle_widescreen.png" evs)).
Proof.
  split.
  - intros p n k u s. cbv zeta. split.
    + destruct (stability_api s) as [api|] eqn:Hapi.
      2: { rewrite (main_endpoint_not_initialized p n k u s Hapi), since_refl.
           intros H. destruct (not_quiet_nil [] quiet_nil H). }
      destruct (dict_get k main.ASPECT_RATIOS) as [[w h]|] eqn:Hk.
      2: { rewrite (main_endpoint_invalid p n k u s api Hapi Hk), since_refl.
           intros H. destruct (not_quiet_nil [] quiet_nil H). }
      destruct (generate api (main.generate_call p n w h)) as [e|ans] eqn:Hg.
      2: { intros _. by exists api, w, h, ans. }
      rewrite (main_endpoint_spec p n k u s api w h Hapi Hk). cbv zeta.
      rewrite Hg. cbn [snd]. rewrite since_log. intros H.
      refine (match not_quiet_nil _ _ H with end).
      apply quiet_app; [|apply quiet_print].
      apply quiet_app; [apply quiet_service_announce|apply quiet_generate].
    + intros api w h ans Hapi Hk Hg.
      rewrite (main_endpoint_spec p n k u s api w h Hapi Hk). cbv zeta. rewrite Hg.
      assert (quiet (service_announce p n k w h u
                     ++ [Generate (main.generate_call p n w h)])) as Hbefore
        by (apply quiet_app; [apply quiet_service_announce|apply quiet_generate]).
      pose proof (interpret_filter_discipline [Warn main_filter_warning]
                    (service_filename u) ans eq_refl eq_refl ltac:(discriminate))
        as Hdisc.
      destruct (interpret _ _ _) as [[e|o] evs]; cbn [snd] in *; rewrite since_log.
      * apply filter_discipline_frame; [done|apply quiet_print|done].
      * rewrite <- (app_nil_r evs).
        apply filter_discipline_frame; [done|apply quiet_nil|done].
  - intros env cfg. cbv zeta. split.
    + destruct (script_outcomes env cfg)
        as [Hkey|[(key & e & Henv & Hkey & Hnew)|[(key & api & Henv & Hkey & Hnew & Hsel)
           |(key & api & w & h & Henv & Hkey & Hnew & Hsel)]]].
      { rewrite script_without_credential by done. cbn [snd output]. intros H.
        refine (match not_quiet_nil _ _ H with end). apply quiet_print. }
      { rewrite (script_constructor_raises env cfg key e) by done. cbn [snd output].
        intros H. refine (match not_quiet_nil _ _ H with end). apply quiet_print. }
      { rewrite (script_unknown_ratio env cfg key api) by done.
        unfold connected. cbn [snd output]. intros H.
        refine (match not_quiet_nil _ _ H with end). apply quiet_print. }
      set (kw := generate_image.generate_call (generate_image.prompt_text cfg)
                   (generate_image.negative_prompt_text cfg) w h).
      destruct (generate api kw) as [e|ans] eqn:Hg.
      2: { intros _. by exists key, api, w, h, ans. }
      rewrite (script_spec env cfg key api w h Henv Hkey Hnew Hsel). cbv zeta.
      fold kw. rewrite Hg. cbn [snd]. unfold log, connected. cbn [output]. intros H.
      refine (match not_quiet_nil _ _ H with end).
      apply quiet_app; [apply quiet_print|].
      apply quiet_app; [apply quiet_script_announce|apply quiet_generate].
    + intros key api w h ans Henv Hkey Hnew Hsel Hg.
      rewrite (script_spec env cfg key api w h Henv Hkey Hnew Hsel). cbv zeta.
      rewrite Hg.
      set (kw := generate_image.generate_call _ _ w h).
      assert (quiet ([Print "Successfully connected to Stability AI API."]
                     ++ script_announce cfg w h ++ [Generate kw])) as Hbefore
        by (apply quiet_app; [apply quiet_print|];
            apply quiet_app; [apply quiet_script_announce|apply quiet_generate]).
      pose proof (interpret_filter_discipline script_on_filter
                    generate_image.output_filename ans eq_refl eq_refl
                    ltac:(discriminate)) as Hdisc.
      change generate_image.output_filename with "castle_widescreen.png" in Hdisc at 1.
      destruct (interpret _ _ _) as [[e|o] evs]; cbn [snd] in *; unfold log, connected;
        cbn [output].
      * rewrite <- (app_nil_r evs), (app_assoc [_]).
        apply filter_discipline_frame; [done|apply quiet_nil|done].
      * rewrite (app_assoc [_]).
        apply filter_discipline_frame; [done|apply quiet_script_epilogue|done].
Qed.

End FilterBeforeImageInStream.

Section FilterBeforeImageExample.
Import Sample.

(** On a stream in which inert artifacts are followed by an artifact that has
    both the image type and the filter finish-reason, and then by a plain
    image: nothing is decoded and no file is written. *)
Lemma C9_filter_check_precedes_image_check_witness :
  let evs :=
    since (serving (inr filtered_stream))
      (run (main.generate_image_endpoint "a cat" "" "1:1_square" "u1")
         (serving (inr filtered_stream))).2 in
  decoded evs = [] ∧ files_written evs = [] ∧ warned evs ≠ [].
Proof.
  destruct (C9_filter_check_precedes_image_check (pb2 := pb2) (pil := pil) (sdk := sdk))
    as [Hservice _].
  destruct (Hservice "a cat" "" "1:1_square" "u1" (serving (inr filtered_stream)))
    as [_ Hdiscipline].
  destruct (Hdiscipline (inr filtered_stream) 1024 1024 filtered_stream
              eq_refl eq_refl eq_refl) as (_ & _ & Hobserved).
  apply Hobserved.
  exists [text_artifact; text_artifact], filtered_artifact, [image_artifact].
  by repeat split.
Defined.

End FilterBeforeImageExample.

(** * The request boundary *)

Section ExceptionBoundary.
Context `{pb2 : generation_pb2} `{pil : PIL} `{sdk : stability_sdk}.
Context (generate_raw : StabilityInference → generate_kwargs → BaseException + answers).

Lemma boundary_try_body_eq api (p n k : string) (w h : Z) (fn : string) (s : State) :
  boundary.try_body generate_raw api p n k w h fn s
  = match generate_raw api (main.generate_call p n w h) with
    | inl b => (inl b, log s [Generate (main.generate_call p n w h)])
    | inr ans =>
        match main.for_resp fn ans main_locals0
                (log s [Generate (main.generate_call p n w h)]) with
        | (inl e, s') => (inl (InstanceOfException e), s')
        | (inr l, s') =>
            (inr (if main.image_saved_successfully l then Saved_response fn p n k
                  else [("error", JStr (main.error_message l));
                        ("details", JStr "Could not generate or save image.")]), s')
        end
    end.
Proof.
  unfold boundary.try_body, boundary.stability_api_generate, boundary.of_raised,
    boundary.within_Exception.
  fold main_locals0. unfold_M. simpl.
  fold (log s [Generate (main.generate_call p n w h)]).
  destruct (generate_raw api (main.generate_call p n w h)) as [b|ans]; [done|].
  destruct (main.for_resp fn ans main_locals0 _) as [[e|l] s']; [done|].
  by destruct (main.image_saved_successfully l).
Qed.

Lemma boundary_endpoint_ready (p n k u : string) (s : State) api (w h : Z) :
  stability_api s = Some api →
  dict_get k main.ASPECT_RATIOS = Some (w, h) →
  boundary.generate_image_endpoint generate_raw p n k u s
  = match boundary.try_body generate_raw api p n k w h (service_filename u)
            (log s (service_announce p n k w h u)) with
    | (inl (InstanceOfException e), s') =>
        (inr (ProviderCallFailed_response e),
         log s' [Print ("Error during image generation: " +:+ e)])
    | (inl (OutsideException c), s') => (inl c, s')
    | (inr r, s') => (inr r, s')
    end.
Proof.
  intros Hapi Hk. unfold boundary.generate_image_endpoint, get_stability_api.
  unfold mbind at 1, M_bind at 1. rewrite Hapi, Hk.
  unfold print. rewrite !bind_emit, log_log.
  assert (∀ s0 (k0 : M string Response),
    ((if truthy n then emit (Print ("  Negative Prompt: '" +:+ n +:+ "'")) else mret ());; k0) s0
    = k0 (log s0 (if truthy n then [Print ("  Negative Prompt: '" +:+ n +:+ "'")] else [])))
    as Hneg.
  { intros s0 k0. destruct (truthy n); [done|]. by rewrite log_nil. }
  rewrite Hneg, !bind_emit, !log_log. unfold boundary.try_except_Exception.
  replace (_ ++ _ ++ _ ++ _) with (service_announce p n k w h u)
    by (unfold service_announce, service_filename; by rewrite <- !app_assoc).
  fold (service_filename u).
  destruct (boundary.try_body _ _ _ _ _ _ _ _ _) as [[[e|c]|r] s']; [|done|done].
  by rewrite bind_emit.
Qed.

(** The endpoint with a client at hand and a key of the table, for a provider
    whose call may raise anything. *)
Lemma boundary_endpoint_spec (p n k u : string) (s : State) api (w h : Z) :
  stability_api s = Some api →
  dict_get k main.ASPECT_RATIOS = Some (w, h) →
  boundary.generate_image_endpoint generate_raw p n k u s
  = let kw := main.generate_call p n w h in
    let before := service_announce p n k w h u ++ [Generate kw] in
    match generate_raw api kw with
    | inl (OutsideException c) => (inl c, log s before)
    | inl (InstanceOfException e) =>
        (inr (ProviderCallFailed_response e),
         log s (before ++ [Print ("Error during image generation: " +:+ e)]))
    | inr ans =>
        match interpret [Warn main_filter_warning] (service_filename u) (scan ans) with
        | (inl e, evs) =>
            (inr (ProviderCallFailed_response e),
             log s (before ++ evs ++ [Print ("Error during image generation: " +:+ e)]))
        | (inr o, evs) =>
            (inr (service_response o (service_filename u) p n k), log s (before ++ evs))
        end
    end.
Proof.
  intros Hapi Hk. cbv zeta.
  rewrite (boundary_endpoint_ready p n k u s api w h Hapi Hk), boundary_try_body_eq.
  destruct (generate_raw api (main.generate_call p n w h)) as [[e|c]|ans].
  - by rewrite !log_log, <- ?app_assoc.
  - by rewrite !log_log.
  - rewrite main_loops_interpret.
    destruct (interpret _ _ _) as [[e|o] evs].
    + by rewrite !log_log, <- ?app_assoc.
    + rewrite !log_log, <- ?app_assoc. by destruct o.
Qed.

Lemma boundary_endpoint_not_initialized (p n k u : string) (s : State) :
  stability_api s = None →
  boundary.generate_image_endpoint generate_raw p n k u s
  = (inr (run (main.generate_image_endpoint p n k u) s).1,
     (run (main.generate_image_endpoint p n k u) s).2).
Proof.
  intros Hapi. rewrite (main_endpoint_not_initialized p n k u s Hapi).
  unfold boundary.generate_image_endpoint. unfold_M. by rewrite Hapi.
Qed.

Lemma boundary_endpoint_invalid (p n k u : string) (s : State) api :
  stability_api s = Some api →
  dict_get k main.ASPECT_RATIOS = None →
  boundary.generate_image_endpoint generate_raw p n k u s
  = (inr (run (main.generate_image_endpoint p n k u) s).1,
     (run (main.generate_image_endpoint p n k u) s).2).
Proof.
  intros Hapi Hk. rewrite (main_endpoint_invalid p n k u s api Hapi Hk).
  unfold boundary.generate_image_endpoint. unfold_M. by rewrite Hapi, Hk.
Qed.

(** Where the provider call raises within class [Exception] only, the endpoint
    is the one of [main]. *)
Lemma boundary_endpoint_within_Exception (p n k u : string) (s : State) :
  (∀ api kw, stability_api s = Some api →
     generate_raw api kw = only_Exception api kw) →
  boundary.generate_image_endpoint generate_raw p n k u s
  = (inr (run (main.generate_image_endpoint p n k u) s).1,
     (run (main.generate_image_endpoint p n k u) s).2).
Proof.
  intros Hsame.
  destruct (stability_api s) as [api|] eqn:Hapi;
    [|by apply boundary_endpoint_not_initialized].
  destruct (dict_get k main.ASPECT_RATIOS) as [[w h]|] eqn:Hk;
    [|by apply (boundary_endpoint_invalid p n k u s api)].
  rewrite (boundary_endpoint_spec p n k u s api w h Hapi Hk),
    (main_endpoint_spec p n k u s api w h Hapi Hk). cbv zeta.
  rewrite (Hsame api _ eq_refl). unfold only_Exception.
  destruct (generate api (main.generate_call p n w h)) as [e|ans]; [done|].
  simpl. by destruct (interpret _ _ _) as [[e|o] evs].
Qed.

(** What the endpoint returns, when it returns, has one of the six shapes. *)
Lemma boundary_endpoint_well_formed (p n k u : string) (s : State) (r : Response) :
  (boundary.generate_image_endpoint generate_raw p n k u s).1 = inr r → well_formed r.
Proof.
  destruct (stability_api s) as [api|] eqn:Hapi.
  2: { rewrite (boundary_endpoint_not_initialized p n k u s Hapi).
       intros [= <-]. apply main_endpoint_well_formed. }
  destruct (dict_get k main.ASPECT_RATIOS) as [[w h]|] eqn:Hk.
  2: { rewrite (boundary_endpoint_invalid p n k u s api Hapi Hk).
       intros [= <-]. apply main_endpoint_well_formed. }
  rewrite (boundary_endpoint_spec p n k u s api w h Hapi Hk). cbv zeta.
  destruct (generate_raw api _) as [[e|c]|ans]; [intros [= <-]; constructor|done|].
  destruct (interpret _ _ _) as [[e|o] evs]; intros [= <-]; [constructor|].
  apply service_response_well_formed.
Qed.

(** C8, as the code has it.  The handler is [except Exception].  Whatever
    exception [e] of class [Exception] the body of the [try] block raises (the
    call of the provider, the iteration of the stream, the decoding of a
    payload or the writing of the file), the endpoint prints it and returns
    the error object whose details are the text of [e]; and for every input
    and state on which nothing outside class [Exception] is raised, the
    endpoint returns an object of one of its six shapes.  This holds of the
    endpoint of [main], where every exception is of class [Exception], and of
    the endpoint at the boundary, where the provider call may raise anything
    under [BaseException].  There, an exception outside class [Exception]
    raised by the provider call is not caught: it escapes the handler after
    the announcement and the call, no error line is printed and no response
    object is returned.  Where the provider raises within class [Exception]
    only, the two endpoints agree. *)
Theorem C8_instances_of_Exception_become_error_responses
    (p n k u : string) (s : State) :
  (∀ api (w h : Z) (e : Exception) (s' : State),
     stability_api s = Some api →
     dict_get k main.ASPECT_RATIOS = Some (w, h) →
     main.try_body api p n k w h (service_filename u)
       (log s (service_announce p n k w h u)) = (inl e, s') →
     run (main.generate_image_endpoint p n k u) s
     = ([("error", JStr "Failed to generate image."); ("details", JStr e)],
        log s' [Print ("Error during image generation: " +:+ e)]))
  ∧
  (∀ api (w h : Z) (e : Exception),
     stability_api s = Some api →
     dict_get k main.ASPECT_RATIOS = Some (w, h) →
     (generate api (main.generate_call p n w h) = inl e
      ∨ ∃ ans, generate api (main.generate_call p n w h) = inr ans
          ∧ (scan ans = Raised e
             ∨ ∃ a, scan ans = Decisive a ∧ is_filter a = false
                 ∧ (Image_open (binary a) = inl e
                    ∨ ∃ img, Image_open (binary a) = inr img
                        ∧ Image_save img (service_filename u) = Some e))) →
     (run (main.generate_image_endpoint p n k u) s).1
     = [("error", JStr "Failed to generate image."); ("details", JStr e)])
  ∧ well_formed (run (main.generate_image_endpoint p n k u) s).1
  ∧
  (∀ api (w h : Z) (e : Exception) (s' : State),
     stability_api s = Some api →
     dict_get k main.ASPECT_RATIOS = Some (w, h) →
     boundary.try_body generate_raw api p n k w h (service_filename u)
       (log s (service_announce p n k w h u)) = (inl (InstanceOfException e), s') →
     boundary.generate_image_endpoint generate_raw p n k u s
     = (inr [("error", JStr "Failed to generate image."); ("details", JStr e)],
        log s' [Print ("Error during image generation: " +:+ e)]))
  ∧
  (∀ api (w h : Z) (e : Exception),
     stability_api s = Some api →
     dict_get k main.ASPECT_RATIOS = Some (w, h) →
     (generate_raw api (main.generate_call p n w h) = inl (InstanceOfException e)
      ∨ ∃ ans, generate_raw api (main.generate_call p n w h) = inr ans
          ∧ (scan ans = Raised e
             ∨ ∃ a, scan ans = Decisive a ∧ is_filter a = false
                 ∧ (Image_open (binary a) = inl e
                    ∨ ∃ img, Image_open (binary a) = inr img
                        ∧ Image_save img (service_filename u) = Some e))) →
     (boundary.generate_image_endpoint generate_raw p n k u s).1
     = inr [("error", JStr "Failed to generate image."); ("details", JStr e)])
  ∧
  (∀ api (w h : Z) (c : string),
     stability_api s = Some api →
     dict_get k main.ASPECT_RATIOS = Some (w, h) →
     generate_raw api (main.generate_call p n w h) = inl (OutsideException c) →
     boundary.generate_image_endpoint generate_raw p n k u s
     = (inl c, log s (service_announce p n k w h u
                      ++ [Generate (main.generate_call p n w h)])))
  ∧
  (∀ r, (boundary.generate_image_endpoint generate_raw p n k u s).1 = inr r →
        well_formed r)
  ∧
  ((∀ api kw, stability_api s = Some api →
      generate_raw api kw = only_Exception api kw) →
   boundary.generate_image_endpoint generate_raw p n k u s
   = (inr (run (main.generate_image_endpoint p n k u) s).1,
      (run (main.generate_image_endpoint p n k u) s).2)).
Proof.
  repeat split.
  - intros api w h e s' Hapi Hk Hbody.
    by rewrite (main_endpoint_ready p n k u s api w h Hapi Hk), Hbody.
  - intros api w h e Hapi Hk Hsrc.
    rewrite (main_endpoint_spec p n k u s api w h Hapi Hk). cbv zeta.
    destruct Hsrc as [-> | (ans & -> & [-> | (a & -> & Hf & Hcodec)])]; [done|done|].
    unfold interpret. rewrite Hf.
    destruct Hcodec as [-> | (img & -> & ->)]; done.
  - apply main_endpoint_well_formed.
  - intros api w h e s' Hapi Hk Hbody.
    by rewrite (boundary_endpoint_ready p n k u s api w h Hapi Hk), Hbody.
  - intros api w h e Hapi Hk Hsrc.
    rewrite (boundary_endpoint_spec p n k u s api w h Hapi Hk). cbv zeta.
    destruct Hsrc as [-> | (ans & -> & [-> | (a & -> & Hf & Hcodec)])]; [done|done|].
    unfold interpret. rewrite Hf.
    destruct Hcodec as [-> | (img & -> & ->)]; done.
  - intros api w h c Hapi Hk Hraw.
    rewrite (boundary_endpoint_spec p n k u s api w h Hapi Hk). cbv zeta.
    by rewrite Hraw.
  - apply boundary_endpoint_well_formed.
  - apply boundary_endpoint_within_Exception.
Qed.

End ExceptionBoundary.

Section ExceptionBoundaryExample.
Import Sample SampleBoundary.

Lemma C8_instances_of_Exception_become_error_responses_witness :
  (run (main.generate_image_endpoint "a cat" "" "1:1_square" "u1")
     (serving (inl "UNAVAILABLE"))).1
  = ProviderCallFailed_response "UNAVAILABLE"
  ∧ (boundary.generate_image_endpoint uninterrupted "a cat" "" "1:1_square" "u1"
       (serving (inr (Yield {| artifacts := [text_artifact] |}
                        (Raises "stream broken"))))).1
    = inr (ProviderCallFailed_response "stream broken")
  ∧ (boundary.generate_image_endpoint interrupted "a cat" "" "1:1_square" "u1"
       (serving (inr image_stream))).1
    = inl "KeyboardInterrupt".
Proof.
  split; [|split].
  - destruct (C8_instances_of_Exception_become_error_responses
                (pb2 := pb2) (pil := pil) (sdk := sdk) uninterrupted
                "a cat" "" "1:1_square" "u1" (serving (inl "UNAVAILABLE")))
      as (_ & Hsrc & _).
    apply (Hsrc (inl "UNAVAILABLE") 1024 1024 "UNAVAILABLE" eq_refl eq_refl).
    by left.
  - destruct (C8_instances_of_Exception_become_error_responses
                (pb2 := pb2) (pil := pil) (sdk := sdk) uninterrupted
                "a cat" "" "1:1_square" "u1"
                (serving (inr (Yield {| artifacts := [text_artifact] |}
                                 (Raises "stream broken")))))
      as (_ & _ & _ & _ & Hsrc & _).
    apply (Hsrc (inr (Yield {| artifacts := [text_artifact] |} (Raises "stream broken")))
             1024 1024 "stream broken" eq_refl eq_refl).
    right. eexists. split; [reflexivity|]. by left.
  - destruct (C8_instances_of_Exception_become_error_responses
                (pb2 := pb2) (pil := pil) (sdk := sdk) interrupted
                "a cat" "" "1:1_square" "u1" (serving (inr image_stream)))
      as (_ & _ & _ & _ & _ & Hescapes & _).
    by rewrite (Hescapes (inr image_stream) 1024 1024 "KeyboardInterrupt"
                  eq_refl eq_refl eq_refl).
Defined.

(** The provider call is interrupted from the keyboard: the handler does not
    catch the exception, the endpoint returns no response object, and the
    last thing the process did is the call. *)
Lemma C8_KeyboardInterrupt_escapes_the_handler :
  let m := boundary.generate_image_endpoint interrupted "a cat" "" "1:1_square" "u1"
             (serving (inr image_stream)) in
  m.1 = inl "KeyboardInterrupt"
  ∧ (∀ r, m.1 ≠ inr r)
  ∧ last (output m.2) = Some (Generate (main.generate_call "a cat" "" 1024 1024)).
Proof. vm_compute. split; [done|]. split; [by intros r|done]. Qed.

End ExceptionBoundaryExample.
